(** * weather_agent: the forecast normalisation of [WeatherTool.get_weather]

    A shallow embedding of [src/weather_tool.py] and the properties its
    specification states about it.

    Python values are modelled as the program sees them:
    - a [str] is its sequence of code points, so that slicing, comparison and
      [in] count code points as Python does;
    - the parsed response body is a JSON value ([json]), on which the
      subscript, [in] and truth-value operators raise what Python raises;
    - a [dict] whose iteration order is observable is an association list in
      insertion order;
    - an exception is a value of [exn] threaded through an error monad. *)

From Stdlib Require Import ZArith NArith List Bool Lia String Ascii.
From Stdlib Require Import Sorted Permutation SpecFloat DecimalString.
Import ListNotations.

Local Open Scope Z_scope.

(** ** Strings *)

(** A Python [str]: the list of its code points. *)
Definition str := list N.

(** Literals are written as Rocq strings, which hold the UTF-8 bytes of the
    source text; [utf8] decodes such bytes to code points ([pending] counts the
    continuation bytes still expected, [acc] holds the bits read so far). *)
Fixpoint utf8 (acc : N) (pending : nat) (bs : list N) : str :=
  match bs with
  | [] => []
  | b :: bs' =>
      match pending with
      | O =>
          if (b <? 128)%N then b :: utf8 0%N 0%nat bs'
          else if (b <? 224)%N then utf8 (N.land b 31) 1%nat bs'
          else if (b <? 240)%N then utf8 (N.land b 15) 2%nat bs'
          else utf8 (N.land b 7) 3%nat bs'
      | S O => (acc * 64 + N.land b 63)%N :: utf8 0%N 0%nat bs'
      | S n => utf8 (acc * 64 + N.land b 63)%N n bs'
      end
  end.

Definition lit (s : string) : str :=
  utf8 0%N 0%nat (map N_of_ascii (list_ascii_of_string s)).
Arguments lit s%_string : simpl never.

(** [a == b] on two [str]. *)
Fixpoint str_eqb (a b : str) : bool :=
  match a, b with
  | [], [] => true
  | x :: a', y :: b' => (x =? y)%N && str_eqb a' b'
  | _, _ => false
  end.

(** The order of [<], [>], [>=] on [str]: lexicographic on code points. *)
Fixpoint str_compare (a b : str) : comparison :=
  match a, b with
  | [], [] => Eq
  | [], _ :: _ => Lt
  | _ :: _, [] => Gt
  | x :: a', y :: b' =>
      match (x ?= y)%N with
      | Eq => str_compare a' b'
      | c => c
      end
  end.

Definition str_gt (a b : str) : bool :=
  match str_compare a b with Gt => true | _ => false end.

Definition str_ge (a b : str) : bool :=
  match str_compare a b with Lt => false | _ => true end.

Definition str_lt (a b : str) : bool :=
  match str_compare a b with Lt => true | _ => false end.

Fixpoint startswith (p s : str) : bool :=
  match p, s with
  | [], _ => true
  | x :: p', y :: s' => (x =? y)%N && startswith p' s'
  | _ :: _, [] => false
  end.

(** [needle in hay] on two [str]: substring search. *)
Fixpoint str_in (needle hay : str) : bool :=
  startswith needle hay ||
  match hay with
  | [] => false
  | _ :: hay' => str_in needle hay'
  end.

(** [sep.join(parts)]. *)
Fixpoint join (sep : str) (parts : list str) : str :=
  match parts with
  | [] => []
  | [p] => p
  | p :: ps => p ++ sep ++ join sep ps
  end.

(** [s[i:j]] and [s[i:]] for non-negative literal bounds. *)
Definition slice (i j : nat) (s : str) : str := skipn i (firstn j s).
Definition slice_from (i : nat) (s : str) : str := skipn i s.

(** [str(z)] of an [int]. *)
Definition str_of_Z (z : Z) : str := lit (NilZero.string_of_int (Z.to_int z)).

(** [f"{z:0{w}d}"]: sign-aware zero padding to width [w]. *)
Definition zfill (w : nat) (s : str) : str :=
  repeat 48%N (w - List.length s) ++ s.

Definition fmt_0d (w : nat) (z : Z) : str :=
  if z <? 0 then 45%N :: zfill (w - 1) (str_of_Z (- z))
  else zfill w (str_of_Z z).

(** ** [datetime] *)

(** A reading of [datetime.datetime.now()] (the seconds are never used). *)
Record datetime := mk_datetime {
  year : Z; month : Z; day : Z; hour : Z; minute : Z
}.

Definition is_leap (y : Z) : bool :=
  (y mod 4 =? 0) && (negb (y mod 100 =? 0) || (y mod 400 =? 0)).

Definition days_in_month (y m : Z) : Z :=
  if m =? 2 then (if is_leap y then 29 else 28)
  else if (m =? 4) || (m =? 6) || (m =? 9) || (m =? 11) then 30
  else 31.

(** [d - datetime.timedelta(days=1)]: the same time on the previous calendar
    day.  (Python raises [OverflowError] on 0001-01-01 only, a date the system
    clock read by [datetime.now()] does not yield.) *)
Definition minus_one_day (d : datetime) : datetime :=
  if 1 <? day d then
    mk_datetime (year d) (month d) (day d - 1) (hour d) (minute d)
  else if 1 <? month d then
    mk_datetime (year d) (month d - 1) (days_in_month (year d) (month d - 1))
                (hour d) (minute d)
  else
    mk_datetime (year d - 1) 12 31 (hour d) (minute d).

(** [d.strftime("%Y%m%d")] and [d.strftime("%H%M")]. *)
Definition strftime_Ymd (d : datetime) : str :=
  fmt_0d 4 (year d) ++ fmt_0d 2 (month d) ++ fmt_0d 2 (day d).

Definition strftime_HM (d : datetime) : str :=
  fmt_0d 2 (hour d) ++ fmt_0d 2 (minute d).

(** ** Batch selection (lines 60-80 of [get_weather]) *)

Definition forecast_hours : list Z := [2; 5; 8; 11; 14; 17; 20; 23].

(** [sorted(l, reverse=True)] on a list of [int]: a stable insertion sort
    into descending order. *)
Fixpoint insert_desc (x : Z) (l : list Z) : list Z :=
  match l with
  | [] => [x]
  | y :: l' => if y <? x then x :: l else y :: insert_desc x l'
  end.

Definition sorted_reverse (l : list Z) : list Z :=
  fold_left (fun acc x => insert_desc x acc) l [].

(** The [for ... break] loop: the first hour of the descending list that
    [current_hour] has reached, or [None]. *)
Definition latest_hour (current_hour : Z) : option Z :=
  find (fun h => current_hour >=? h) (sorted_reverse forecast_hours).

(** The pair [(base_date, base_time)] the request is made with. *)
Definition select_batch (now : datetime) : str * str :=
  match latest_hour (hour now) with
  | Some h => (strftime_Ymd now, fmt_0d 2 h ++ lit "00")
  | None => (strftime_Ymd (minus_one_day now), lit "2300")
  end.

(** ** JSON values and the Python operators applied to them *)

(** What [response.json()] returns.  An object is the [dict] the parser
    builds: its keys in insertion order, each key once. *)
#[local] Unset Elimination Schemes.
Inductive json :=
| JNull
| JBool (b : bool)
| JInt (z : Z)
| JFloat (f : spec_float)
| JStr (s : str)
| JArr (l : list json)
| JObj (o : list (str * json)).
#[local] Set Elimination Schemes.

(** The exceptions of the [except] clauses, and [TypeError], which none of
    them names. *)
Inductive exn :=
| RequestException (msg : str)
| KeyError (key : str)
| IndexError (msg : str)
| ValueError (msg : str)
| TypeError.

(** Computations that may raise. *)
Definition M (A : Type) : Type := exn + A.

Definition ret {A} (a : A) : M A := inr a.
Definition raise {A} (e : exn) : M A := inl e.
Definition bind {A B} (m : M A) (k : A -> M B) : M B :=
  match m with
  | inl e => inl e
  | inr a => k a
  end.

Notation "x <- m ;; k" := (bind m (fun x => k))
  (at level 61, m at next level, right associativity).

(** [d.get(k)] and [k in d] on an insertion-ordered [dict] with [str] keys. *)
Fixpoint dict_get {V} (k : str) (d : list (str * V)) : option V :=
  match d with
  | [] => None
  | (k', v) :: d' => if str_eqb k k' then Some v else dict_get k d'
  end.

Definition dict_has {V} (k : str) (d : list (str * V)) : bool :=
  match dict_get k d with Some _ => true | None => false end.

(** [d[k] = v]: an existing key keeps its position, a new key goes last. *)
Fixpoint dict_set {V} (k : str) (v : V) (d : list (str * V)) : list (str * V) :=
  match d with
  | [] => [(k, v)]
  | (k', v') :: d' =>
      if str_eqb k k' then (k', v) :: d' else (k', v') :: dict_set k v d'
  end.

Definition keys {V} (d : list (str * V)) : list str := map fst d.
Definition values {V} (d : list (str * V)) : list V := map snd d.

Definition is_str (v : json) (s : str) : bool :=
  match v with JStr s' => str_eqb s' s | _ => false end.

(** [k in v] for a [str] [k]: key membership in a [dict], element membership
    in a [list], substring in a [str]; the other values are not iterable. *)
Definition py_in (k : str) (v : json) : M bool :=
  match v with
  | JObj o => ret (dict_has k o)
  | JArr l => ret (existsb (fun x => is_str x k) l)
  | JStr s => ret (str_in k s)
  | _ => raise TypeError
  end.

(** [v[k]] for a [str] [k]: only a [dict] accepts a [str] subscript. *)
Definition py_getitem (v : json) (k : str) : M json :=
  match v with
  | JObj o =>
      match dict_get k o with
      | Some x => ret x
      | None => raise (KeyError k)
      end
  | _ => raise TypeError
  end.

(** The truth value of [v], as [not v] and [if v] test it. *)
Definition py_bool (v : json) : bool :=
  match v with
  | JNull => false
  | JBool b => b
  | JInt z => negb (z =? 0)
  | JFloat (S754_zero _) => false
  | JFloat _ => true
  | JStr s => match s with [] => false | _ => true end
  | JArr l => match l with [] => false | _ => true end
  | JObj o => match o with [] => false | _ => true end
  end.

(** [for x in v]: the elements of a [list], the keys of a [dict], the
    characters of a [str]. *)
Definition py_iter (v : json) : M (list json) :=
  match v with
  | JArr l => ret l
  | JObj o => ret (map JStr (keys o))
  | JStr s => ret (map (fun c => JStr [c]) s)
  | _ => raise TypeError
  end.

(** [v > s] and [v >= s] against a [str]: defined between two [str] only. *)
Definition py_gt_str (v : json) (s : str) : M bool :=
  match v with
  | JStr a => ret (str_gt a s)
  | _ => raise TypeError
  end.

Definition py_ge_str (v : json) (s : str) : M bool :=
  match v with
  | JStr a => ret (str_ge a s)
  | _ => raise TypeError
  end.

(** [a or b] and [a and b] evaluate [b] only when [a] does not decide. *)
Definition py_or (a b : M bool) : M bool :=
  x <- a ;; if x then ret true else b.

Definition py_and (a b : M bool) : M bool :=
  x <- a ;; if x then b else ret false.

Definition py_not_in (k : str) (v : json) : M bool :=
  b <- py_in k v ;; ret (negb b).

(** [v in d] and [d.get(v, default)] hash [v] first: a [list] or a [dict] is
    unhashable; no other value than a [str] equals a [str] key. *)
Definition py_lookup {V} (v : json) (d : list (str * V)) : M (option V) :=
  match v with
  | JArr _ | JObj _ => raise TypeError
  | JStr s => ret (dict_get s d)
  | _ => ret None
  end.

(** [str(e)] of a caught exception; the keys that can be missing are the
    plain identifiers of the source, whose [repr] is the key in quotes. *)
Definition str_of_exn (e : exn) : str :=
  match e with
  | RequestException msg => msg
  | KeyError k => lit "'" ++ k ++ lit "'"
  | IndexError msg => msg
  | ValueError msg => msg
  | TypeError => []
  end.

(** ** The HTTP exchange *)

(** The [params] of the GET request, with the URL it is sent to. *)
Record request := mk_request {
  req_url : str;
  serviceKey : str;
  pageNo : str;
  numOfRows : str;
  dataType : str;
  base_date : str;
  base_time : str;
  nx : Z;
  ny : Z
}.

(** What the program reads of a response: [status_code], [text], and the
    result of [json()] ([None] when it raises [JSONDecodeError]; any other
    exception of [json()] is outside the model).  The JSON parser is not
    modelled: [text] and [json_body] are two readings of the body that the
    model does not relate. *)
Record response := mk_response {
  status_code : Z;
  text : str;
  json_body : option json
}.

(** [requests.get] returns a response or raises (a [RequestException], when
    the network fails). *)
Definition http := request -> M response.

(** ** Results *)

(** A slot of ["forecasts"]. *)
Record forecast_slot := mk_slot {
  slot_date : str;
  slot_time : str;
  slot_data : list (str * json)
}.

(** The ["current"] entry. *)
Record current_snapshot := mk_current {
  temperature : json;
  sky : json;
  precipitation_type : json;
  precipitation_probability : json;
  humidity : json;
  wind_speed : json
}.

(** The [weather_info] dictionary; [current = None] when the key is absent. *)
Record weather_info := mk_info {
  location : str;
  date : str;
  time : str;
  forecasts : list forecast_slot;
  current : option current_snapshot
}.

(** The returned dictionary: [{"error": msg}] or [weather_info]. *)
Inductive result :=
| Error (msg : str)
| Weather (info : weather_info).

(** How a call ends. *)
Inductive outcome :=
| Returns (r : result)
| Raises (e : exn).

(** ** The tables of [get_weather] *)

Definition base_url : str :=
  lit "http://apis.data.go.kr/1360000/VilageFcstInfoService_2.0/getVilageFcst".

(** [location_codes]: name to [(nx, ny)]. *)
Definition location_codes : list (str * (Z * Z)) :=
  [ (lit "서울", (60, 127)); (lit "인천", (55, 124)); (lit "부산", (98, 76));
    (lit "대구", (89, 90)); (lit "광주", (58, 74)); (lit "대전", (67, 100));
    (lit "울산", (102, 84)); (lit "세종", (66, 103)); (lit "경기", (60, 120));
    (lit "강원", (73, 134)); (lit "충북", (69, 107)); (lit "충남", (68, 100));
    (lit "전북", (63, 89)); (lit "전남", (51, 67)); (lit "경북", (89, 91));
    (lit "경남", (91, 77)); (lit "제주", (52, 38));
    (lit "구로구", (58, 125)); (lit "은평구", (59, 127));
    (lit "양천구", (58, 126)) ].

Definition weather_codes : list (str * str) :=
  [ (lit "POP", lit "강수확률"); (lit "PTY", lit "강수형태");
    (lit "REH", lit "습도"); (lit "SKY", lit "하늘상태");
    (lit "TMP", lit "기온"); (lit "TMN", lit "최저기온");
    (lit "TMX", lit "최고기온"); (lit "UUU", lit "동서바람성분");
    (lit "VVV", lit "남북바람성분"); (lit "WAV", lit "파고");
    (lit "VEC", lit "풍향"); (lit "WSD", lit "풍속") ].

Definition pty_codes : list (str * str) :=
  [ (lit "0", lit "없음"); (lit "1", lit "비"); (lit "2", lit "비/눈");
    (lit "3", lit "눈"); (lit "4", lit "소나기") ].

Definition sky_codes : list (str * str) :=
  [ (lit "1", lit "맑음"); (lit "3", lit "구름많음"); (lit "4", lit "흐림") ].

(** ** The messages of the error results

    The source returns [{"error": msg}] and tells the errors apart by their
    message only.  In the taxonomy of the specification: [msg_no_api_key] is
    the ConfigError; [msg_no_location] the LookupError; [msg_status] and
    [msg_request_failed] the TransportError; the five messages of the XML
    envelope and [msg_api_error] the ServiceError; [msg_not_json],
    [msg_bad_format] and [msg_no_weather_data] the FormatError; [msg_no_data]
    the EmptyDataError.  [msg_processing_failed] reports a caught [KeyError],
    [IndexError] or [ValueError]. *)

Definition msg_no_api_key : str :=
  lit "기상청 API 키가 설정되지 않았습니다. .env 파일에 유효한 API 키를 설정해주세요.".

Definition msg_no_location (loc : str) : str :=
  lit "'" ++ loc ++ lit "'에 대한 위치 코드가 없습니다. 다음 중 하나를 입력해주세요: "
  ++ join (lit ", ") (keys location_codes).

Definition msg_status (code : Z) : str :=
  lit "날씨 정보를 가져오는 중 오류가 발생했습니다. 상태 코드: " ++ str_of_Z code.

Definition msg_invalid_key : str :=
  lit "API 키가 유효하지 않거나 등록되지 않았습니다. 공공데이터포털에서 발급받은 올바른 API 키를 사용해주세요.".

Definition msg_unregistered_key : str :=
  lit "등록되지 않은 API 키입니다. 공공데이터포털에서 발급받은 올바른 API 키를 사용해주세요.".

Definition msg_limit_exceeded : str :=
  lit "일일 요청 한도를 초과했습니다. 내일 다시 시도해주세요.".

Definition msg_deadline_expired : str :=
  lit "API 사용 기간이 만료되었습니다. 공공데이터포털에서 API 사용 신청을 갱신해주세요.".

Definition msg_invalid_parameter : str :=
  lit "잘못된 파라미터가 전달되었습니다. base_date와 base_time을 확인해주세요.".

Definition msg_not_json : str :=
  lit "API 응답을 JSON으로 파싱할 수 없습니다.".

Definition msg_bad_format : str :=
  lit "API 응답 형식이 올바르지 않습니다.".

Definition msg_api_error (result_msg : str) : str :=
  lit "API 호출 오류: " ++ result_msg.

Definition msg_no_weather_data : str :=
  lit "API 응답에 날씨 데이터가 없습니다.".

Definition msg_no_data : str :=
  lit "날씨 데이터가 없습니다.".

Definition msg_request_failed (e : str) : str :=
  lit "날씨 정보를 가져오는 중 오류가 발생했습니다: " ++ e.

Definition msg_processing_failed (e : str) : str :=
  lit "날씨 데이터 처리 중 오류가 발생했습니다: " ++ e.

Definition no_info : json := JStr (lit "정보 없음").

(** The XML error envelope (lines 102-114): the first fault token found in
    the body chooses the message. *)
Definition xml_envelope : str := lit "<OpenAPI_ServiceResponse>".

Definition xml_error_msg (body : str) : str :=
  if str_in (lit "SERVICE_KEY_IS_NOT_REGISTERED_ERROR") body then
    msg_unregistered_key
  else if str_in (lit "SERVICE_KEY_IS_NOT_REGISTERED") body then
    msg_unregistered_key
  else if str_in (lit "LIMITED_NUMBER_OF_SERVICE_REQUESTS_EXCEEDS_ERROR") body then
    msg_limit_exceeded
  else if str_in (lit "DEADLINE_HAS_EXPIRED") body then
    msg_deadline_expired
  else if str_in (lit "INVALID_PARAMETER") body then
    msg_invalid_parameter
  else msg_invalid_key.

(** ** The decoder (lines 178-231) *)

(** An entry of [current_forecast]: [{"date": .., "time": .., "data": {}}],
    holding the item's fields as they came. *)
Record raw_slot := mk_raw {
  raw_date : json;
  raw_time : json;
  raw_data : list (str * json)
}.

(** What the interpreter contributes beyond the source text.
    - [str_of_value v] is [str(v)] for a [v] that is not a [str], as an
      f-string applies it.
    - [mixed_tail] is the rest of the [try] block (from [sorted] on) when some
      slot carries a time that is not a [str]: what [sorted] compares and
      what slicing such a time gives is settled by the interpreter, not by
      the source.  With times that are [str], as the API sends them, the
      source settles everything and [mixed_tail] is not consulted. *)
Record runtime := mk_runtime {
  str_of_value : json -> str;
  mixed_tail : str -> str -> str -> list raw_slot -> M result
}.

(** The order of the sort key [(x["date"], x["time"])] on two [str] pairs. *)
Definition key_lt (a b : forecast_slot) : bool :=
  match str_compare (slot_date a) (slot_date b) with
  | Lt => true
  | Eq => str_lt (slot_time a) (slot_time b)
  | Gt => false
  end.

(** [sorted(slots, key=...)]: the stable sort into ascending key order. *)
Fixpoint insert_slot (x : forecast_slot) (l : list forecast_slot)
  : list forecast_slot :=
  match l with
  | [] => [x]
  | y :: l' => if key_lt x y then x :: l else y :: insert_slot x l'
  end.

Definition sorted_slots (l : list forecast_slot) : list forecast_slot :=
  fold_left (fun acc x => insert_slot x acc) l [].

(** A slot whose date and time are both [str]. *)
Definition str_slot (s : raw_slot) : option forecast_slot :=
  match raw_date s, raw_time s with
  | JStr d, JStr t => Some (mk_slot d t (raw_data s))
  | _, _ => None
  end.

Fixpoint str_slots (l : list raw_slot) : option (list forecast_slot) :=
  match l with
  | [] => Some []
  | s :: l' =>
      match str_slot s, str_slots l' with
      | Some x, Some xs => Some (x :: xs)
      | _, _ => None
      end
  end.

(** Lines 212-219: [MM/DD] and [HH:MM] from [YYYYMMDD] and [HHMM]. *)
Definition format_slot (f : forecast_slot) : forecast_slot :=
  mk_slot (slice 4 6 (slot_date f) ++ lit "/" ++ slice_from 6 (slot_date f))
          (slice 0 2 (slot_time f) ++ lit ":" ++ slice_from 2 (slot_time f))
          (slot_data f).

(** [d.get(k, "정보 없음")]. *)
Definition get_or_no_info (k : str) (d : list (str * json)) : json :=
  match dict_get k d with
  | Some v => v
  | None => no_info
  end.

(** Lines 224-231. *)
Definition snapshot (current_data : list (str * json)) : current_snapshot :=
  mk_current (get_or_no_info (lit "기온") current_data)
             (get_or_no_info (lit "하늘상태") current_data)
             (get_or_no_info (lit "강수형태") current_data)
             (get_or_no_info (lit "강수확률") current_data)
             (get_or_no_info (lit "습도") current_data)
             (get_or_no_info (lit "풍속") current_data).

(** Lines 207-233 on slots with [str] times. *)
Definition assemble (loc base_date base_time : str) (slots : list forecast_slot)
  : weather_info :=
  let sorted_forecasts := sorted_slots slots in
  let forecasts := map format_slot (firstn 24 sorted_forecasts) in
  mk_info loc base_date base_time forecasts
          match forecasts with
          | [] => None
          | first :: _ => Some (snapshot (slot_data first))
          end.

(** [codes.get(v, v)] for the PTY and SKY tables. *)
Definition decode_code (codes : list (str * str)) (v : json) : M json :=
  r <- py_lookup v codes ;;
  ret match r with
      | Some label => JStr label
      | None => v
      end.

(** [current_forecast[key]["data"][label] = value], after the slot was
    created if [key] was not there. *)
Definition store (key : str) (fcst_date fcst_time : json) (label : str)
    (value : json) (cf : list (str * raw_slot)) : list (str * raw_slot) :=
  let slot :=
    match dict_get key cf with
    | Some s => s
    | None => mk_raw fcst_date fcst_time []
    end in
  dict_set key
    (mk_raw (raw_date slot) (raw_time slot) (dict_set label value (raw_data slot)))
    cf.

Section Decoder.

Variable rt : runtime.
Variable now : datetime.
Variable batch_date : str.

(** [f"{v}"]. *)
Definition format_value (v : json) : str :=
  match v with
  | JStr s => s
  | _ => str_of_value rt v
  end.

(** The test of line 187. *)
Definition at_or_after (fcst_date fcst_time : json) : M bool :=
  py_or (py_gt_str fcst_date batch_date)
        (py_and (ret (is_str fcst_date batch_date))
                (py_ge_str fcst_time (strftime_HM now))).

(** One turn of the loop of line 180. *)
Definition step (cf : list (str * raw_slot)) (item : json)
  : M (list (str * raw_slot)) :=
  category <- py_getitem item (lit "category") ;;
  fcst_date <- py_getitem item (lit "fcstDate") ;;
  fcst_time <- py_getitem item (lit "fcstTime") ;;
  keep <- at_or_after fcst_date fcst_time ;;
  if keep then
    known <- py_lookup category weather_codes ;;
    match known with
    | Some label =>
        value <-
          (if is_str category (lit "PTY") then
             v <- py_getitem item (lit "fcstValue") ;; decode_code pty_codes v
           else if is_str category (lit "SKY") then
             v <- py_getitem item (lit "fcstValue") ;; decode_code sky_codes v
           else py_getitem item (lit "fcstValue")) ;;
        let forecast_key :=
          format_value fcst_date ++ lit "_" ++ format_value fcst_time in
        ret (store forecast_key fcst_date fcst_time label value cf)
    | None => ret cf
    end
  else ret cf.

Fixpoint loop (cf : list (str * raw_slot)) (items : list json)
  : M (list (str * raw_slot)) :=
  match items with
  | [] => ret cf
  | item :: rest => cf' <- step cf item ;; loop cf' rest
  end.

(** Lines 138-233. *)
Definition decode (loc base_time : str) (items : json) : M result :=
  l <- py_iter items ;;
  current_forecast <- loop [] l ;;
  match str_slots (values current_forecast) with
  | Some slots => ret (Weather (assemble loc batch_date base_time slots))
  | None => mixed_tail rt loc batch_date base_time (values current_forecast)
  end.

(** Lines 116-136 and on: the parsed body. *)
Definition parsed (loc base_time : str) (data : json) : M result :=
  no_header <-
    py_or (py_not_in (lit "response") data)
          (r <- py_getitem data (lit "response") ;; py_not_in (lit "header") r) ;;
  if no_header then ret (Error msg_bad_format) else
  r <- py_getitem data (lit "response") ;;
  header <- py_getitem r (lit "header") ;;
  result_code <- py_getitem header (lit "resultCode") ;;
  if negb (is_str result_code (lit "00")) then
    result_msg <- py_getitem header (lit "resultMsg") ;;
    ret (Error (msg_api_error (format_value result_msg)))
  else
  no_items <-
    py_or (py_not_in (lit "body") r)
      (py_or (b <- py_getitem r (lit "body") ;; py_not_in (lit "items") b)
             (b <- py_getitem r (lit "body") ;;
              i <- py_getitem b (lit "items") ;;
              py_not_in (lit "item") i)) ;;
  if no_items then ret (Error msg_no_weather_data) else
  b <- py_getitem r (lit "body") ;;
  i <- py_getitem b (lit "items") ;;
  items <- py_getitem i (lit "item") ;;
  if negb (py_bool items) then ret (Error msg_no_data) else
  decode loc base_time items.

(** Lines 98-120: the response. *)
Definition received (loc base_time : str) (resp : response) : M result :=
  if negb (status_code resp =? 200) then
    ret (Error (msg_status (status_code resp)))
  else if str_in xml_envelope (text resp) then
    ret (Error (xml_error_msg (text resp)))
  else
    match json_body resp with
    | None => ret (Error msg_not_json)
    | Some data => parsed loc base_time data
    end.

End Decoder.

(** The [except] clauses of lines 235-238; any other exception leaves
    [get_weather]. *)
Definition handle (m : M result) : outcome :=
  match m with
  | inr r => Returns r
  | inl (RequestException _ as e) =>
      Returns (Error (msg_request_failed (str_of_exn e)))
  | inl (KeyError _ as e) | inl (IndexError _ as e) | inl (ValueError _ as e) =>
      Returns (Error (msg_processing_failed (str_of_exn e)))
  | inl e => Raises e
  end.

(** [not self.api_key]: the variable is unset or empty. *)
Definition no_key (api_key : option str) : bool :=
  match api_key with
  | None | Some [] => true
  | Some _ => false
  end.

(** ** [WeatherTool.get_weather]

    [api_key] is [self.api_key], [now] what [datetime.now()] reads and [get]
    the behaviour of [requests.get].  The result comes with the list of the
    requests sent. *)
Definition get_weather (rt : runtime) (api_key : option str) (loc : str)
    (now : datetime) (get : http) : list request * outcome :=
  if no_key api_key then ([], Returns (Error msg_no_api_key)) else
  match dict_get loc location_codes with
  | None => ([], Returns (Error (msg_no_location loc)))
  | Some (x, y) =>
      let '(base_date, base_time) := select_batch now in
      let params :=
        mk_request base_url (match api_key with Some k => k | None => [] end)
                   (lit "1") (lit "1000") (lit "JSON") base_date base_time x y in
      ([params],
       handle (resp <- get params ;; received rt now base_date loc base_time resp))
  end.

(** ** Well-formed input

    The upstream API sends each record as an object whose [category],
    [fcstDate], [fcstTime] and [fcstValue] are strings (among other fields),
    inside [response.body.items.item] of a body of result code 00. *)

(** A RawForecastItem. *)
Record raw_item := mk_item {
  category : str;
  fcstDate : str;
  fcstTime : str;
  fcstValue : str
}.

(** The object with exactly the four fields of [it]. *)
Definition item_json (it : raw_item) : json :=
  JObj [ (lit "category", JStr (category it));
         (lit "fcstDate", JStr (fcstDate it));
         (lit "fcstTime", JStr (fcstTime it));
         (lit "fcstValue", JStr (fcstValue it)) ].

(** [j] is an object that holds the four fields of [it], and maybe more. *)
Definition represents (j : json) (it : raw_item) : Prop :=
  exists o,
    j = JObj o /\
    dict_get (lit "category") o = Some (JStr (category it)) /\
    dict_get (lit "fcstDate") o = Some (JStr (fcstDate it)) /\
    dict_get (lit "fcstTime") o = Some (JStr (fcstTime it)) /\
    dict_get (lit "fcstValue") o = Some (JStr (fcstValue it)).

(** [data] is a body of result code 00 whose [response.body.items.item] is
    [items]. *)
Definition carries (data items : json) : Prop :=
  exists o r h b i,
    data = JObj o /\
    dict_get (lit "response") o = Some (JObj r) /\
    dict_get (lit "header") r = Some (JObj h) /\
    dict_get (lit "resultCode") h = Some (JStr (lit "00")) /\
    dict_get (lit "body") r = Some (JObj b) /\
    dict_get (lit "items") b = Some (JObj i) /\
    dict_get (lit "item") i = Some items.

(** The request [get_weather] sends for the grid point [(x, y)]. *)
Definition request_for (key : str) (now : datetime) (x y : Z) : request :=
  mk_request base_url key (lit "1") (lit "1000") (lit "JSON")
             (fst (select_batch now)) (snd (select_batch now)) x y.

(** With the key [key] set and [loc] at the grid point [(x, y)], the exchange
    [get] answers the request with status 200 and a JSON body, free of the
    XML envelope, that carries [items]. *)
Definition delivers (get : http) (api_key : option str) (loc : str)
    (now : datetime) (items : json) : Prop :=
  exists key x y resp data,
    api_key = Some key /\ key <> [] /\
    dict_get loc location_codes = Some (x, y) /\
    get (request_for key now x y) = ret resp /\
    status_code resp = 200 /\
    str_in xml_envelope (text resp) = false /\
    json_body resp = Some data /\
    carries data items.

(** The test of line 187 on a well-formed item. *)
Definition kept (now : datetime) (batch_date : str) (it : raw_item) : bool :=
  str_gt (fcstDate it) batch_date
  || (str_eqb (fcstDate it) batch_date
      && str_ge (fcstTime it) (strftime_HM now)).

(** The value stored for a well-formed item (lines 189-194). *)
Definition decoded (it : raw_item) : str :=
  if str_eqb (category it) (lit "PTY") then
    match dict_get (fcstValue it) pty_codes with
    | Some label => label
    | None => fcstValue it
    end
  else if str_eqb (category it) (lit "SKY") then
    match dict_get (fcstValue it) sky_codes with
    | Some label => label
    | None => fcstValue it
    end
  else fcstValue it.

(** [forecast_key] of a well-formed item. *)
Definition slot_key (it : raw_item) : str :=
  fcstDate it ++ lit "_" ++ fcstTime it.

(** One turn of the loop on a well-formed item. *)
Definition step_item (now : datetime) (batch_date : str)
    (cf : list (str * raw_slot)) (it : raw_item) : list (str * raw_slot) :=
  if kept now batch_date it then
    match dict_get (category it) weather_codes with
    | Some label =>
        store (slot_key it) (JStr (fcstDate it)) (JStr (fcstTime it)) label
              (JStr (decoded it)) cf
    | None => cf
    end
  else cf.

(** The key under which the loop files a timestamp. *)
Definition key_of_stamp (st : str * str) : str := fst st ++ lit "_" ++ snd st.

(** A slot as [sorted] receives it, once its date and time are known to be
    [str]. *)
Definition typed_slot (s : raw_slot) : forecast_slot :=
  mk_slot (match raw_date s with JStr d => d | _ => [] end)
          (match raw_time s with JStr t => t | _ => [] end)
          (raw_data s).

(** The slots the loop leaves for well-formed items, in insertion order. *)
Definition slots_of (now : datetime) (batch_date : str) (items : list raw_item)
  : list forecast_slot :=
  map typed_slot (values (fold_left (step_item now batch_date) items [])).

(** [(d, t)] is at or after [(d0, t0)] in the order of the timestamps. *)
Definition stamp_ge (d t d0 t0 : str) : bool :=
  match str_compare d d0 with
  | Gt => true
  | Eq => str_ge t t0
  | Lt => false
  end.

(** The timestamp [(YYYYMMDD, HHMM)] of a slot before it is reformatted. *)
Definition stamp (f : forecast_slot) : str * str := (slot_date f, slot_time f).

Definition key_le (a b : forecast_slot) : bool := negb (key_lt b a).

(** The invariant of the loop on well-formed items: the entry [label: v]
    under [key] was written for an item of [items] that passed the test of
    line 187 and whose category is known. *)
Definition origin (now : datetime) (bd : str) (items : list raw_item)
    (key label : str) (v : json) : Prop :=
  exists it,
    In it items /\ kept now bd it = true /\ slot_key it = key /\
    dict_get (category it) weather_codes = Some label /\
    v = JStr (decoded it).

Definition slot_inv (now : datetime) (bd : str) (items : list raw_item)
    (key : str) (s : raw_slot) : Prop :=
  exists d t,
    raw_date s = JStr d /\ raw_time s = JStr t /\
    key = d ++ lit "_" ++ t /\
    str_gt d bd || (str_eqb d bd && str_ge t (strftime_HM now)) = true /\
    NoDup (keys (raw_data s)) /\
    forall label v,
      In (label, v) (raw_data s) -> origin now bd items key label v.

Definition loop_inv (now : datetime) (bd : str) (items : list raw_item)
    (cf : list (str * raw_slot)) : Prop :=
  NoDup (keys cf) /\
  (forall key s, In (key, s) cf -> slot_inv now bd items key s) /\
  (forall it label,
     In it items -> kept now bd it = true ->
     dict_get (category it) weather_codes = Some label ->
     exists s,
       dict_get (slot_key it) cf = Some s /\
       dict_has label (raw_data s) = true).

(** [a] comes strictly before [b], resp. not after [b], in the order of the
    sort key. *)
Definition before (a b : forecast_slot) : Prop := key_lt a b = true.
Definition not_after (a b : forecast_slot) : Prop := key_le a b = true.

(** The times of an IssuanceBatch. *)
Definition issuance_times : list str :=
  [ lit "0200"; lit "0500"; lit "0800"; lit "1100";
    lit "1400"; lit "1700"; lit "2000"; lit "2300" ].

(** A runtime to evaluate examples with: on the inputs of the examples below
    neither field is consulted. *)
Definition rt0 : runtime :=
  mk_runtime (fun _ => []) (fun _ _ _ _ => raise TypeError).

(** A body of result code 00 carrying [items], and a response with it. *)
Definition body_of (items : json) : json :=
  JObj [ (lit "response",
          JObj [ (lit "header",
                  JObj [ (lit "resultCode", JStr (lit "00"));
                         (lit "resultMsg", JStr (lit "NORMAL_SERVICE")) ]);
                 (lit "body",
                  JObj [ (lit "dataType", JStr (lit "JSON"));
                         (lit "items", JObj [ (lit "item", items) ]) ]) ]) ].

Definition ok_response (items : json) : response :=
  mk_response 200 [] (Some (body_of items)).

Definition item (c d t v : string) : raw_item :=
  mk_item (lit c) (lit d) (lit t) (lit v).

(** A well-formed item that the loop stores: it passes the test of line 187
    and its category is one of [weather_codes]. *)
Definition relevant (now : datetime) (batch_date : str) (it : raw_item) : bool :=
  kept now batch_date it && dict_has (category it) weather_codes.

(** The timestamp of a well-formed item, and the order of timestamps. *)
Definition item_stamp (it : raw_item) : str * str := (fcstDate it, fcstTime it).

Definition stamp_le (a b : str * str) : Prop :=
  stamp_ge (fst b) (snd b) (fst a) (snd a) = true.

(** The slot [s] of [current_forecast] carries the date and time of an item
    of [items] that the loop stored, and some data. *)
Definition slot_from (now : datetime) (bd : str) (items : list raw_item)
    (s : raw_slot) : Prop :=
  raw_data s <> [] /\
  exists it,
    In it items /\ relevant now bd it = true /\
    raw_date s = JStr (fcstDate it) /\ raw_time s = JStr (fcstTime it).

(** [v] is a [list] or a [dict], which cannot be hashed. *)
Definition unhashable (v : json) : bool :=
  match v with
  | JArr _ | JObj _ => true
  | _ => false
  end.

(** [category] is one of the two whose values are looked up in a table. *)
Definition coded (category : str) : bool :=
  str_eqb category (lit "PTY") || str_eqb category (lit "SKY").

(** ** [get_weather] as the agent calls it

    The agent passes [function_args["location"]], a JSON value, which need
    not be a [str].  [location not in location_codes] hashes it, outside the
    [try] block: a [list] or a [dict] raises [TypeError]; a number, a boolean
    or [null] is no key of the table and is printed in the message by the
    f-string. *)
Definition get_weather_arg (rt : runtime) (api_key : option str)
    (location : json) (now : datetime) (get : http) : list request * outcome :=
  if no_key api_key then ([], Returns (Error msg_no_api_key)) else
  match location with
  | JStr loc => get_weather rt api_key loc now get
  | JArr _ | JObj _ => ([], Raises TypeError)
  | _ => ([], Returns (Error (msg_no_location (str_of_value rt location))))
  end.

(** ** The chat agent: [run_conversation] of [weather_agent.py] and [app.py]

    The assistant service is outside the program.  It is modelled by the
    operations the program calls on it, each a function of the state [W] of
    the world that returns a value or raises, and a new state. *)

(** An exception as [except Exception] sees it: raised by a Python operator
    modelled here, or by a library or the service, known by its [str()]. *)
Inductive raised :=
| Py (e : exn)
| Foreign (text : str).

(** A [tool_call]: [id], [function.name], [function.arguments]. *)
Record tool_call := mk_tool_call {
  call_id : str;
  function_name : str;
  function_arguments : str
}.

(** An entry of [tool_outputs]. *)
Record tool_output := mk_tool_output {
  tool_call_id : str;
  output : str
}.

(** A run: [id], [status] and, read when the status is [requires_action]
    only, [required_action.submit_tool_outputs.tool_calls]. *)
Record run := mk_run {
  run_id : str;
  run_status : str;
  run_tool_calls : list tool_call
}.

(** A message: [role], and what [content[0].text.value] gives or raises. *)
Record message := mk_message {
  role : str;
  content_text : raised + str
}.

(** Actions on the world that may raise. *)
Definition Act (W T : Type) : Type := W -> (raised + T) * W.

Definition act_ret {W T} (t : T) : Act W T := fun w => (inr t, w).

Definition act_bind {W T U} (m : Act W T) (k : T -> Act W U) : Act W U :=
  fun w =>
    match m w with
    | (inl e, w') => (inl e, w')
    | (inr t, w') => k t w'
    end.

(** A computation that does not touch the world. *)
Definition act_pure {W T} (m : raised + T) : Act W T := fun w => (m, w).

Definition act_py {W T} (m : M T) : Act W T :=
  act_pure match m with
           | inl e => inl (Py e)
           | inr t => inr t
           end.

Notation "x <~ m ;; k" := (act_bind m (fun x => k))
  (at level 61, m at next level, right associativity).

(** The world: the calls on [client.beta] ([assistants.create] with the
    constant name, instructions, model and tools of the source returns the
    assistant's id, [threads.create] the thread's id), [time.sleep(1)], and
    what the weather tool reads and does: the clock, the network, and the
    requests it has sent. *)
Record world (W : Type) := mk_world {
  assistants_create : Act W str;
  threads_create : Act W str;
  messages_create : str -> str -> Act W unit;
  runs_create : str -> str -> Act W run;
  runs_retrieve : str -> str -> Act W run;
  runs_submit_tool_outputs : str -> str -> list tool_output -> Act W unit;
  messages_list : str -> Act W (list message);
  sleep : W -> W;
  clock : W -> datetime;
  network : W -> http;
  sent : list request -> W -> W
}.

Arguments assistants_create {W}.
Arguments threads_create {W}.
Arguments messages_create {W}.
Arguments runs_create {W}.
Arguments runs_retrieve {W}.
Arguments runs_submit_tool_outputs {W}.
Arguments messages_list {W}.
Arguments sleep {W}.
Arguments clock {W}.
Arguments network {W}.
Arguments sent {W}.

(** What the interpreter and the [json] module contribute: [json.loads],
    [json.dumps(output, ensure_ascii=False)] of a result of [get_weather],
    and the text of a [TypeError]. *)
Record agent_env := mk_agent_env {
  loads : str -> raised + json;
  dumps : result -> str;
  type_error_text : str
}.

Definition msg_run_ended (status : str) : str :=
  lit "대화 처리 중 오류가 발생했습니다: " ++ status.

Definition msg_agent_failed (e : str) : str :=
  lit "에이전트 실행 중 오류가 발생했습니다: " ++ e.

(** [str(e)]. *)
Definition raised_text (env : agent_env) (e : raised) : str :=
  match e with
  | Py TypeError => type_error_text env
  | Py e' => str_of_exn e'
  | Foreign text => text
  end.

(** [run.status in ["failed", "cancelled", "expired"]]. *)
Definition ended (status : str) : bool :=
  existsb (str_eqb status) [lit "failed"; lit "cancelled"; lit "expired"].

(** A status on which the loop only sleeps and polls again. *)
Definition pending (status : str) : bool :=
  negb (str_eqb status (lit "requires_action"))
  && negb (str_eqb status (lit "completed"))
  && negb (ended status).

Section Agent.

Variable W : Type.
Variable ops : world W.
Variable env : agent_env.
Variable rt : runtime.
Variable api_key : option str.

(** [weather_tool.get_weather(location)]: an exception that leaves it is
    raised in the agent. *)
Definition call_get_weather (location : json) : Act W result :=
  fun w =>
    let '(requests, out) :=
      get_weather_arg rt api_key location (clock ops w) (network ops w) in
    (match out with
     | Returns r => inr r
     | Raises e => inl (Py e)
     end,
     sent ops requests w).

(** The loop over [tool_calls]; [tool_outputs] is the list built so far. *)
Fixpoint run_tools (tool_calls : list tool_call)
    (tool_outputs : list tool_output) : Act W (list tool_output) :=
  match tool_calls with
  | [] => act_ret tool_outputs
  | call :: rest =>
      function_args <~ act_pure (loads env (function_arguments call)) ;;
      if str_eqb (function_name call) (lit "get_weather") then
        location <~ act_py (py_getitem function_args (lit "location")) ;;
        out <~ call_get_weather location ;;
        run_tools rest
          (tool_outputs ++ [mk_tool_output (call_id call) (dumps env out)])
      else run_tools rest tool_outputs
  end.

(** [time.sleep(1)]. *)
Definition do_sleep : Act W unit := fun w => (inr tt, sleep ops w).

(** The [while True] loop, cut after [fuel] turns: [None] when the loop has
    not returned by then. *)
Fixpoint poll (fuel : nat) (thread_id : str) (current : run)
  : Act W (option str) :=
  match fuel with
  | O => act_ret None
  | S fuel' =>
      r <~ runs_retrieve ops thread_id (run_id current) ;;
      if str_eqb (run_status r) (lit "requires_action") then
        tool_outputs <~ run_tools (run_tool_calls r) [] ;;
        _ <~ runs_submit_tool_outputs ops thread_id (run_id r) tool_outputs ;;
        _ <~ do_sleep ;;
        poll fuel' thread_id r
      else if str_eqb (run_status r) (lit "completed") then
        messages <~ messages_list ops thread_id ;;
        match find (fun m => str_eqb (role m) (lit "assistant")) messages with
        | Some m => text <~ act_pure (content_text m) ;; act_ret (Some text)
        | None => _ <~ do_sleep ;; poll fuel' thread_id r
        end
      else if ended (run_status r) then
        act_ret (Some (msg_run_ended (run_status r)))
      else
        _ <~ do_sleep ;;
        poll fuel' thread_id r
  end.

(** The body of the [try]. *)
Definition conversation (fuel : nat) (user_input : str) : Act W (option str) :=
  assistant <~ assistants_create ops ;;
  thread <~ threads_create ops ;;
  _ <~ messages_create ops thread user_input ;;
  r <~ runs_create ops thread assistant ;;
  poll fuel thread r.

(** [run_conversation(user_input)]: the string returned, if the loop
    returns within [fuel] turns, and the world it leaves. *)
Definition run_conversation (fuel : nat) (user_input : str) (w : W)
  : option str * W :=
  match conversation fuel user_input w with
  | (inr answer, w') => (answer, w')
  | (inl e, w') => (Some (msg_agent_failed (raised_text env e)), w')
  end.

(** [k] turns of the loop that only wait: each retrieves a run of a pending
    status and sleeps. *)
Inductive waits (thread_id : str) : nat -> run -> W -> run -> W -> Prop :=
| waits_O (r : run) (w : W) : waits thread_id O r w r w
| waits_S (k : nat) (r r1 r' : run) (w w1 w' : W) :
    runs_retrieve ops thread_id (run_id r) w = (inr r1, w1) ->
    pending (run_status r1) = true ->
    waits thread_id k r1 (sleep ops w1) r' w' ->
    waits thread_id (S k) r w r' w'.

End Agent.

Arguments waits {W}.

(** The four calls that open the conversation succeed from [w]: they give
    the thread's id and the run created, and leave the world [w']. *)
Definition started {W} (ops : world W) (user_input : str) (w : W)
    (thread : str) (r : run) (w' : W) : Prop :=
  exists assistant w1 w2 w3,
    assistants_create ops w = (inr assistant, w1) /\
    threads_create ops w1 = (inr thread, w2) /\
    messages_create ops thread user_input w2 = (inr tt, w3) /\
    runs_create ops thread assistant w3 = (inr r, w').

(** [call] asks for the weather tool. *)
Definition for_weather (call : tool_call) : bool :=
  str_eqb (function_name call) (lit "get_weather").

(** A world to evaluate examples in: its state counts the polls; the poll
    number [n] finds the run [nth n script], and [rest] once the script is
    over; every other call succeeds; the clock shows [now] and the network
    answers with [get]. *)
Definition script_world (script : list run) (rest : run)
    (messages : list message) (now : datetime) (get : http) : world nat :=
  mk_world nat
    (fun w => (inr (lit "asst_1"), w))
    (fun w => (inr (lit "thread_1"), w))
    (fun _ _ w => (inr tt, w))
    (fun _ _ w => (inr (mk_run (lit "run_1") (lit "queued") []), w))
    (fun _ _ w => (inr (nth w script rest), S w))
    (fun _ _ _ w => (inr tt, w))
    (fun _ w => (inr messages, w))
    (fun w => w)
    (fun _ => now)
    (fun _ => get)
    (fun _ w => w).

(** An environment to evaluate examples in. *)
Definition env0 : agent_env :=
  mk_agent_env (fun _ => inr (JObj [(lit "location", JStr (lit "서울"))]))
               (fun _ => [])
               [].

(** The tool call [call] was served with the result [r]: its arguments
    parsed to a value with a [location], and [get_weather], called with it in
    some state of the world, returned [r]. *)
Definition served {W} (ops : world W) (env : agent_env) (rt : runtime)
    (api_key : option str) (call : tool_call) (r : result) : Prop :=
  exists function_args location w,
    loads env (function_arguments call) = inr function_args /\
    py_getitem function_args (lit "location") = inr location /\
    snd (get_weather_arg rt api_key location (clock ops w) (network ops w))
    = Returns r.

(** The entries of [tool_outputs] for the calls [calls] served with
    [results]. *)
Definition outputs_of (env : agent_env) (calls : list tool_call)
    (results : list result) : list tool_output :=
  map (fun p => mk_tool_output (call_id (fst p)) (dumps env (snd p)))
      (combine calls results).

(** * Properties *)

(** ** Strings and dictionaries *)

Lemma str_eqb_eq (a b : str) : str_eqb a b = true <-> a = b.
Proof.
  revert b; induction a as [|x a IH]; intros [|y b]; simpl;
    try (split; [discriminate | discriminate]); try tauto.
  rewrite andb_true_iff, N.eqb_eq, IH.
  split; [intros [-> ->]; reflexivity | intros H; inversion H; auto].
Qed.

Lemma str_eqb_refl (a : str) : str_eqb a a = true.
Proof. apply str_eqb_eq; reflexivity. Qed.

Lemma str_eqb_neq (a b : str) : str_eqb a b = false <-> a <> b.
Proof.
  rewrite <- str_eqb_eq. destruct (str_eqb a b); split; congruence.
Qed.

Lemma str_compare_eq (a b : str) : str_compare a b = Eq <-> a = b.
Proof.
  revert b; induction a as [|x a IH]; intros [|y b]; simpl;
    try (split; [discriminate | discriminate]); try tauto.
  destruct (N.compare_spec x y) as [-> | Hlt | Hgt].
  - rewrite IH. split; [intros ->; reflexivity | intros H; inversion H; auto].
  - split; [discriminate | intros H; inversion H; lia].
  - split; [discriminate | intros H; inversion H; lia].
Qed.

Lemma str_compare_refl (a : str) : str_compare a a = Eq.
Proof. apply str_compare_eq; reflexivity. Qed.

Lemma str_compare_antisym (a b : str) :
  str_compare b a = CompOpp (str_compare a b).
Proof.
  revert b; induction a as [|x a IH]; intros [|y b]; simpl; auto.
  rewrite (N.compare_antisym x y).
  destruct (x ?= y)%N; simpl; auto.
Qed.

Lemma str_compare_lt_trans (a b c : str) :
  str_compare a b = Lt -> str_compare b c = Lt -> str_compare a c = Lt.
Proof.
  revert b c; induction a as [|x a IH]; intros [|y b] [|z c]; simpl;
    try discriminate; auto.
  destruct (N.compare_spec x y) as [-> | Hxy | Hxy]; try discriminate.
  - destruct (N.compare_spec y z) as [-> | Hyz | Hyz]; try discriminate; auto.
    apply IH.
  - intros _.
    destruct (N.compare_spec y z) as [-> | Hyz | Hyz]; try discriminate; intros _.
    + destruct (N.compare_spec x z); auto; lia.
    + destruct (N.compare_spec x z); auto; lia.
Qed.

Lemma startswith_app (p s : str) : startswith p (p ++ s) = true.
Proof.
  induction p as [|x p IH]; simpl; [destruct s; reflexivity|].
  rewrite N.eqb_refl; exact IH.
Qed.

Lemma str_in_unfold (n h : str) :
  str_in n h =
  startswith n h || match h with [] => false | _ :: h' => str_in n h' end.
Proof. destruct h; reflexivity. Qed.

Lemma str_in_app_r (n a b : str) : str_in n b = true -> str_in n (a ++ b) = true.
Proof.
  intros H; induction a as [|x a IH]; simpl app; auto.
  rewrite str_in_unfold, IH; apply orb_true_r.
Qed.

Lemma str_in_prefix (n b : str) : str_in n (n ++ b) = true.
Proof. rewrite str_in_unfold, startswith_app; reflexivity. Qed.

Lemma str_in_join (sep n : str) (parts : list str) :
  In n parts -> str_in n (join sep parts) = true.
Proof.
  induction parts as [|p ps IH]; [contradiction|].
  intros [-> | Hin].
  - destruct ps; simpl join.
    + rewrite <- (app_nil_r n) at 2; apply str_in_prefix.
    + apply str_in_prefix.
  - destruct ps as [|q qs]; [contradiction|].
    change (join sep (p :: q :: qs)) with (p ++ sep ++ join sep (q :: qs)).
    apply str_in_app_r, str_in_app_r, IH, Hin.
Qed.

Lemma dict_get_In {V} (k : str) (v : V) (d : list (str * V)) :
  dict_get k d = Some v -> In (k, v) d.
Proof.
  induction d as [|[k' v'] d IH]; simpl; [discriminate|].
  destruct (str_eqb k k') eqn:E.
  - apply str_eqb_eq in E; subst. intros H; inversion H; auto.
  - auto.
Qed.

Lemma dict_get_None {V} (k : str) (d : list (str * V)) :
  dict_get k d = None <-> ~ In k (keys d).
Proof.
  induction d as [|[k' v'] d IH]; simpl; [tauto|].
  destruct (str_eqb k k') eqn:E.
  - apply str_eqb_eq in E; subst. split; [discriminate | tauto].
  - apply str_eqb_neq in E. rewrite IH. split; [intros H [?|?]; congruence | tauto].
Qed.

Lemma In_dict_get {V} (k : str) (v : V) (d : list (str * V)) :
  NoDup (keys d) -> In (k, v) d -> dict_get k d = Some v.
Proof.
  induction d as [|[k' v'] d IH]; simpl; [contradiction|].
  intros Hnd [Heq | Hin].
  - inversion Heq; subst. rewrite str_eqb_refl; reflexivity.
  - inversion Hnd; subst.
    destruct (str_eqb k k') eqn:E.
    + apply str_eqb_eq in E; subst.
      exfalso; apply H1. apply (in_map fst) in Hin; exact Hin.
    + auto.
Qed.

(** ** Batch selection *)

Example minus_one_day_leap :
  strftime_Ymd (minus_one_day (mk_datetime 2024 3 1 0 30)) = lit "20240229" /\
  strftime_Ymd (minus_one_day (mk_datetime 2023 3 1 0 30)) = lit "20230228" /\
  strftime_Ymd (minus_one_day (mk_datetime 2024 1 1 1 59)) = lit "20231231" /\
  strftime_Ymd (minus_one_day (mk_datetime 2024 7 15 1 0)) = lit "20240714".
Proof. repeat split; reflexivity. Qed.

(** The scenario of the specification: at 13:00 on 2024-01-01 the batch is
    20240101, 1100. *)
Example select_batch_scenario :
  select_batch (mk_datetime 2024 1 1 13 0) = (lit "20240101", lit "1100").
Proof. reflexivity. Qed.

Lemma latest_hour_cases (h : Z) :
  latest_hour h =
  if h >=? 23 then Some 23 else if h >=? 20 then Some 20
  else if h >=? 17 then Some 17 else if h >=? 14 then Some 14
  else if h >=? 11 then Some 11 else if h >=? 8 then Some 8
  else if h >=? 5 then Some 5 else if h >=? 2 then Some 2 else None.
Proof. reflexivity. Qed.

(** C1. For every reading [now] of the clock the batch is defined and is
    either yesterday's date with 2300, when [now.hour] is below 2, or today's
    date with the greatest issuance hour that [now.hour] has reached; an
    issuance hour selects itself, and the time of the batch is always one of
    the eight issuance times. *)
Theorem select_batch_latest_issuance (now : datetime) :
  ((hour now < 2 /\
    select_batch now = (strftime_Ymd (minus_one_day now), lit "2300")) \/
   (exists h,
      In h forecast_hours /\ h <= hour now /\
      (forall h', In h' forecast_hours -> h' <= hour now -> h' <= h) /\
      select_batch now = (strftime_Ymd now, fmt_0d 2 h ++ lit "00"))) /\
  (In (hour now) forecast_hours ->
   select_batch now = (strftime_Ymd now, fmt_0d 2 (hour now) ++ lit "00")) /\
  In (snd (select_batch now)) issuance_times.
Proof.
  unfold select_batch. rewrite latest_hour_cases.
  repeat match goal with
         | |- context [?a >=? ?b] =>
             destruct (Z.geb_spec a b)
         end;
    (split; [| split]);
    try (right; eexists; split; [| split; [| split; [| reflexivity]]];
         [simpl; tauto | lia | simpl; intros h' Hh'; intuition lia]);
    try (left; split; [lia | reflexivity]);
    try (simpl; intros Hin;
         repeat (destruct Hin as [Hin | Hin]; [try lia; rewrite <- Hin; reflexivity|]);
         contradiction);
    try (cbv; tauto).
Qed.

Lemma select_batch_latest_issuance_witness :
  select_batch (mk_datetime 2024 1 1 14 0) = (lit "20240101", lit "1400").
Proof.
  apply (select_batch_latest_issuance (mk_datetime 2024 1 1 14 0)).
  simpl; tauto.
Defined.

(** ** The front of [get_weather]: key, location, request *)

Lemma no_key_Some (key : str) : key <> [] -> no_key (Some key) = false.
Proof. destruct key; [congruence | reflexivity]. Qed.

Lemma no_key_false (api_key : option str) :
  no_key api_key = false -> exists key, api_key = Some key /\ key <> [].
Proof.
  destruct api_key as [[|c key]|]; try discriminate.
  intros _; eexists; split; [reflexivity | discriminate].
Qed.

Lemma get_weather_sends (rt : runtime) (key loc : str) (now : datetime)
    (get : http) (x y : Z) :
  key <> [] ->
  dict_get loc location_codes = Some (x, y) ->
  get_weather rt (Some key) loc now get =
  ([request_for key now x y],
   handle (resp <- get (request_for key now x y) ;;
           received rt now (fst (select_batch now)) loc
                    (snd (select_batch now)) resp)).
Proof.
  intros Hkey Hloc. unfold get_weather, request_for.
  rewrite (no_key_Some _ Hkey), Hloc.
  destruct (select_batch now) as [bd bt]; reflexivity.
Qed.

Lemma location_codes_NoDup : NoDup (keys location_codes).
Proof.
  vm_compute.
  repeat (constructor; [simpl; intuition discriminate|]).
  constructor.
Qed.

(** C6. When the API key is not set (the variable is absent, or empty),
    [get_weather] returns the configuration error for every location, clock
    reading and network behaviour, and sends no request. *)
Theorem missing_key_is_config_error (rt : runtime) (api_key : option str)
    (loc : str) (now : datetime) (get : http) :
  no_key api_key = true ->
  get_weather rt api_key loc now get = ([], Returns (Error msg_no_api_key)).
Proof. intros H; unfold get_weather; rewrite H; reflexivity. Qed.

Lemma missing_key_is_config_error_witness :
  get_weather rt0 None (lit "어디") (mk_datetime 2024 1 1 13 0)
              (fun _ => raise (RequestException (lit "unreachable")))
  = ([], Returns (Error msg_no_api_key)).
Proof. apply missing_key_is_config_error; reflexivity. Defined.

(** C5. With the key set: a name of the 20-entry table makes [get_weather]
    send its request for exactly the grid point the table gives the name;
    any other string, compared code point by code point, gets the lookup
    error, without a request, and the message contains every one of the 20
    names. *)
Theorem location_lookup_exact (rt : runtime) (api_key : option str)
    (loc : str) (now : datetime) (get : http) :
  no_key api_key = false ->
  List.length location_codes = 20%nat /\
  NoDup (keys location_codes) /\
  (forall x y,
     In (loc, (x, y)) location_codes ->
     dict_get loc location_codes = Some (x, y) /\
     exists key,
       api_key = Some key /\
       fst (get_weather rt api_key loc now get) = [request_for key now x y]) /\
  (~ In loc (keys location_codes) ->
   get_weather rt api_key loc now get
   = ([], Returns (Error (msg_no_location loc))) /\
   forall name,
     In name (keys location_codes) -> str_in name (msg_no_location loc) = true).
Proof.
  intros Hkey. destruct (no_key_false _ Hkey) as (key & -> & Hne).
  split; [reflexivity|]. split; [apply location_codes_NoDup|]. split.
  - intros x y Hin.
    assert (Hget : dict_get loc location_codes = Some (x, y))
      by (apply In_dict_get; [apply location_codes_NoDup | exact Hin]).
    split; [exact Hget|].
    exists key; split; [reflexivity|].
    rewrite (get_weather_sends rt key loc now get x y Hne Hget); reflexivity.
  - intros Hnot. split.
    + unfold get_weather. rewrite Hkey.
      apply dict_get_None in Hnot. rewrite Hnot; reflexivity.
    + intros name Hname. unfold msg_no_location.
      apply str_in_app_r, str_in_app_r, str_in_app_r, str_in_join, Hname.
Qed.

Lemma location_lookup_exact_witness :
  fst (get_weather rt0 (Some (lit "k")) (lit "부산") (mk_datetime 2024 1 1 13 0)
                   (fun _ => raise (RequestException [])))
  = [request_for (lit "k") (mk_datetime 2024 1 1 13 0) 98 76] /\
  get_weather rt0 (Some (lit "k")) (lit " 부산") (mk_datetime 2024 1 1 13 0)
              (fun _ => raise (RequestException []))
  = ([], Returns (Error (msg_no_location (lit " 부산")))).
Proof.
  split.
  - destruct (location_lookup_exact rt0 (Some (lit "k")) (lit "부산")
                (mk_datetime 2024 1 1 13 0)
                (fun _ => raise (RequestException [])) eq_refl)
      as (_ & _ & H & _).
    destruct (H 98 76) as (_ & key & Hk & Hreq).
    + vm_compute; tauto.
    + inversion Hk; subst; exact Hreq.
  - apply (location_lookup_exact rt0 (Some (lit "k")) (lit " 부산")
             (mk_datetime 2024 1 1 13 0)
             (fun _ => raise (RequestException [])) eq_refl).
    vm_compute. intuition discriminate.
Defined.

(** ** Classification of the response *)

Lemma startswith_app_needle (p q s : str) :
  startswith (p ++ q) s = true -> startswith p s = true.
Proof.
  revert s; induction p as [|x p IH]; intros s; simpl; [destruct s; auto|].
  destruct s as [|y s]; [discriminate|].
  rewrite !andb_true_iff. intros [Hxy H]; split; auto.
Qed.

Lemma str_in_app_needle (p q h : str) :
  str_in (p ++ q) h = true -> str_in p h = true.
Proof.
  induction h as [|c h IH]; rewrite !(str_in_unfold _ []) || rewrite !(str_in_unfold _ (c :: h));
    rewrite !orb_true_iff.
  - intros [H | H]; [left; eapply startswith_app_needle; eauto | discriminate].
  - intros [H | H]; [left; eapply startswith_app_needle; eauto | right; auto].
Qed.

Lemma get_weather_received (rt : runtime) (key loc : str) (now : datetime)
    (get : http) (x y : Z) (resp : response) :
  key <> [] ->
  dict_get loc location_codes = Some (x, y) ->
  get (request_for key now x y) = ret resp ->
  snd (get_weather rt (Some key) loc now get)
  = handle (received rt now (fst (select_batch now)) loc
                     (snd (select_batch now)) resp).
Proof.
  intros Hkey Hloc Hget.
  rewrite (get_weather_sends rt key loc now get x y Hkey Hloc).
  simpl snd. rewrite Hget. reflexivity.
Qed.

Ltac pick_case :=
  match goal with
  | H : true = false |- _ => discriminate H
  | H : false = true |- _ => discriminate H
  | |- ?m = ?m => reflexivity
  end.

(** C7, as the code has it.  A response of status 200 whose text contains
    the XML envelope anywhere yields the error whose message the first fault
    token found chooses, the tokens being looked for in the order
    unregistered key, request limit, expired deadline, invalid parameter, and
    the generic message when none is found.  A text without the envelope is
    not classified by token: the result is that of the JSON path.  A status
    other than 200 yields the status error. *)
Theorem xml_fault_classification (rt : runtime) (key loc : str)
    (now : datetime) (get : http) (x y : Z) (resp : response) :
  key <> [] ->
  dict_get loc location_codes = Some (x, y) ->
  get (request_for key now x y) = ret resp ->
  let has := fun token => str_in token (text resp) in
  let out := snd (get_weather rt (Some key) loc now get) in
  (status_code resp <> 200 ->
   out = Returns (Error (msg_status (status_code resp)))) /\
  (status_code resp = 200 -> has xml_envelope = true ->
   exists msg,
     out = Returns (Error msg) /\
     (has (lit "SERVICE_KEY_IS_NOT_REGISTERED") = true ->
      msg = msg_unregistered_key) /\
     (has (lit "SERVICE_KEY_IS_NOT_REGISTERED") = false ->
      has (lit "LIMITED_NUMBER_OF_SERVICE_REQUESTS_EXCEEDS_ERROR") = true ->
      msg = msg_limit_exceeded) /\
     (has (lit "SERVICE_KEY_IS_NOT_REGISTERED") = false ->
      has (lit "LIMITED_NUMBER_OF_SERVICE_REQUESTS_EXCEEDS_ERROR") = false ->
      has (lit "DEADLINE_HAS_EXPIRED") = true ->
      msg = msg_deadline_expired) /\
     (has (lit "SERVICE_KEY_IS_NOT_REGISTERED") = false ->
      has (lit "LIMITED_NUMBER_OF_SERVICE_REQUESTS_EXCEEDS_ERROR") = false ->
      has (lit "DEADLINE_HAS_EXPIRED") = false ->
      has (lit "INVALID_PARAMETER") = true ->
      msg = msg_invalid_parameter) /\
     (has (lit "SERVICE_KEY_IS_NOT_REGISTERED") = false ->
      has (lit "LIMITED_NUMBER_OF_SERVICE_REQUESTS_EXCEEDS_ERROR") = false ->
      has (lit "DEADLINE_HAS_EXPIRED") = false ->
      has (lit "INVALID_PARAMETER") = false ->
      msg = msg_invalid_key)) /\
  (status_code resp = 200 -> has xml_envelope = false ->
   out = handle match json_body resp with
                | None => ret (Error msg_not_json)
                | Some data =>
                    parsed rt now (fst (select_batch now)) loc
                           (snd (select_batch now)) data
                end).
Proof.
  intros Hkey Hloc Hget has out. subst out.
  rewrite (get_weather_received rt key loc now get x y resp Hkey Hloc Hget).
  unfold received. split; [| split].
  - intros Hst. apply Z.eqb_neq in Hst. rewrite Hst; reflexivity.
  - intros Hst Henv. rewrite Hst. simpl negb. cbv iota. subst has.
    simpl in Henv. rewrite Henv.
    exists (xml_error_msg (text resp)). split; [reflexivity|].
    unfold xml_error_msg.
    assert (Hsub : str_in (lit "SERVICE_KEY_IS_NOT_REGISTERED_ERROR") (text resp)
                   = true ->
                   str_in (lit "SERVICE_KEY_IS_NOT_REGISTERED") (text resp) = true).
    { apply (str_in_app_needle (lit "SERVICE_KEY_IS_NOT_REGISTERED") (lit "_ERROR")). }
    destruct (str_in (lit "SERVICE_KEY_IS_NOT_REGISTERED_ERROR") (text resp)).
    { rewrite (Hsub eq_refl). repeat apply conj; intros; pick_case. }
    clear Hsub.
    destruct (str_in (lit "SERVICE_KEY_IS_NOT_REGISTERED") (text resp));
      [repeat apply conj; intros; pick_case|].
    destruct (str_in (lit "LIMITED_NUMBER_OF_SERVICE_REQUESTS_EXCEEDS_ERROR")
                     (text resp)); [repeat apply conj; intros; pick_case|].
    destruct (str_in (lit "DEADLINE_HAS_EXPIRED") (text resp));
      [repeat apply conj; intros; pick_case|].
    destruct (str_in (lit "INVALID_PARAMETER") (text resp));
      repeat apply conj; intros; pick_case.
  - intros Hst Henv. rewrite Hst. simpl negb. cbv iota. subst has.
    simpl in Henv. rewrite Henv. reflexivity.
Qed.

(** A body with the rate-limit token gets the rate-limit message. *)
Lemma xml_fault_classification_witness :
  snd (get_weather rt0 (Some (lit "k")) (lit "서울") (mk_datetime 2024 1 1 13 0)
         (fun _ => ret (mk_response 200
            (lit "<OpenAPI_ServiceResponse><cmmMsgHeader><returnAuthMsg>LIMITED_NUMBER_OF_SERVICE_REQUESTS_EXCEEDS_ERROR</returnAuthMsg></cmmMsgHeader></OpenAPI_ServiceResponse>")
            None)))
  = Returns (Error msg_limit_exceeded).
Proof.
  destruct (xml_fault_classification rt0 (lit "k") (lit "서울")
              (mk_datetime 2024 1 1 13 0)
              (fun _ => ret (mk_response 200
                 (lit "<OpenAPI_ServiceResponse><cmmMsgHeader><returnAuthMsg>LIMITED_NUMBER_OF_SERVICE_REQUESTS_EXCEEDS_ERROR</returnAuthMsg></cmmMsgHeader></OpenAPI_ServiceResponse>")
                 None))
              60 127 _ ltac:(discriminate) eq_refl eq_refl)
    as (_ & H & _).
  destruct (H eq_refl eq_refl) as (msg & Hout & _ & Hlim & _).
  rewrite Hout. rewrite (Hlim eq_refl eq_refl). reflexivity.
Defined.

Example msg_status_201 :
  msg_status 201
  = lit "날씨 정보를 가져오는 중 오류가 발생했습니다. 상태 코드: 201".
Proof. reflexivity. Qed.

(** C7, as stated, fails: a 2xx response other than 200 whose body starts
    with the envelope gets the status error; a body of status 200 that merely
    contains the envelope, after a leading XML declaration, is classified as
    an XML fault although it does not start with it; and a body with the
    rate-limit token gets the unregistered-key message when it holds that
    token too. *)
Lemma xml_envelope_counterexample :
  let now := mk_datetime 2024 1 1 13 0 in
  let created :=
    mk_response 201 (lit "<OpenAPI_ServiceResponse>LIMITED_NUMBER_OF_SERVICE_REQUESTS_EXCEEDS_ERROR</OpenAPI_ServiceResponse>") None in
  let declared :=
    mk_response 200 (lit "<?xml version='1.0'?><OpenAPI_ServiceResponse>LIMITED_NUMBER_OF_SERVICE_REQUESTS_EXCEEDS_ERROR</OpenAPI_ServiceResponse>") None in
  let both :=
    mk_response 200 (lit "<OpenAPI_ServiceResponse>LIMITED_NUMBER_OF_SERVICE_REQUESTS_EXCEEDS_ERROR SERVICE_KEY_IS_NOT_REGISTERED_ERROR</OpenAPI_ServiceResponse>") None in
  (startswith xml_envelope (text created) = true /\
   snd (get_weather rt0 (Some (lit "k")) (lit "서울") now (fun _ => ret created))
   = Returns (Error (msg_status 201))) /\
  (startswith xml_envelope (text declared) = false /\
   snd (get_weather rt0 (Some (lit "k")) (lit "서울") now (fun _ => ret declared))
   = Returns (Error msg_limit_exceeded)) /\
  (str_in (lit "LIMITED_NUMBER_OF_SERVICE_REQUESTS_EXCEEDS_ERROR") (text both)
   = true /\
   snd (get_weather rt0 (Some (lit "k")) (lit "서울") now (fun _ => ret both))
   = Returns (Error msg_unregistered_key) /\
   msg_unregistered_key <> msg_limit_exceeded).
Proof. vm_compute. repeat split. discriminate. Qed.

Lemma py_getitem_obj (o : list (str * json)) (k : str) (v : json) :
  dict_get k o = Some v -> py_getitem (JObj o) k = ret v.
Proof. intros H; unfold py_getitem; rewrite H; reflexivity. Qed.

Lemma py_not_in_present (o : list (str * json)) (k : str) (v : json) :
  dict_get k o = Some v -> py_not_in k (JObj o) = ret false.
Proof. intros H; unfold py_not_in, py_in, dict_has; rewrite H; reflexivity. Qed.

Lemma py_not_in_absent (o : list (str * json)) (k : str) :
  dict_get k o = None -> py_not_in k (JObj o) = ret true.
Proof. intros H; unfold py_not_in, py_in, dict_has; rewrite H; reflexivity. Qed.

Lemma bind_ret {A B} (a : A) (k : A -> M B) : bind (ret a) k = k a.
Proof. reflexivity. Qed.

Lemma py_or_true (b : M bool) : py_or (ret true) b = ret true.
Proof. reflexivity. Qed.

Lemma py_or_false (b : M bool) : py_or (ret false) b = b.
Proof. reflexivity. Qed.

Ltac py_step :=
  repeat first
    [ rewrite bind_ret
    | rewrite py_or_true
    | rewrite py_or_false
    | erewrite py_getitem_obj by eassumption
    | erewrite py_not_in_present by eassumption
    | erewrite py_not_in_absent by eassumption ].

Lemma get_weather_parsed (rt : runtime) (key loc : str) (now : datetime)
    (get : http) (x y : Z) (resp : response) (data : json) :
  key <> [] ->
  dict_get loc location_codes = Some (x, y) ->
  get (request_for key now x y) = ret resp ->
  status_code resp = 200 ->
  str_in xml_envelope (text resp) = false ->
  json_body resp = Some data ->
  snd (get_weather rt (Some key) loc now get)
  = handle (parsed rt now (fst (select_batch now)) loc
                   (snd (select_batch now)) data).
Proof.
  intros Hkey Hloc Hget Hst Henv Hjson.
  rewrite (get_weather_received rt key loc now get x y resp Hkey Hloc Hget).
  unfold received. rewrite Hst, Henv, Hjson. reflexivity.
Qed.

(** C8, as the code has it.  On a parsed body that is an object: without
    [response], or with a [response] object without [header], the result is
    the format error; with a [header] object, the result code is examined
    next, and a code other than 00 yields the API error with the producer's
    message whether the body holds items or not; only under code 00 is a
    missing [body], [items] or [item] reported, as missing weather data. *)
Theorem parsed_body_classification (rt : runtime) (key loc : str)
    (now : datetime) (get : http) (x y : Z) (resp : response)
    (o : list (str * json)) :
  key <> [] ->
  dict_get loc location_codes = Some (x, y) ->
  get (request_for key now x y) = ret resp ->
  status_code resp = 200 ->
  str_in xml_envelope (text resp) = false ->
  json_body resp = Some (JObj o) ->
  let out := snd (get_weather rt (Some key) loc now get) in
  (dict_get (lit "response") o = None ->
   out = Returns (Error msg_bad_format)) /\
  (forall r,
     dict_get (lit "response") o = Some (JObj r) ->
     dict_get (lit "header") r = None ->
     out = Returns (Error msg_bad_format)) /\
  (forall r h code,
     dict_get (lit "response") o = Some (JObj r) ->
     dict_get (lit "header") r = Some (JObj h) ->
     dict_get (lit "resultCode") h = Some code ->
     (forall result_msg,
        is_str code (lit "00") = false ->
        dict_get (lit "resultMsg") h = Some result_msg ->
        out = Returns (Error (msg_api_error (format_value rt result_msg)))) /\
     (is_str code (lit "00") = true ->
      (dict_get (lit "body") r = None \/
       (exists b,
          dict_get (lit "body") r = Some (JObj b) /\
          dict_get (lit "items") b = None) \/
       (exists b i,
          dict_get (lit "body") r = Some (JObj b) /\
          dict_get (lit "items") b = Some (JObj i) /\
          dict_get (lit "item") i = None)) ->
      out = Returns (Error msg_no_weather_data))).
Proof.
  intros Hkey Hloc Hget Hst Henv Hjson out. subst out.
  rewrite (get_weather_parsed rt key loc now get x y resp (JObj o)
             Hkey Hloc Hget Hst Henv Hjson).
  unfold parsed. split; [| split].
  - intros Hr. py_step. reflexivity.
  - intros r Hr Hh. py_step. reflexivity.
  - intros r h code Hr Hh Hc. split.
    + intros result_msg Hcode Hm. py_step. rewrite Hcode. simpl negb. cbv iota.
      py_step. reflexivity.
    + intros Hcode Hmissing. py_step. rewrite Hcode. simpl negb. cbv iota.
      destruct Hmissing as [Hb | [(b & Hb & Hi) | (b & i & Hb & Hi & Hit)]];
        py_step; reflexivity.
Qed.

(** The producer's NO_DATA answer: a header with result code 03, no body. *)
Lemma parsed_body_classification_witness :
  snd (get_weather rt0 (Some (lit "k")) (lit "서울") (mk_datetime 2024 1 1 13 0)
         (fun _ => ret (mk_response 200 []
            (Some (JObj [ (lit "response",
                           JObj [ (lit "header",
                                   JObj [ (lit "resultCode", JStr (lit "03"));
                                          (lit "resultMsg", JStr (lit "NO_DATA")) ]) ]) ])))))
  = Returns (Error (msg_api_error (lit "NO_DATA"))).
Proof.
  destruct (parsed_body_classification rt0 (lit "k") (lit "서울")
              (mk_datetime 2024 1 1 13 0)
              (fun _ => ret (mk_response 200 []
                 (Some (JObj [ (lit "response",
                                JObj [ (lit "header",
                                        JObj [ (lit "resultCode", JStr (lit "03"));
                                               (lit "resultMsg", JStr (lit "NO_DATA")) ]) ]) ]))))
              60 127 _ _ ltac:(discriminate) eq_refl eq_refl eq_refl eq_refl eq_refl)
    as (_ & _ & H).
  destruct (H _ _ _ eq_refl eq_refl eq_refl) as (Hcode & _).
  apply (Hcode (JStr (lit "NO_DATA"))); reflexivity.
Defined.

(** C8, as stated, fails on the producer's NO_DATA answer: its result code
    is not 00 and [response.body.items.item] is missing, and the result is the
    API error carrying the producer's message, not one of the format errors. *)
Lemma result_code_before_items_counterexample :
  let r := [ (lit "header",
              JObj [ (lit "resultCode", JStr (lit "03"));
                     (lit "resultMsg", JStr (lit "NO_DATA")) ]) ] in
  let out :=
    snd (get_weather rt0 (Some (lit "k")) (lit "서울") (mk_datetime 2024 1 1 13 0)
           (fun _ => ret (mk_response 200 [] (Some (JObj [ (lit "response", JObj r) ])))))
  in
  dict_get (lit "body") r = None /\
  out = Returns (Error (msg_api_error (lit "NO_DATA"))) /\
  out <> Returns (Error msg_bad_format) /\
  out <> Returns (Error msg_no_weather_data) /\
  out <> Returns (Error msg_not_json).
Proof. vm_compute. repeat split; discriminate. Qed.

(** ** Exceptions that leave [get_weather] *)

(** C9 fails: the [except] clauses name [RequestException], [KeyError],
    [IndexError] and [ValueError], and a body of an unexpected type makes an
    operator raise [TypeError], which leaves [get_weather].  So does the JSON
    body [null], on which ['response' not in data] is evaluated, a body whose
    [response] is a string, and an item whose [fcstDate] is a number. *)
Theorem unexpected_body_type_raises (rt : runtime) (now : datetime)
    (body_text : str) :
  str_in xml_envelope body_text = false ->
  let call := fun data =>
    snd (get_weather rt (Some (lit "k")) (lit "서울") now
           (fun _ => ret (mk_response 200 body_text (Some data)))) in
  call JNull = Raises TypeError /\
  call (JObj [ (lit "response", JStr (lit "header")) ]) = Raises TypeError /\
  call (body_of (JArr [ JObj [ (lit "category", JStr (lit "TMP"));
                               (lit "fcstDate", JInt 20240101);
                               (lit "fcstTime", JStr (lit "1400"));
                               (lit "fcstValue", JStr (lit "5")) ] ]))
  = Raises TypeError.
Proof.
  intros Henv call. subst call. cbv beta.
  repeat split;
    (erewrite get_weather_parsed;
     [| discriminate | reflexivity | reflexivity | reflexivity | exact Henv
      | reflexivity]);
    reflexivity.
Qed.

(** The body [null]. *)
Lemma unexpected_body_type_raises_witness :
  snd (get_weather rt0 (Some (lit "k")) (lit "서울") (mk_datetime 2024 1 1 13 0)
         (fun _ => ret (mk_response 200 (lit "null") (Some JNull))))
  = Raises TypeError.
Proof.
  apply (unexpected_body_type_raises rt0 (mk_datetime 2024 1 1 13 0) (lit "null")).
  reflexivity.
Defined.

(** ** The loop on well-formed items *)

Lemma at_or_after_str (now : datetime) (bd d t : str) :
  at_or_after now bd (JStr d) (JStr t)
  = ret (str_gt d bd || (str_eqb d bd && str_ge t (strftime_HM now))).
Proof.
  unfold at_or_after, py_or, py_and, py_gt_str, py_ge_str, is_str.
  rewrite !bind_ret.
  destruct (str_gt d bd); [reflexivity|].
  destruct (str_eqb d bd); reflexivity.
Qed.

Lemma decode_code_str (codes : list (str * str)) (v : str) :
  decode_code codes (JStr v)
  = ret (JStr match dict_get v codes with Some label => label | None => v end).
Proof.
  unfold decode_code, py_lookup. rewrite bind_ret.
  destruct (dict_get v codes); reflexivity.
Qed.

Lemma step_represents (rt : runtime) (now : datetime) (bd : str)
    (cf : list (str * raw_slot)) (j : json) (it : raw_item) :
  represents j it -> step rt now bd cf j = ret (step_item now bd cf it).
Proof.
  intros (o & -> & Hc & Hd & Ht & Hv).
  unfold step, step_item, kept. py_step.
  rewrite at_or_after_str, bind_ret.
  destruct (str_gt (fcstDate it) bd
            || str_eqb (fcstDate it) bd && str_ge (fcstTime it) (strftime_HM now));
    [| reflexivity].
  unfold py_lookup at 1. rewrite bind_ret.
  destruct (dict_get (category it) weather_codes) as [label|]; [| reflexivity].
  unfold decoded, is_str, format_value, slot_key.
  destruct (str_eqb (category it) (lit "PTY")).
  { py_step. rewrite decode_code_str, bind_ret. reflexivity. }
  destruct (str_eqb (category it) (lit "SKY")).
  { py_step. rewrite decode_code_str, bind_ret. reflexivity. }
  py_step. reflexivity.
Qed.

Lemma loop_represents (rt : runtime) (now : datetime) (bd : str)
    (l : list json) (items : list raw_item) :
  Forall2 represents l items ->
  forall cf,
    loop rt now bd cf l = ret (fold_left (step_item now bd) items cf).
Proof.
  induction 1 as [|j it l items Hj _ IH]; intros cf; simpl; [reflexivity|].
  rewrite (step_represents rt now bd cf j it Hj), bind_ret. apply IH.
Qed.

Lemma represents_item_json (it : raw_item) : represents (item_json it) it.
Proof. exists (match item_json it with JObj o => o | _ => [] end).
  repeat split; reflexivity.
Qed.

Lemma Forall2_represents_map (items : list raw_item) :
  Forall2 represents (map item_json items) items.
Proof.
  induction items; simpl; constructor; auto using represents_item_json.
Qed.

(** *** Dictionary updates *)

Lemma keys_dict_set {V} (k : str) (v : V) (d : list (str * V)) :
  keys (dict_set k v d) = if dict_has k d then keys d else keys d ++ [k].
Proof.
  unfold dict_has. induction d as [|[k' v'] d IH]; simpl; [reflexivity|].
  destruct (str_eqb k k') eqn:E; simpl; [reflexivity|].
  rewrite IH. destruct (dict_get k d); reflexivity.
Qed.

Lemma dict_has_In {V} (k : str) (d : list (str * V)) :
  dict_has k d = false <-> ~ In k (keys d).
Proof.
  unfold dict_has. rewrite <- dict_get_None.
  destruct (dict_get k d); split; congruence.
Qed.

Lemma NoDup_dict_set {V} (k : str) (v : V) (d : list (str * V)) :
  NoDup (keys d) -> NoDup (keys (dict_set k v d)).
Proof.
  intros Hnd. rewrite keys_dict_set.
  destruct (dict_has k d) eqn:E; [exact Hnd|].
  apply dict_has_In in E.
  apply NoDup_rev in Hnd. rewrite <- (rev_involutive (keys d ++ [k])).
  apply NoDup_rev. rewrite rev_app_distr. simpl.
  constructor; [rewrite <- in_rev; exact E | exact Hnd].
Qed.

Lemma In_dict_set {V} (k k' : str) (v v' : V) (d : list (str * V)) :
  In (k', v') (dict_set k v d) -> (k' = k /\ v' = v) \/ In (k', v') d.
Proof.
  induction d as [|[k0 v0] d IH]; simpl.
  - intros [H | []]; inversion H; auto.
  - destruct (str_eqb k k0) eqn:E; simpl.
    + apply str_eqb_eq in E; subst.
      intros [H | H]; [inversion H; auto | auto].
    + intros [H | H]; [auto | destruct (IH H); auto].
Qed.

Lemma dict_get_set_eq {V} (k : str) (v : V) (d : list (str * V)) :
  dict_get k (dict_set k v d) = Some v.
Proof.
  induction d as [|[k0 v0] d IH]; simpl; [rewrite str_eqb_refl; reflexivity|].
  destruct (str_eqb k k0) eqn:E; simpl; rewrite E; [reflexivity | exact IH].
Qed.

Lemma dict_get_set_neq {V} (k k' : str) (v : V) (d : list (str * V)) :
  k' <> k -> dict_get k' (dict_set k v d) = dict_get k' d.
Proof.
  intros Hne. induction d as [|[k0 v0] d IH]; simpl.
  - apply str_eqb_neq in Hne. rewrite Hne; reflexivity.
  - destruct (str_eqb k k0) eqn:E; simpl.
    + apply str_eqb_eq in E; subst k0. apply str_eqb_neq in Hne.
      rewrite Hne; reflexivity.
    + destruct (str_eqb k' k0); [reflexivity | exact IH].
Qed.

(** *** The invariant of the loop *)

Lemma origin_mono (now : datetime) (bd : str) (items : list raw_item)
    (it : raw_item) (key label : str) (v : json) :
  origin now bd items key label v ->
  origin now bd (items ++ [it]) key label v.
Proof.
  intros (it0 & Hin & H). exists it0. split; [apply in_or_app; auto | exact H].
Qed.

Lemma slot_inv_mono (now : datetime) (bd : str) (items : list raw_item)
    (it : raw_item) (key : str) (s : raw_slot) :
  slot_inv now bd items key s -> slot_inv now bd (items ++ [it]) key s.
Proof.
  intros (d & t & Hd & Ht & Hk & Hf & Hnd & Ho).
  exists d, t. repeat split; auto.
  intros label v Hin. apply origin_mono, Ho, Hin.
Qed.

Lemma loop_inv_nil (now : datetime) (bd : str) : loop_inv now bd [] [].
Proof.
  split; [constructor|]. split; [intros ? ? []|]. intros ? ? [].
Qed.

Lemma loop_inv_skip (now : datetime) (bd : str) (items : list raw_item)
    (cf : list (str * raw_slot)) (it : raw_item) :
  (kept now bd it = false \/ dict_get (category it) weather_codes = None) ->
  loop_inv now bd items cf -> loop_inv now bd (items ++ [it]) cf.
Proof.
  intros Hskip (Hnd & Hslots & Hall). split; [exact Hnd|]. split.
  - intros key s Hin. apply slot_inv_mono, Hslots, Hin.
  - intros it0 label Hin Hk Hl.
    apply in_app_or in Hin. destruct Hin as [Hin | [<- | []]].
    + eapply Hall; eauto.
    + destruct Hskip; congruence.
Qed.

Lemma loop_inv_store (now : datetime) (bd : str) (items : list raw_item)
    (cf : list (str * raw_slot)) (it : raw_item) (label : str) :
  kept now bd it = true ->
  dict_get (category it) weather_codes = Some label ->
  loop_inv now bd items cf ->
  loop_inv now bd (items ++ [it])
    (store (slot_key it) (JStr (fcstDate it)) (JStr (fcstTime it)) label
           (JStr (decoded it)) cf).
Proof.
  intros Hkept Hlabel (Hnd & Hslots & Hall).
  assert (Hnew : origin now bd (items ++ [it]) (slot_key it) label
                        (JStr (decoded it))).
  { exists it. repeat split; auto. apply in_or_app; right; left; reflexivity. }
  assert (Hslot : slot_inv now bd (items ++ [it]) (slot_key it)
            match dict_get (slot_key it) cf with
            | Some s => s
            | None => mk_raw (JStr (fcstDate it)) (JStr (fcstTime it)) []
            end).
  { destruct (dict_get (slot_key it) cf) as [s|] eqn:E.
    - apply slot_inv_mono, Hslots, dict_get_In, E.
    - exists (fcstDate it), (fcstTime it). repeat split; auto.
      + constructor.
      + intros ? ? []. }
  unfold store.
  set (slot := match dict_get (slot_key it) cf with
               | Some s => s
               | None => mk_raw (JStr (fcstDate it)) (JStr (fcstTime it)) []
               end) in *.
  split; [apply NoDup_dict_set, Hnd|]. split.
  - intros key s Hin. apply In_dict_set in Hin.
    destruct Hin as [[-> ->] | Hin]; [| apply slot_inv_mono, Hslots, Hin].
    destruct Hslot as (d & t & Hd & Ht & Hk & Hf & Hnds & Ho).
    exists d, t. simpl. repeat split; auto.
    + apply NoDup_dict_set, Hnds.
    + intros l v Hin. apply In_dict_set in Hin.
      destruct Hin as [[-> ->] | Hin]; [exact Hnew | apply Ho, Hin].
  - intros it0 label0 Hin Hk0 Hl0.
    destruct (str_eqb (slot_key it0) (slot_key it)) eqn:Ekey.
    + apply str_eqb_eq in Ekey. rewrite Ekey, dict_get_set_eq.
      eexists; split; [reflexivity|]. simpl.
      destruct (str_eqb label0 label) eqn:El.
      * apply str_eqb_eq in El; subst label0.
        unfold dict_has. rewrite dict_get_set_eq; reflexivity.
      * apply str_eqb_neq in El.
        unfold dict_has. rewrite (dict_get_set_neq _ _ _ _ El).
        apply in_app_or in Hin. destruct Hin as [Hin | [<- | []]];
          [| congruence].
        destruct (Hall it0 label0 Hin Hk0 Hl0) as (s0 & Hs0 & Hhas).
        subst slot. rewrite <- Ekey, Hs0. exact Hhas.
    + apply str_eqb_neq in Ekey. rewrite (dict_get_set_neq _ _ _ _ Ekey).
      apply in_app_or in Hin. destruct Hin as [Hin | [<- | []]];
        [| congruence].
      eapply Hall; eauto.
Qed.

Lemma loop_inv_step (now : datetime) (bd : str) (items : list raw_item)
    (cf : list (str * raw_slot)) (it : raw_item) :
  loop_inv now bd items cf ->
  loop_inv now bd (items ++ [it]) (step_item now bd cf it).
Proof.
  intros Hinv. unfold step_item.
  destruct (kept now bd it) eqn:Hk;
    [| apply loop_inv_skip; auto].
  destruct (dict_get (category it) weather_codes) as [label|] eqn:Hl;
    [| apply loop_inv_skip; auto].
  apply loop_inv_store; auto.
Qed.

Lemma loop_inv_fold (now : datetime) (bd : str) (items : list raw_item) :
  loop_inv now bd items (fold_left (step_item now bd) items []).
Proof.
  induction items as [|it items IH] using rev_ind; [apply loop_inv_nil|].
  rewrite fold_left_app. simpl. apply loop_inv_step, IH.
Qed.

(** ** The sort *)

Lemma key_lt_asym (a b : forecast_slot) :
  key_lt a b = true -> key_lt b a = false.
Proof.
  unfold key_lt, str_lt.
  rewrite (str_compare_antisym (slot_date a) (slot_date b)).
  rewrite (str_compare_antisym (slot_time a) (slot_time b)).
  destruct (str_compare (slot_date a) (slot_date b)); simpl; try congruence.
  destruct (str_compare (slot_time a) (slot_time b)); simpl; congruence.
Qed.

Lemma key_lt_trans (a b c : forecast_slot) :
  key_lt a b = true -> key_lt b c = true -> key_lt a c = true.
Proof.
  unfold key_lt, str_lt.
  destruct (str_compare (slot_date a) (slot_date b)) eqn:E1; try discriminate;
    destruct (str_compare (slot_date b) (slot_date c)) eqn:E2; try discriminate.
  - apply str_compare_eq in E1, E2. rewrite E1, E2, str_compare_refl.
    destruct (str_compare (slot_time a) (slot_time b)) eqn:E3; try discriminate.
    destruct (str_compare (slot_time b) (slot_time c)) eqn:E4; try discriminate.
    rewrite (str_compare_lt_trans _ _ _ E3 E4). reflexivity.
  - apply str_compare_eq in E1. rewrite E1, E2. reflexivity.
  - apply str_compare_eq in E2. rewrite <- E2, E1. reflexivity.
  - rewrite (str_compare_lt_trans _ _ _ E1 E2). reflexivity.
Qed.

Lemma key_lt_total (a b : forecast_slot) :
  key_lt a b = false -> key_lt b a = false -> stamp a = stamp b.
Proof.
  unfold key_lt, str_lt, stamp.
  rewrite (str_compare_antisym (slot_date a) (slot_date b)).
  rewrite (str_compare_antisym (slot_time a) (slot_time b)).
  destruct (str_compare (slot_date a) (slot_date b)) eqn:E1; simpl;
    try discriminate.
  destruct (str_compare (slot_time a) (slot_time b)) eqn:E2; simpl;
    try discriminate.
  apply str_compare_eq in E1, E2. intros _ _. congruence.
Qed.

Lemma key_lt_stamp (a b c : forecast_slot) :
  stamp a = stamp b -> key_lt a c = key_lt b c.
Proof.
  unfold stamp, key_lt. intros H; inversion H as [[Hd Ht]].
  rewrite Hd, Ht. reflexivity.
Qed.

Lemma not_after_trans (a b c : forecast_slot) :
  not_after a b -> not_after b c -> not_after a c.
Proof.
  unfold not_after, key_le. rewrite !negb_true_iff. intros Hba Hcb.
  destruct (key_lt c a) eqn:Hca; [| reflexivity].
  destruct (key_lt b c) eqn:Hbc.
  - rewrite (key_lt_trans _ _ _ Hbc Hca) in Hba. discriminate.
  - rewrite (key_lt_stamp _ _ _ (key_lt_total _ _ Hbc Hcb)) in Hba. congruence.
Qed.

Lemma insert_slot_perm (x : forecast_slot) (l : list forecast_slot) :
  Permutation (insert_slot x l) (x :: l).
Proof.
  induction l as [|y l IH]; simpl; [reflexivity|].
  destruct (key_lt x y); [reflexivity|].
  rewrite IH. apply perm_swap.
Qed.

Lemma fold_insert_perm (l acc : list forecast_slot) :
  Permutation (fold_left (fun acc x => insert_slot x acc) l acc) (l ++ acc).
Proof.
  revert acc; induction l as [|x l IH]; intros acc; simpl; [reflexivity|].
  rewrite IH, insert_slot_perm. symmetry. apply Permutation_middle.
Qed.

Lemma sorted_slots_perm (l : list forecast_slot) :
  Permutation (sorted_slots l) l.
Proof.
  unfold sorted_slots. rewrite fold_insert_perm, app_nil_r. reflexivity.
Qed.

Lemma insert_slot_sorted (x : forecast_slot) (l : list forecast_slot) :
  StronglySorted not_after l -> StronglySorted not_after (insert_slot x l).
Proof.
  induction 1 as [|y l Hl IH Hy]; simpl; [repeat constructor|].
  destruct (key_lt x y) eqn:E.
  - assert (Hxy : not_after x y)
      by (unfold not_after, key_le; rewrite (key_lt_asym _ _ E); reflexivity).
    constructor; [constructor; assumption|].
    constructor; [exact Hxy|].
    eapply Forall_impl; [| exact Hy].
    intros z Hyz. eapply not_after_trans; eauto.
  - constructor; [exact IH|].
    eapply Permutation_Forall; [symmetry; apply insert_slot_perm|].
    constructor; [| exact Hy].
    unfold not_after, key_le. rewrite E. reflexivity.
Qed.

Lemma fold_insert_sorted (l acc : list forecast_slot) :
  StronglySorted not_after acc ->
  StronglySorted not_after (fold_left (fun acc x => insert_slot x acc) l acc).
Proof.
  revert acc; induction l as [|x l IH]; intros acc Hacc; simpl; auto.
  apply IH, insert_slot_sorted, Hacc.
Qed.

Lemma sorted_slots_sorted (l : list forecast_slot) :
  StronglySorted not_after (sorted_slots l).
Proof. apply fold_insert_sorted. constructor. Qed.

Lemma In_firstn {A} (n : nat) (l : list A) (x : A) :
  In x (firstn n l) -> In x l.
Proof.
  intros H. rewrite <- (firstn_skipn n l). apply in_or_app; left; exact H.
Qed.

Lemma StronglySorted_firstn {A} (R : A -> A -> Prop) (n : nat) (l : list A) :
  StronglySorted R l -> StronglySorted R (firstn n l).
Proof.
  revert l; induction n as [|n IH]; intros l Hl; [constructor|].
  destruct l as [|x l]; [constructor|].
  inversion Hl; subst. simpl. constructor; [apply IH; assumption|].
  apply Forall_forall. intros y Hy. apply (proj1 (Forall_forall _ _) H2).
  eapply In_firstn. exact Hy.
Qed.

Lemma sorted_strict (l : list forecast_slot) :
  NoDup (map stamp l) ->
  StronglySorted not_after l -> StronglySorted before l.
Proof.
  intros Hnd Hs. induction Hs as [|x l Hl IH Hx]; [constructor|].
  simpl in Hnd. inversion Hnd as [|? ? Hnotin Hnd']; subst.
  constructor; [apply IH, Hnd'|].
  apply Forall_forall. intros y Hy.
  pose proof (proj1 (Forall_forall _ _) Hx y Hy) as Hxy.
  unfold not_after, key_le in Hxy. apply negb_true_iff in Hxy.
  unfold before. destruct (key_lt x y) eqn:E; [reflexivity|].
  exfalso. apply Hnotin. rewrite (key_lt_total _ _ E Hxy).
  apply in_map, Hy.
Qed.

(** ** From the loop to the result *)

Lemma slots_of_In (now : datetime) (bd : str) (items : list raw_item)
    (s : forecast_slot) :
  In s (slots_of now bd items) ->
  str_gt (slot_date s) bd
  || (str_eqb (slot_date s) bd && str_ge (slot_time s) (strftime_HM now)) = true /\
  NoDup (keys (slot_data s)) /\
  forall label v,
    In (label, v) (slot_data s) ->
    origin now bd items (key_of_stamp (stamp s)) label v.
Proof.
  unfold slots_of, values. rewrite map_map. intros Hin.
  apply in_map_iff in Hin. destruct Hin as ([key rs] & <- & Hin).
  destruct (loop_inv_fold now bd items) as (_ & Hslots & _).
  destruct (Hslots key rs Hin) as (d & t & Hd & Ht & Hk & Hf & Hnd & Ho).
  cbn [snd]. unfold typed_slot, key_of_stamp, stamp. rewrite Hd, Ht.
  cbn [slot_date slot_time slot_data fst snd].
  rewrite <- Hk. auto.
Qed.

Lemma slots_of_keys (now : datetime) (bd : str) (items : list raw_item) :
  map key_of_stamp (map stamp (slots_of now bd items))
  = keys (fold_left (step_item now bd) items []).
Proof.
  unfold slots_of, values, keys. rewrite !map_map.
  apply map_ext_in. intros [key rs] Hin.
  destruct (loop_inv_fold now bd items) as (_ & Hslots & _).
  destruct (Hslots key rs Hin) as (d & t & Hd & Ht & Hk & _).
  cbn [snd]. unfold typed_slot, key_of_stamp, stamp. rewrite Hd, Ht.
  cbn [slot_date slot_time slot_data fst snd].
  symmetry; exact Hk.
Qed.

Lemma slots_of_NoDup (now : datetime) (bd : str) (items : list raw_item) :
  NoDup (map stamp (slots_of now bd items)).
Proof.
  apply (NoDup_map_inv key_of_stamp). rewrite slots_of_keys.
  apply (loop_inv_fold now bd items).
Qed.

Lemma slots_of_complete (now : datetime) (bd : str) (items : list raw_item)
    (it : raw_item) (label : str) :
  In it items -> kept now bd it = true ->
  dict_get (category it) weather_codes = Some label ->
  exists s,
    In s (slots_of now bd items) /\
    key_of_stamp (stamp s) = slot_key it /\
    dict_has label (slot_data s) = true.
Proof.
  intros Hin Hk Hl.
  destruct (loop_inv_fold now bd items) as (_ & Hslots & Hall).
  destruct (Hall it label Hin Hk Hl) as (rs & Hget & Hhas).
  apply dict_get_In in Hget.
  exists (typed_slot rs). split; [| split].
  - unfold slots_of, values. rewrite map_map.
    apply in_map_iff. exists (slot_key it, rs). auto.
  - destruct (Hslots _ _ Hget) as (d & t & Hd & Ht & Hkey & _).
    cbn [snd]. unfold typed_slot, key_of_stamp, stamp. rewrite Hd, Ht.
  cbn [slot_date slot_time slot_data fst snd].
    symmetry; exact Hkey.
  - exact Hhas.
Qed.

Lemma str_slots_typed (l : list raw_slot) :
  (forall s, In s l -> exists d t, raw_date s = JStr d /\ raw_time s = JStr t) ->
  str_slots l = Some (map typed_slot l).
Proof.
  induction l as [|s l IH]; intros H; simpl; [reflexivity|].
  rewrite IH by (intros; apply H; right; assumption).
  destruct (H s (or_introl eq_refl)) as (d & t & Hd & Ht).
  unfold str_slot, typed_slot. rewrite Hd, Ht. reflexivity.
Qed.

Lemma decode_represents (rt : runtime) (now : datetime) (bd loc bt : str)
    (l : list json) (items : list raw_item) :
  Forall2 represents l items ->
  decode rt now bd loc bt (JArr l)
  = ret (Weather (assemble loc bd bt (slots_of now bd items))).
Proof.
  intros Hrep. unfold decode, py_iter. rewrite bind_ret.
  rewrite (loop_represents rt now bd l items Hrep), bind_ret.
  rewrite str_slots_typed; [reflexivity|].
  intros s Hin. unfold values in Hin. apply in_map_iff in Hin.
  destruct Hin as ([key rs] & <- & Hin).
  destruct (loop_inv_fold now bd items) as (_ & Hslots & _).
  destruct (Hslots key rs Hin) as (d & t & Hd & Ht & _). eauto.
Qed.

Lemma parsed_carries (rt : runtime) (now : datetime) (bd loc bt : str)
    (data items : json) :
  carries data items ->
  parsed rt now bd loc bt data
  = if py_bool items then decode rt now bd loc bt items
    else ret (Error msg_no_data).
Proof.
  intros (o & r & h & b & i & -> & Hr & Hh & Hc & Hb & Hi & Hit).
  unfold parsed. py_step. unfold is_str. rewrite str_eqb_refl.
  simpl negb. cbv iota. py_step.
  destruct (py_bool items); reflexivity.
Qed.

Lemma get_weather_decodes (rt : runtime) (api_key : option str) (loc : str)
    (now : datetime) (get : http) (l : list json) (items : list raw_item) :
  delivers get api_key loc now (JArr l) ->
  Forall2 represents l items ->
  snd (get_weather rt api_key loc now get)
  = Returns match l with
            | [] => Error msg_no_data
            | _ :: _ =>
                Weather (assemble loc (fst (select_batch now))
                                  (snd (select_batch now))
                                  (slots_of now (fst (select_batch now)) items))
            end.
Proof.
  intros (key & x & y & resp & data & -> & Hkey & Hloc & Hget & Hst & Henv
          & Hjson & Hcar) Hrep.
  rewrite (get_weather_parsed rt key loc now get x y resp data
             Hkey Hloc Hget Hst Henv Hjson).
  rewrite (parsed_carries _ _ _ _ _ _ _ Hcar).
  destruct l as [|j l]; [reflexivity|].
  simpl py_bool. cbv iota.
  rewrite (decode_represents rt now _ loc _ (j :: l) items Hrep). reflexivity.
Qed.

Lemma carries_body_of (items : json) : carries (body_of items) items.
Proof.
  unfold carries, body_of. do 5 eexists.
  split; [reflexivity|]. repeat split; reflexivity.
Qed.

Lemma delivers_ok_response (key loc : str) (now : datetime) (x y : Z)
    (items : json) :
  key <> [] ->
  dict_get loc location_codes = Some (x, y) ->
  delivers (fun _ => ret (ok_response items)) (Some key) loc now items.
Proof.
  intros Hkey Hloc.
  exists key, x, y, (ok_response items), (body_of items).
  repeat split; auto. apply carries_body_of.
Qed.

Lemma In_first_sorted (n : nat) (slots : list forecast_slot) (s : forecast_slot) :
  In s (firstn n (sorted_slots slots)) -> In s slots.
Proof.
  intros H. apply In_firstn in H.
  eapply Permutation_in; [apply sorted_slots_perm | exact H].
Qed.

Lemma first_sorted_strict (n : nat) (slots : list forecast_slot) :
  NoDup (map stamp slots) ->
  StronglySorted before (firstn n (sorted_slots slots)).
Proof.
  intros Hnd. apply StronglySorted_firstn, sorted_strict.
  - eapply Permutation_NoDup; [| exact Hnd].
    apply Permutation_map. symmetry. apply sorted_slots_perm.
  - apply sorted_slots_sorted.
Qed.

Lemma filter_stamp_ge (d t bd hm : str) :
  str_gt d bd || (str_eqb d bd && str_ge t hm) = stamp_ge d t bd hm.
Proof.
  unfold str_gt, stamp_ge.
  destruct (str_compare d bd) eqn:E.
  - apply str_compare_eq in E; subst. rewrite str_eqb_refl. reflexivity.
  - assert (Hne : str_eqb d bd = false).
    { apply str_eqb_neq. intros ->. rewrite str_compare_refl in E. discriminate. }
    rewrite Hne. reflexivity.
  - reflexivity.
Qed.

Lemma select_batch_today (now : datetime) :
  2 <= hour now -> fst (select_batch now) = strftime_Ymd now.
Proof.
  intros H. unfold select_batch. rewrite latest_hour_cases.
  repeat match goal with
         | |- context [?a >=? ?b] => destruct (Z.geb_spec a b)
         end; try reflexivity; lia.
Qed.

Lemma decoded_other (it : raw_item) :
  category it <> lit "PTY" -> category it <> lit "SKY" ->
  decoded it = fcstValue it.
Proof.
  intros Hp Hs. unfold decoded.
  apply str_eqb_neq in Hp, Hs. rewrite Hp, Hs. reflexivity.
Qed.

(** ** The decoder *)

(** C2. For well-formed items: the result is the success structure built
    from slots in which every entry [label: v] was written for an item that
    passed the time test, whose category is one of the 12 of [weather_codes],
    [label] being the label of that category and [v] its decoded value; every
    such item has its label in the slot of its timestamp; items of another
    category leave no trace.  PTY values 0 to 4 and SKY values 1, 3, 4 decode
    to their labels; any other value, and the value of any other category,
    is passed through. *)
Theorem decoder_labels_and_codes (rt : runtime) (api_key : option str)
    (loc : str) (now : datetime) (get : http) (l : list json)
    (items : list raw_item) :
  delivers get api_key loc now (JArr l) ->
  Forall2 represents l items ->
  l <> [] ->
  let bd := fst (select_batch now) in
  (exists slots,
     snd (get_weather rt api_key loc now get)
     = Returns (Weather (assemble loc bd (snd (select_batch now)) slots)) /\
     (forall s label v,
        In s slots -> In (label, v) (slot_data s) ->
        exists it,
          In it items /\ kept now bd it = true /\
          slot_key it = key_of_stamp (stamp s) /\
          dict_get (category it) weather_codes = Some label /\
          v = JStr (decoded it)) /\
     (forall it label,
        In it items -> kept now bd it = true ->
        dict_get (category it) weather_codes = Some label ->
        exists s,
          In s slots /\ key_of_stamp (stamp s) = slot_key it /\
          dict_has label (slot_data s) = true) /\
     (forall f,
        In f (forecasts (assemble loc bd (snd (select_batch now)) slots)) ->
        exists s, In s slots /\ f = format_slot s)) /\
  keys weather_codes
  = [ lit "POP"; lit "PTY"; lit "REH"; lit "SKY"; lit "TMP"; lit "TMN";
      lit "TMX"; lit "UUU"; lit "VVV"; lit "WAV"; lit "VEC"; lit "WSD" ] /\
  (forall d t,
     decoded (mk_item (lit "PTY") d t (lit "0")) = lit "없음" /\
     decoded (mk_item (lit "PTY") d t (lit "1")) = lit "비" /\
     decoded (mk_item (lit "PTY") d t (lit "2")) = lit "비/눈" /\
     decoded (mk_item (lit "PTY") d t (lit "3")) = lit "눈" /\
     decoded (mk_item (lit "PTY") d t (lit "4")) = lit "소나기" /\
     decoded (mk_item (lit "SKY") d t (lit "1")) = lit "맑음" /\
     decoded (mk_item (lit "SKY") d t (lit "3")) = lit "구름많음" /\
     decoded (mk_item (lit "SKY") d t (lit "4")) = lit "흐림") /\
  (forall it,
     (category it = lit "PTY" -> dict_get (fcstValue it) pty_codes = None ->
      decoded it = fcstValue it) /\
     (category it = lit "SKY" -> dict_get (fcstValue it) sky_codes = None ->
      decoded it = fcstValue it) /\
     (category it <> lit "PTY" -> category it <> lit "SKY" ->
      decoded it = fcstValue it)).
Proof.
  intros Hdel Hrep Hne bd. split; [| split; [reflexivity | split]].
  - exists (slots_of now bd items). split; [| split; [| split]].
    + rewrite (get_weather_decodes rt api_key loc now get l items Hdel Hrep).
      destruct l; [congruence | reflexivity].
    + intros s label v Hs Hin.
      destruct (slots_of_In now bd items s Hs) as (_ & _ & Ho).
      exact (Ho label v Hin).
    + intros it label Hin Hk Hl.
      exact (slots_of_complete now bd items it label Hin Hk Hl).
    + intros f Hf. unfold assemble in Hf. cbn [forecasts] in Hf.
      apply in_map_iff in Hf. destruct Hf as (s & <- & Hs).
      exists s. split; [eapply In_first_sorted; exact Hs | reflexivity].
  - intros d t. repeat split; reflexivity.
  - intros it. split; [| split].
    + intros Hc Hv. unfold decoded. rewrite Hc, Hv. reflexivity.
    + intros Hc Hv. unfold decoded. rewrite Hc, Hv. reflexivity.
    + apply decoded_other.
Qed.

(** One record per category at 14:00, with PTY 1 and SKY 3, read at 13:00. *)
Lemma decoder_labels_and_codes_witness :
  let items :=
    map (fun cv => item (fst cv) "20240101" "1400" (snd cv))
        [ ("POP", "30"); ("PTY", "1"); ("REH", "60"); ("SKY", "3");
          ("TMP", "5"); ("TMN", "-2.0"); ("TMX", "7.0"); ("UUU", "1.2");
          ("VVV", "-0.5"); ("WAV", "0.5"); ("VEC", "270"); ("WSD", "2.3") ]%string in
  exists slots,
    snd (get_weather rt0 (Some (lit "k")) (lit "서울") (mk_datetime 2024 1 1 13 0)
           (fun _ => ret (ok_response (JArr (map item_json items)))))
    = Returns (Weather (assemble (lit "서울") (lit "20240101") (lit "1100") slots)) /\
    forall s label v,
      In s slots -> In (label, v) (slot_data s) ->
      exists it,
        In it items /\
        dict_get (category it) weather_codes = Some label /\
        v = JStr (decoded it).
Proof.
  intros items.
  destruct (decoder_labels_and_codes rt0 (Some (lit "k")) (lit "서울")
              (mk_datetime 2024 1 1 13 0)
              (fun _ => ret (ok_response (JArr (map item_json items))))
              (map item_json items) items) as ((slots & Hout & Ha & _ & _) & _).
  - apply (delivers_ok_response _ _ _ 60 127); [discriminate | reflexivity].
  - apply Forall2_represents_map.
  - discriminate.
  - exists slots. split; [exact Hout|].
    intros s label v Hs Hin.
    destruct (Ha s label v Hs Hin) as (it & H1 & _ & _ & H4 & H5). eauto.
Defined.

(** The round trip of the specification: PTY 1 and SKY 3 come out as 비 and
    구름많음 in the slot of their timestamp, and in the snapshot. *)
Example decoder_round_trip :
  let items :=
    map (fun cv => item (fst cv) "20240101" "1400" (snd cv))
        [ ("POP", "30"); ("PTY", "1"); ("REH", "60"); ("SKY", "3");
          ("TMP", "5"); ("TMN", "-2.0"); ("TMX", "7.0"); ("UUU", "1.2");
          ("VVV", "-0.5"); ("WAV", "0.5"); ("VEC", "270"); ("WSD", "2.3");
          ("XYZ", "9") ]%string in
  exists data c,
    snd (get_weather rt0 (Some (lit "k")) (lit "서울") (mk_datetime 2024 1 1 13 0)
           (fun _ => ret (ok_response (JArr (map item_json items)))))
    = Returns (Weather (mk_info (lit "서울") (lit "20240101") (lit "1100")
                                [mk_slot (lit "01/01") (lit "14:00") data]
                                (Some c))) /\
    List.length data = 12%nat /\
    dict_get (lit "강수형태") data = Some (JStr (lit "비")) /\
    dict_get (lit "하늘상태") data = Some (JStr (lit "구름많음")) /\
    precipitation_type c = JStr (lit "비") /\
    sky c = JStr (lit "구름많음").
Proof. vm_compute. do 2 eexists. repeat split. Qed.

(** The scenario of the specification: 서울 at 13:00 on 2024-01-01, items for
    13:00 and 14:00 with SKY 1, TMP 5, PTY 0. *)
Example scenario_seoul :
  let items :=
    [ item "SKY" "20240101" "1300" "1"; item "TMP" "20240101" "1300" "5";
      item "PTY" "20240101" "1300" "0"; item "SKY" "20240101" "1400" "1";
      item "TMP" "20240101" "1400" "6"; item "PTY" "20240101" "1400" "0" ] in
  exists rest c,
    get_weather rt0 (Some (lit "k")) (lit "서울") (mk_datetime 2024 1 1 13 0)
      (fun _ => ret (ok_response (JArr (map item_json items))))
    = ([request_for (lit "k") (mk_datetime 2024 1 1 13 0) 60 127],
       Returns (Weather (mk_info (lit "서울") (lit "20240101") (lit "1100")
          (mk_slot (lit "01/01") (lit "13:00")
                   [ (lit "하늘상태", JStr (lit "맑음"));
                     (lit "기온", JStr (lit "5"));
                     (lit "강수형태", JStr (lit "없음")) ] :: rest)
          (Some c)))) /\
    temperature c = JStr (lit "5").
Proof. vm_compute. do 2 eexists. split; reflexivity. Qed.

(** ** The forecasts sequence *)

(** What holds of the ForecastSlot invariant, for well-formed items: the
    forecasts are the reformatted first 24 of the slots sorted by timestamp,
    strictly ascending (so with distinct timestamps), each with distinct
    labels; and when the batch is of today ([now.hour] at least 2) every
    timestamp is at or after [now]. *)
Lemma forecasts_invariant (rt : runtime) (api_key : option str) (loc : str)
    (now : datetime) (get : http) (l : list json) (items : list raw_item) :
  delivers get api_key loc now (JArr l) ->
  Forall2 represents l items ->
  l <> [] ->
  exists info slots,
    snd (get_weather rt api_key loc now get) = Returns (Weather info) /\
    NoDup (map stamp slots) /\
    forecasts info = map format_slot (firstn 24 (sorted_slots slots)) /\
    Permutation (sorted_slots slots) slots /\
    StronglySorted before (sorted_slots slots) /\
    StronglySorted before (firstn 24 (sorted_slots slots)) /\
    List.length (forecasts info) = Nat.min 24 (List.length slots) /\
    (forall s, In s slots -> NoDup (keys (slot_data s))) /\
    (2 <= hour now ->
     forall s,
       In s slots ->
       stamp_ge (slot_date s) (slot_time s)
                (strftime_Ymd now) (strftime_HM now) = true).
Proof.
  intros Hdel Hrep Hne.
  set (bd := fst (select_batch now)).
  exists (assemble loc bd (snd (select_batch now)) (slots_of now bd items)),
         (slots_of now bd items).
  pose proof (slots_of_NoDup now bd items) as Hnd.
  split; [| split; [exact Hnd | split; [reflexivity | split; [| split; [| split; [| split; [| split]]]]]]].
  - rewrite (get_weather_decodes rt api_key loc now get l items Hdel Hrep).
    destruct l; [congruence | reflexivity].
  - apply sorted_slots_perm.
  - rewrite <- (firstn_all (sorted_slots (slots_of now bd items))).
    apply first_sorted_strict, Hnd.
  - apply first_sorted_strict, Hnd.
  - unfold assemble. cbn [forecasts].
    rewrite length_map, length_firstn.
    rewrite (Permutation_length (sorted_slots_perm _)). reflexivity.
  - intros s Hs. apply (slots_of_In now bd items s Hs).
  - intros Hh s Hs.
    destruct (slots_of_In now bd items s Hs) as (Hf & _).
    rewrite filter_stamp_ge in Hf. unfold bd in Hf.
    rewrite (select_batch_today now Hh) in Hf. exact Hf.
Qed.

(** Thirty distinct future timestamps: the 24 earliest come out. *)
Example thirty_slots_truncated :
  let hours :=
    [ "2300"; "2200"; "2100"; "2000"; "1900"; "1800"; "1700"; "1600"; "1500";
      "1400" ]%string in
  let items :=
    map (fun h => item "TMP" "20240103" h "1") hours
    ++ map (fun h => item "TMP" "20240101" h "2") hours
    ++ map (fun h => item "TMP" "20240102" h "3") hours in
  let fs :=
    match snd (get_weather rt0 (Some (lit "k")) (lit "서울")
                 (mk_datetime 2024 1 1 13 30)
                 (fun _ => ret (ok_response (JArr (map item_json items))))) with
    | Returns (Weather info) => forecasts info
    | _ => []
    end in
  List.length items = 30%nat /\
  List.length fs = 24%nat /\
  map slot_date fs = repeat (lit "01/01") 10 ++ repeat (lit "01/02") 10
                     ++ repeat (lit "01/03") 4 /\
  map slot_time (skipn 20 fs) = [lit "14:00"; lit "15:00"; lit "16:00"; lit "17:00"].
Proof. vm_compute. repeat split. Qed.

(** C3 fails when the batch is yesterday's.  At 01:30 on 2024-01-02 the
    batch date is 20240101, every record dated 20240102 passes the test of
    line 187 whatever its time, and the record of 00:00, which is before
    [now], becomes the first slot and the current snapshot. *)
Theorem slot_before_now (rt : runtime) :
  let now := mk_datetime 2024 1 2 1 30 in
  let items := [ item "TMP" "20240102" "0000" "5";
                 item "TMP" "20240102" "0200" "4" ] in
  select_batch now = (lit "20240101", lit "2300") /\
  snd (get_weather rt (Some (lit "k")) (lit "서울") now
         (fun _ => ret (ok_response (JArr (map item_json items)))))
  = Returns (Weather (mk_info (lit "서울") (lit "20240101") (lit "2300")
       [ mk_slot (lit "01/02") (lit "00:00") [(lit "기온", JStr (lit "5"))];
         mk_slot (lit "01/02") (lit "02:00") [(lit "기온", JStr (lit "4"))] ]
       (Some (mk_current (JStr (lit "5")) no_info no_info no_info no_info
                         no_info)))) /\
  stamp_ge (lit "20240102") (lit "0000") (strftime_Ymd now) (strftime_HM now)
  = false.
Proof.
  intros now items. split; [reflexivity|]. split; [| reflexivity].
  rewrite (get_weather_decodes rt (Some (lit "k")) (lit "서울") now _
             (map item_json items) items).
  - reflexivity.
  - apply (delivers_ok_response _ _ _ 60 127); [discriminate | reflexivity].
  - apply Forall2_represents_map.
Qed.

(** ** Items that are all filtered out *)

Lemma fold_step_item_skipped (now : datetime) (bd : str)
    (items : list raw_item) (cf : list (str * raw_slot)) :
  (forall it,
     In it items ->
     kept now bd it = false \/ dict_get (category it) weather_codes = None) ->
  fold_left (step_item now bd) items cf = cf.
Proof.
  revert cf; induction items as [|it items IH]; intros cf H; [reflexivity|].
  simpl. assert (Hit : step_item now bd cf it = cf).
  { unfold step_item. destruct (H it (or_introl eq_refl)) as [Hk | Hc].
    - rewrite Hk. reflexivity.
    - rewrite Hc. destruct (kept now bd it); reflexivity. }
  rewrite Hit. apply IH. intros it' Hin. apply H. right; exact Hin.
Qed.

(** C10. For a well-formed item list: when it is not empty and every item
    fails the time test or has an unknown category, the result is the success
    structure with an empty ["forecasts"] and no ["current"]; and the no-data
    error is returned exactly when the list is empty. *)
Theorem all_filtered_is_empty_success (rt : runtime) (api_key : option str)
    (loc : str) (now : datetime) (get : http) (l : list json)
    (items : list raw_item) :
  delivers get api_key loc now (JArr l) ->
  Forall2 represents l items ->
  (l <> [] ->
   (forall it,
      In it items ->
      kept now (fst (select_batch now)) it = false \/
      dict_get (category it) weather_codes = None) ->
   snd (get_weather rt api_key loc now get)
   = Returns (Weather (mk_info loc (fst (select_batch now))
                               (snd (select_batch now)) [] None))) /\
  (snd (get_weather rt api_key loc now get) = Returns (Error msg_no_data)
   <-> l = []).
Proof.
  intros Hdel Hrep.
  rewrite (get_weather_decodes rt api_key loc now get l items Hdel Hrep).
  split.
  - intros Hne Hall. destruct l as [|j l]; [congruence|].
    unfold slots_of. rewrite (fold_step_item_skipped _ _ _ _ Hall). reflexivity.
  - destruct l; split; intros H; try reflexivity; discriminate.
Qed.

(** Records of the past and of an unknown category only. *)
Lemma all_filtered_is_empty_success_witness :
  let items := [ item "TMP" "20240101" "1200" "5";
                 item "XYZ" "20240101" "1400" "1" ] in
  snd (get_weather rt0 (Some (lit "k")) (lit "서울") (mk_datetime 2024 1 1 13 0)
         (fun _ => ret (ok_response (JArr (map item_json items)))))
  = Returns (Weather (mk_info (lit "서울") (lit "20240101") (lit "1100") [] None)).
Proof.
  intros items.
  apply (all_filtered_is_empty_success rt0 (Some (lit "k")) (lit "서울")
           (mk_datetime 2024 1 1 13 0)
           (fun _ => ret (ok_response (JArr (map item_json items))))
           (map item_json items) items).
  - apply (delivers_ok_response _ _ _ 60 127); [discriminate | reflexivity].
  - apply Forall2_represents_map.
  - discriminate.
  - intros it [<- | [<- | []]]; [left | right]; reflexivity.
Defined.

(** * Further properties of [get_weather] *)

(** ** Failures before the body is examined *)

(** X1. With the key set and the location known, a [RequestException] raised
    by [requests.get] is returned as the request-failed error carrying the
    text of the exception, and a body of status 200, without the XML
    envelope, that [json()] rejects by raising [JSONDecodeError] (the one
    exception the inner [except] clause names) is returned as the not-JSON
    error; in both cases exactly one request has been sent. *)
Theorem failures_before_parsing (rt : runtime) (key loc : str)
    (now : datetime) (get : http) (x y : Z) :
  key <> [] ->
  dict_get loc location_codes = Some (x, y) ->
  (forall msg,
     get (request_for key now x y) = raise (RequestException msg) ->
     get_weather rt (Some key) loc now get
     = ([request_for key now x y], Returns (Error (msg_request_failed msg)))) /\
  (forall resp,
     get (request_for key now x y) = ret resp ->
     status_code resp = 200 ->
     str_in xml_envelope (text resp) = false ->
     json_body resp = None ->
     get_weather rt (Some key) loc now get
     = ([request_for key now x y], Returns (Error msg_not_json))).
Proof.
  intros Hkey Hloc. split.
  - intros msg Hget.
    rewrite (get_weather_sends rt key loc now get x y Hkey Hloc), Hget.
    reflexivity.
  - intros resp Hget Hst Henv Hjson.
    rewrite (get_weather_sends rt key loc now get x y Hkey Hloc), Hget.
    rewrite bind_ret. unfold received. rewrite Hst, Henv, Hjson. reflexivity.
Qed.

Lemma failures_before_parsing_witness :
  get_weather rt0 (Some (lit "k")) (lit "제주") (mk_datetime 2024 1 1 13 0)
              (fun _ => raise (RequestException (lit "Connection refused")))
  = ([request_for (lit "k") (mk_datetime 2024 1 1 13 0) 52 38],
     Returns (Error (msg_request_failed (lit "Connection refused")))).
Proof.
  apply (failures_before_parsing rt0 (lit "k") (lit "제주")
           (mk_datetime 2024 1 1 13 0)
           (fun _ => raise (RequestException (lit "Connection refused")))
           52 38);
    [discriminate | reflexivity | reflexivity].
Defined.

(** ** Bodies of an unexpected shape *)

(** X2. A parsed body whose header object has no [resultCode], or has a
    result code other than 00 and no [resultMsg], makes the subscript raise
    [KeyError]; the [except] clause returns it as the processing error whose
    text is the missing key in quotes. *)
Theorem missing_header_field_is_processing_error (rt : runtime) (key loc : str)
    (now : datetime) (get : http) (x y : Z) (resp : response)
    (o r h : list (str * json)) :
  key <> [] ->
  dict_get loc location_codes = Some (x, y) ->
  get (request_for key now x y) = ret resp ->
  status_code resp = 200 ->
  str_in xml_envelope (text resp) = false ->
  json_body resp = Some (JObj o) ->
  dict_get (lit "response") o = Some (JObj r) ->
  dict_get (lit "header") r = Some (JObj h) ->
  let out := snd (get_weather rt (Some key) loc now get) in
  (dict_get (lit "resultCode") h = None ->
   out = Returns (Error (msg_processing_failed (lit "'resultCode'")))) /\
  (forall code,
     dict_get (lit "resultCode") h = Some code ->
     is_str code (lit "00") = false ->
     dict_get (lit "resultMsg") h = None ->
     out = Returns (Error (msg_processing_failed (lit "'resultMsg'")))).
Proof.
  intros Hkey Hloc Hget Hst Henv Hjson Hr Hh out. subst out.
  rewrite (get_weather_parsed rt key loc now get x y resp (JObj o)
             Hkey Hloc Hget Hst Henv Hjson).
  unfold parsed. split.
  - intros Hc. py_step. unfold py_getitem at 1. rewrite Hc. reflexivity.
  - intros code Hc Hne Hm. py_step. rewrite Hne. simpl negb. cbv iota.
    unfold py_getitem at 1. rewrite Hm. reflexivity.
Qed.

Lemma missing_header_field_is_processing_error_witness :
  snd (get_weather rt0 (Some (lit "k")) (lit "서울") (mk_datetime 2024 1 1 13 0)
         (fun _ => ret (mk_response 200 []
            (Some (JObj [ (lit "response",
                           JObj [ (lit "header",
                                   JObj [ (lit "resultMsg", JStr (lit "OK")) ]) ]) ])))))
  = Returns (Error (msg_processing_failed (lit "'resultCode'"))).
Proof.
  apply (missing_header_field_is_processing_error rt0 (lit "k") (lit "서울")
           (mk_datetime 2024 1 1 13 0)
           (fun _ => ret (mk_response 200 []
              (Some (JObj [ (lit "response",
                             JObj [ (lit "header",
                                     JObj [ (lit "resultMsg", JStr (lit "OK")) ]) ]) ]))))
           60 127 _ _ _ _
           ltac:(discriminate) eq_refl eq_refl eq_refl eq_refl eq_refl
           eq_refl eq_refl).
  reflexivity.
Defined.

(** X3. A parsed body that is not an object.  A list without the element
    ["response"], or a string in which ["response"] does not occur, is the
    format error; a list with that element, a string with that substring,
    and [null], a boolean or a number make an operator raise [TypeError],
    which leaves [get_weather]. *)
Theorem non_object_body (rt : runtime) (key loc : str) (now : datetime)
    (get : http) (x y : Z) (resp : response) (data : json) :
  key <> [] ->
  dict_get loc location_codes = Some (x, y) ->
  get (request_for key now x y) = ret resp ->
  status_code resp = 200 ->
  str_in xml_envelope (text resp) = false ->
  json_body resp = Some data ->
  let out := snd (get_weather rt (Some key) loc now get) in
  (forall l,
     data = JArr l ->
     out = if existsb (fun e => is_str e (lit "response")) l
           then Raises TypeError
           else Returns (Error msg_bad_format)) /\
  (forall s,
     data = JStr s ->
     out = if str_in (lit "response") s
           then Raises TypeError
           else Returns (Error msg_bad_format)) /\
  (data = JNull \/ (exists b, data = JBool b) \/ (exists z, data = JInt z) \/
   (exists f, data = JFloat f) ->
   out = Raises TypeError).
Proof.
  intros Hkey Hloc Hget Hst Henv Hjson out. subst out.
  rewrite (get_weather_parsed rt key loc now get x y resp _
             Hkey Hloc Hget Hst Henv Hjson).
  unfold parsed, py_not_in, py_in. repeat apply conj.
  - intros l ->. rewrite bind_ret.
    destruct (existsb (fun e => is_str e (lit "response")) l); reflexivity.
  - intros s ->. rewrite bind_ret.
    destruct (str_in (lit "response") s); reflexivity.
  - intros [-> | [[b ->] | [[z ->] | [f ->]]]]; reflexivity.
Qed.

Lemma non_object_body_witness :
  snd (get_weather rt0 (Some (lit "k")) (lit "서울") (mk_datetime 2024 1 1 13 0)
         (fun _ => ret (mk_response 200 (lit "[]") (Some (JArr [])))))
  = Returns (Error msg_bad_format).
Proof.
  destruct (non_object_body rt0 (lit "k") (lit "서울")
              (mk_datetime 2024 1 1 13 0)
              (fun _ => ret (mk_response 200 (lit "[]") (Some (JArr []))))
              60 127 _ (JArr []) ltac:(discriminate) eq_refl eq_refl eq_refl
              eq_refl eq_refl) as (H & _).
  apply (H [] eq_refl).
Defined.

(** X4. What [response.body.items.item] may be, in a body of result code
    00.  A value that is false in a condition ([null], [false], a zero, an
    empty string, list or object) is the no-data error.  A non-empty object
    (a single record instead of a list of records) or a non-empty string is
    iterated, its keys or characters are subscripted as records, and
    [TypeError] leaves [get_weather]; so it does for [true] and a non-zero
    number, which are not iterable. *)
Theorem items_not_a_list (rt : runtime) (api_key : option str) (loc : str)
    (now : datetime) (get : http) (items : json) :
  delivers get api_key loc now items ->
  (py_bool items = false ->
   snd (get_weather rt api_key loc now get) = Returns (Error msg_no_data)) /\
  (py_bool items = true ->
   (forall l, items <> JArr l) ->
   snd (get_weather rt api_key loc now get) = Raises TypeError).
Proof.
  intros (key & x & y & resp & data & -> & Hkey & Hloc & Hget & Hst & Henv
          & Hjson & Hcar).
  rewrite (get_weather_parsed rt key loc now get x y resp data
             Hkey Hloc Hget Hst Henv Hjson).
  rewrite (parsed_carries _ _ _ _ _ _ _ Hcar).
  split; intros Hb; rewrite Hb; [reflexivity|].
  intros Hnot. unfold decode.
  destruct items as [| b | z | f | s | l | o]; try reflexivity.
  - destruct s as [|c s]; [discriminate | reflexivity].
  - exfalso. exact (Hnot l eq_refl).
  - destruct o as [|[k v] o]; [discriminate | reflexivity].
Qed.

(** A single record sent as an object, not as a list of one record. *)
Lemma items_not_a_list_witness :
  snd (get_weather rt0 (Some (lit "k")) (lit "서울") (mk_datetime 2024 1 1 13 0)
         (fun _ => ret (ok_response (item_json (item "TMP" "20240101" "1400" "5")))))
  = Raises TypeError.
Proof.
  apply (items_not_a_list rt0 (Some (lit "k")) (lit "서울")
           (mk_datetime 2024 1 1 13 0) _
           (item_json (item "TMP" "20240101" "1400" "5"))).
  - apply (delivers_ok_response _ _ _ 60 127); [discriminate | reflexivity].
  - reflexivity.
  - discriminate.
Defined.

(** ** The batch *)

(** X5. For an hour of the day, the batch requested was issued at most two
    full hours before the current hour: today's batch hour [h] satisfies
    [h <= now.hour <= h + 2], and before 02:00 the batch of 23:00 of the day
    before is one or two hours old. *)
Theorem batch_is_recent (now : datetime) :
  0 <= hour now <= 23 ->
  exists h,
    In h forecast_hours /\
    snd (select_batch now) = fmt_0d 2 h ++ lit "00" /\
    ((fst (select_batch now) = strftime_Ymd now /\
      h <= hour now <= h + 2) \/
     (fst (select_batch now) = strftime_Ymd (minus_one_day now) /\
      h = 23 /\ 1 <= hour now + 24 - h <= 2)).
Proof.
  intros Hh. unfold select_batch. rewrite latest_hour_cases.
  repeat match goal with
         | |- context [?a >=? ?b] => destruct (Z.geb_spec a b)
         end;
    try (eexists; split; [| split; [reflexivity | left; split; [reflexivity | lia]]];
         simpl; tauto).
  exists 23. split; [simpl; tauto|]. split; [reflexivity|].
  right. split; [reflexivity | lia].
Qed.

Lemma batch_is_recent_witness :
  exists h,
    In h forecast_hours /\
    snd (select_batch (mk_datetime 2024 1 1 16 59)) = fmt_0d 2 h ++ lit "00" /\
    ((fst (select_batch (mk_datetime 2024 1 1 16 59))
      = strftime_Ymd (mk_datetime 2024 1 1 16 59) /\
      h <= 16 <= h + 2) \/
     (fst (select_batch (mk_datetime 2024 1 1 16 59))
      = strftime_Ymd (minus_one_day (mk_datetime 2024 1 1 16 59)) /\
      h = 23 /\ 1 <= 16 + 24 - h <= 2)).
Proof.
  apply (batch_is_recent (mk_datetime 2024 1 1 16 59)). simpl. lia.
Defined.

(** ** Records that lack a field *)

Lemma loop_app (rt : runtime) (now : datetime) (bd : str) (l1 l2 : list json) :
  forall cf,
    loop rt now bd cf (l1 ++ l2)
    = (cf' <- loop rt now bd cf l1 ;; loop rt now bd cf' l2).
Proof.
  induction l1 as [|j l1 IH]; intros cf; simpl; [reflexivity|].
  destruct (step rt now bd cf j) as [e | cf']; simpl; [reflexivity | apply IH].
Qed.

Lemma get_weather_loop (rt : runtime) (api_key : option str) (loc : str)
    (now : datetime) (get : http) (l : list json) :
  delivers get api_key loc now (JArr l) ->
  l <> [] ->
  snd (get_weather rt api_key loc now get)
  = handle (decode rt now (fst (select_batch now)) loc
                   (snd (select_batch now)) (JArr l)).
Proof.
  intros (key & x & y & resp & data & -> & Hkey & Hloc & Hget & Hst & Henv
          & Hjson & Hcar) Hne.
  rewrite (get_weather_parsed rt key loc now get x y resp data
             Hkey Hloc Hget Hst Henv Hjson).
  rewrite (parsed_carries _ _ _ _ _ _ _ Hcar).
  destruct l; [congruence | reflexivity].
Qed.

Lemma decode_loop_raises (rt : runtime) (now : datetime) (bd loc bt : str)
    (l : list json) (e : exn) :
  loop rt now bd [] l = raise e ->
  decode rt now bd loc bt (JArr l) = raise e.
Proof. intros H. unfold decode, py_iter. rewrite bind_ret, H. reflexivity. Qed.

Lemma decode_loop_returns (rt : runtime) (now : datetime) (bd loc bt : str)
    (l : list json) (items : list raw_item) :
  loop rt now bd [] l = ret (fold_left (step_item now bd) items []) ->
  decode rt now bd loc bt (JArr l)
  = ret (Weather (assemble loc bd bt (slots_of now bd items))).
Proof.
  intros H. unfold decode, py_iter. rewrite bind_ret, H, bind_ret.
  rewrite str_slots_typed; [reflexivity|].
  intros s Hin. unfold values in Hin. apply in_map_iff in Hin.
  destruct Hin as ([key rs] & <- & Hin).
  destruct (loop_inv_fold now bd items) as (_ & Hslots & _).
  destruct (Hslots key rs Hin) as (d & t & Hd & Ht & _). eauto.
Qed.

Lemma loop_prefix_raises (rt : runtime) (now : datetime) (bd : str)
    (l1 l2 : list json) (items1 : list raw_item) (j : json) (e : exn) :
  Forall2 represents l1 items1 ->
  (forall cf, step rt now bd cf j = raise e) ->
  loop rt now bd [] (l1 ++ j :: l2) = raise e.
Proof.
  intros Hrep Hstep. rewrite loop_app.
  rewrite (loop_represents rt now bd l1 items1 Hrep), bind_ret.
  simpl. rewrite Hstep. reflexivity.
Qed.

Lemma step_skips (rt : runtime) (now : datetime) (bd : str)
    (cf : list (str * raw_slot)) (o : list (str * json)) (c d t : str) :
  dict_get (lit "category") o = Some (JStr c) ->
  dict_get (lit "fcstDate") o = Some (JStr d) ->
  dict_get (lit "fcstTime") o = Some (JStr t) ->
  relevant now bd (mk_item c d t []) = false ->
  step rt now bd cf (JObj o) = ret cf.
Proof.
  intros Hc Hd Ht Hrel. unfold step. py_step.
  rewrite at_or_after_str, bind_ret.
  unfold relevant, kept, dict_has in Hrel. cbn [fcstDate fcstTime category] in Hrel.
  destruct (str_gt d bd || str_eqb d bd && str_ge t (strftime_HM now));
    [| reflexivity].
  unfold py_lookup at 1. rewrite bind_ret.
  destruct (dict_get c weather_codes); [discriminate | reflexivity].
Qed.

Lemma step_needs_value (rt : runtime) (now : datetime) (bd : str)
    (cf : list (str * raw_slot)) (o : list (str * json)) (c d t : str) :
  dict_get (lit "category") o = Some (JStr c) ->
  dict_get (lit "fcstDate") o = Some (JStr d) ->
  dict_get (lit "fcstTime") o = Some (JStr t) ->
  dict_get (lit "fcstValue") o = None ->
  relevant now bd (mk_item c d t []) = true ->
  step rt now bd cf (JObj o) = raise (KeyError (lit "fcstValue")).
Proof.
  intros Hc Hd Ht Hv Hrel. unfold step. py_step.
  rewrite at_or_after_str, bind_ret.
  unfold relevant, kept, dict_has in Hrel. cbn [fcstDate fcstTime category] in Hrel.
  apply andb_true_iff in Hrel. destruct Hrel as [Hk Hl]. rewrite Hk.
  unfold py_lookup at 1. rewrite bind_ret.
  destruct (dict_get c weather_codes); [| discriminate].
  unfold is_str, py_getitem. rewrite Hv.
  destruct (str_eqb c (lit "PTY")); [reflexivity|].
  destruct (str_eqb c (lit "SKY")); reflexivity.
Qed.

(** X6. One record that lacks a field, after well-formed records.  Without
    [category], [fcstDate] or [fcstTime] (looked up in this order), and
    without [fcstValue] when the record passes the time test and has a known
    category, the subscript raises [KeyError] and the whole call returns the
    processing error naming the key, whatever the records before and after
    it.  A record without [fcstValue] that fails the time test or has an
    unknown category is skipped like any other: the result is that of the
    remaining records. *)
Theorem record_without_field (rt : runtime) (api_key : option str) (loc : str)
    (now : datetime) (get : http) (l1 l2 : list json)
    (items1 : list raw_item) (o : list (str * json)) :
  delivers get api_key loc now (JArr (l1 ++ JObj o :: l2)) ->
  Forall2 represents l1 items1 ->
  let bd := fst (select_batch now) in
  let out := snd (get_weather rt api_key loc now get) in
  let failed := fun k =>
    Returns (Error (msg_processing_failed (lit "'" ++ k ++ lit "'"))) in
  (dict_get (lit "category") o = None -> out = failed (lit "category")) /\
  (forall c,
     dict_get (lit "category") o = Some c ->
     dict_get (lit "fcstDate") o = None -> out = failed (lit "fcstDate")) /\
  (forall c d,
     dict_get (lit "category") o = Some c ->
     dict_get (lit "fcstDate") o = Some d ->
     dict_get (lit "fcstTime") o = None -> out = failed (lit "fcstTime")) /\
  (forall c d t,
     dict_get (lit "category") o = Some (JStr c) ->
     dict_get (lit "fcstDate") o = Some (JStr d) ->
     dict_get (lit "fcstTime") o = Some (JStr t) ->
     dict_get (lit "fcstValue") o = None ->
     (relevant now bd (mk_item c d t []) = true ->
      out = failed (lit "fcstValue")) /\
     (relevant now bd (mk_item c d t []) = false ->
      forall items2,
        Forall2 represents l2 items2 ->
        out = Returns (Weather (assemble loc bd (snd (select_batch now))
                                         (slots_of now bd (items1 ++ items2)))))).
Proof.
  intros Hdel Hrep bd out failed. subst out failed. cbv beta.
  rewrite (get_weather_loop rt api_key loc now get _ Hdel)
    by (destruct l1; discriminate).
  fold bd. repeat apply conj.
  - intros Hc.
    rewrite (decode_loop_raises _ _ _ _ _ _ (KeyError (lit "category")));
      [reflexivity|].
    apply (loop_prefix_raises _ _ _ _ _ items1); [exact Hrep|].
    intros cf. unfold step, py_getitem. rewrite Hc. reflexivity.
  - intros c Hc Hd.
    rewrite (decode_loop_raises _ _ _ _ _ _ (KeyError (lit "fcstDate")));
      [reflexivity|].
    apply (loop_prefix_raises _ _ _ _ _ items1); [exact Hrep|].
    intros cf. unfold step. py_step. unfold py_getitem. rewrite Hd. reflexivity.
  - intros c d Hc Hd Ht.
    rewrite (decode_loop_raises _ _ _ _ _ _ (KeyError (lit "fcstTime")));
      [reflexivity|].
    apply (loop_prefix_raises _ _ _ _ _ items1); [exact Hrep|].
    intros cf. unfold step. py_step. unfold py_getitem. rewrite Ht. reflexivity.
  - intros c d t Hc Hd Ht Hv. split.
    + intros Hrel.
      rewrite (decode_loop_raises _ _ _ _ _ _ (KeyError (lit "fcstValue")));
        [reflexivity|].
      apply (loop_prefix_raises _ _ _ _ _ items1); [exact Hrep|].
      intros cf. apply (step_needs_value rt now bd cf o c d t); assumption.
    + intros Hrel items2 Hrep2.
      rewrite (decode_loop_returns _ _ _ _ _ _ (items1 ++ items2));
        [reflexivity|].
      rewrite loop_app, (loop_represents rt now bd l1 items1 Hrep), bind_ret.
      simpl loop. rewrite (step_skips rt now bd _ o c d t Hc Hd Ht Hrel), bind_ret.
      rewrite (loop_represents rt now bd l2 items2 Hrep2), fold_left_app.
      reflexivity.
Qed.

(** A good record, then one without [fcstTime]. *)
Lemma record_without_field_witness :
  snd (get_weather rt0 (Some (lit "k")) (lit "서울") (mk_datetime 2024 1 1 13 0)
         (fun _ => ret (ok_response (JArr
            [ item_json (item "TMP" "20240101" "1400" "5");
              JObj [ (lit "category", JStr (lit "SKY"));
                     (lit "fcstDate", JStr (lit "20240101"));
                     (lit "fcstValue", JStr (lit "1")) ] ]))))
  = Returns (Error (msg_processing_failed (lit "'fcstTime'"))).
Proof.
  destruct (record_without_field rt0 (Some (lit "k")) (lit "서울")
              (mk_datetime 2024 1 1 13 0)
              (fun _ => ret (ok_response (JArr
                 ([item_json (item "TMP" "20240101" "1400" "5")] ++
                  JObj [ (lit "category", JStr (lit "SKY"));
                         (lit "fcstDate", JStr (lit "20240101"));
                         (lit "fcstValue", JStr (lit "1")) ] :: []))))
              [item_json (item "TMP" "20240101" "1400" "5")] []
              [item "TMP" "20240101" "1400" "5"]
              [ (lit "category", JStr (lit "SKY"));
                (lit "fcstDate", JStr (lit "20240101"));
                (lit "fcstValue", JStr (lit "1")) ])
    as (_ & _ & H & _).
  - apply (delivers_ok_response _ _ _ 60 127); [discriminate | reflexivity].
  - apply (Forall2_represents_map [item "TMP" "20240101" "1400" "5"]).
  - apply (H (JStr (lit "SKY")) (JStr (lit "20240101"))); reflexivity.
Defined.

(** ** More on the slots the loop leaves *)

Lemma relevant_iff (now : datetime) (bd : str) (it : raw_item) :
  relevant now bd it = true <->
  kept now bd it = true /\
  exists label, dict_get (category it) weather_codes = Some label.
Proof.
  unfold relevant, dict_has. rewrite andb_true_iff.
  destruct (dict_get (category it) weather_codes) as [label|].
  - split; intros [H _]; split; eauto.
  - split; [intros [_ H]; discriminate | intros [_ [label H]]; discriminate].
Qed.

Lemma step_item_relevant (now : datetime) (bd : str)
    (cf : list (str * raw_slot)) (it : raw_item) :
  relevant now bd it = false -> step_item now bd cf it = cf.
Proof.
  unfold relevant, dict_has, step_item.
  destruct (kept now bd it); [| reflexivity].
  destruct (dict_get (category it) weather_codes); [discriminate | reflexivity].
Qed.

Lemma dict_set_is_cons {V} (k : str) (v : V) (d : list (str * V)) :
  exists p d', dict_set k v d = p :: d'.
Proof.
  destruct d as [|[k0 v0] d]; simpl; [eauto|].
  destruct (str_eqb k k0); eauto.
Qed.

Lemma fold_slot_from (now : datetime) (bd : str) (items : list raw_item) :
  forall key s,
    In (key, s) (fold_left (step_item now bd) items []) ->
    slot_from now bd items s.
Proof.
  induction items as [|it items IH] using rev_ind; [intros ? ? []|].
  intros key s. rewrite fold_left_app. simpl.
  assert (Hmono : forall s0, slot_from now bd items s0 ->
                             slot_from now bd (items ++ [it]) s0).
  { intros s0 (Hne & it0 & Hin & H). split; [exact Hne|].
    exists it0. split; [apply in_or_app; auto | exact H]. }
  destruct (relevant now bd it) eqn:Hrel.
  - pose proof Hrel as Hrel'. apply relevant_iff in Hrel'.
    destruct Hrel' as (Hk & label & Hl).
    set (cf := fold_left (step_item now bd) items []) in *.
    assert (Hstep : step_item now bd cf it
                    = store (slot_key it) (JStr (fcstDate it))
                            (JStr (fcstTime it)) label (JStr (decoded it)) cf)
      by (unfold step_item; rewrite Hk, Hl; reflexivity).
    rewrite Hstep. unfold store.
    intros Hin. apply In_dict_set in Hin.
    destruct Hin as [[-> ->] | Hin]; [| apply Hmono, (IH key), Hin].
    destruct (dict_get (slot_key it) cf) as [s0|] eqn:E.
    + apply dict_get_In, IH in E. apply Hmono in E.
      destruct E as (_ & it0 & H). split; [| exists it0; exact H].
      cbn [raw_data].
      destruct (dict_set_is_cons label (JStr (decoded it)) (raw_data s0))
        as (p & d' & ->). discriminate.
    + split; [cbn; discriminate|]. exists it. cbn.
      repeat split; auto. apply in_or_app; right; left; reflexivity.
  - rewrite (step_item_relevant _ _ _ _ Hrel). intros Hin.
    apply Hmono, (IH key), Hin.
Qed.

Lemma slots_of_from (now : datetime) (bd : str) (items : list raw_item)
    (s : forecast_slot) :
  In s (slots_of now bd items) ->
  slot_data s <> [] /\
  exists it,
    In it items /\ relevant now bd it = true /\ stamp s = item_stamp it.
Proof.
  unfold slots_of, values. rewrite map_map. intros Hin.
  apply in_map_iff in Hin. destruct Hin as ([key rs] & <- & Hin).
  destruct (fold_slot_from now bd items key rs Hin)
    as (Hne & it & Hit & Hrel & Hd & Ht).
  cbn [snd]. unfold typed_slot, stamp, item_stamp. rewrite Hd, Ht.
  cbn [slot_date slot_time slot_data]. eauto.
Qed.

Lemma StronglySorted_app_cross {A} (R : A -> A -> Prop) (l1 l2 : list A) :
  StronglySorted R (l1 ++ l2) ->
  forall a b, In a l1 -> In b l2 -> R a b.
Proof.
  induction l1 as [|x l1 IH]; intros Hs a b Ha Hb; [contradiction|].
  simpl in Hs. inversion Hs as [|? ? Hs' Hx]; subst.
  destruct Ha as [<- | Ha].
  - apply (proj1 (Forall_forall _ _) Hx). apply in_or_app; auto.
  - apply IH; assumption.
Qed.

Lemma weather_labels_NoDup : NoDup (values weather_codes).
Proof.
  vm_compute.
  repeat (constructor; [simpl; intuition discriminate|]).
  constructor.
Qed.

(** ** The forecasts of a success result *)

(** X7. For well-formed items the forecasts are the earliest 24 slots: the
    slots (one for every timestamp key of a stored record, with distinct
    timestamps) arranged in strictly ascending order of timestamp split into
    the forecasts, reformatted, and the slots dropped, every forecast coming
    before every dropped slot; there are [min 24 n] forecasts for [n]
    slots. *)
Theorem forecasts_are_earliest_24 (rt : runtime) (api_key : option str)
    (loc : str) (now : datetime) (get : http) (l : list json)
    (items : list raw_item) :
  delivers get api_key loc now (JArr l) ->
  Forall2 represents l items ->
  l <> [] ->
  let bd := fst (select_batch now) in
  exists info slots shown dropped,
    snd (get_weather rt api_key loc now get) = Returns (Weather info) /\
    NoDup (map stamp slots) /\
    (forall it,
       In it items -> relevant now bd it = true ->
       exists s, In s slots /\ key_of_stamp (stamp s) = slot_key it) /\
    (forall s,
       In s slots ->
       exists it,
         In it items /\ relevant now bd it = true /\ stamp s = item_stamp it) /\
    Permutation (shown ++ dropped) slots /\
    StronglySorted before (shown ++ dropped) /\
    (forall f s, In f shown -> In s dropped -> before f s) /\
    forecasts info = map format_slot shown /\
    List.length (forecasts info) = Nat.min 24 (List.length slots).
Proof.
  intros Hdel Hrep Hne bd.
  set (slots := slots_of now bd items).
  exists (assemble loc bd (snd (select_batch now)) slots), slots,
         (firstn 24 (sorted_slots slots)), (skipn 24 (sorted_slots slots)).
  pose proof (slots_of_NoDup now bd items) as Hnd. fold slots in Hnd.
  assert (Hsorted : StronglySorted before (sorted_slots slots)).
  { rewrite <- (firstn_all (sorted_slots slots)).
    apply first_sorted_strict, Hnd. }
  rewrite firstn_skipn.
  repeat apply conj.
  - rewrite (get_weather_decodes rt api_key loc now get l items Hdel Hrep).
    destruct l; [congruence | reflexivity].
  - exact Hnd.
  - intros it Hin Hrel. apply relevant_iff in Hrel.
    destruct Hrel as (Hk & label & Hl).
    destruct (slots_of_complete now bd items it label Hin Hk Hl)
      as (s & Hs & Hkey & _). eauto.
  - intros s Hs. apply (slots_of_from now bd items s Hs).
  - apply sorted_slots_perm.
  - exact Hsorted.
  - apply StronglySorted_app_cross. rewrite firstn_skipn. exact Hsorted.
  - reflexivity.
  - unfold assemble. cbn [forecasts].
    rewrite length_map, length_firstn.
    rewrite (Permutation_length (sorted_slots_perm _)). reflexivity.
Qed.

(** Three timestamps, sent latest first. *)
Lemma forecasts_are_earliest_24_witness :
  let items := [ item "TMP" "20240102" "0000" "1";
                 item "TMP" "20240101" "1500" "2";
                 item "TMP" "20240101" "1400" "3" ] in
  exists info,
    snd (get_weather rt0 (Some (lit "k")) (lit "서울") (mk_datetime 2024 1 1 13 0)
           (fun _ => ret (ok_response (JArr (map item_json items)))))
    = Returns (Weather info) /\
    List.length (forecasts info) = 3%nat.
Proof.
  intros items.
  destruct (forecasts_are_earliest_24 rt0 (Some (lit "k")) (lit "서울")
              (mk_datetime 2024 1 1 13 0)
              (fun _ => ret (ok_response (JArr (map item_json items))))
              (map item_json items) items)
    as (info & slots & shown & dropped & Hout & _).
  - apply (delivers_ok_response _ _ _ 60 127); [discriminate | reflexivity].
  - apply Forall2_represents_map.
  - discriminate.
  - exists info. split; [exact Hout|].
    assert (H : Returns (Weather info) =
                snd (get_weather rt0 (Some (lit "k")) (lit "서울")
                       (mk_datetime 2024 1 1 13 0)
                       (fun _ => ret (ok_response (JArr (map item_json items))))))
      by (symmetry; exact Hout).
    vm_compute in H. inversion H. reflexivity.
Defined.

(** X8. For well-formed items, every forecast of a success result has
    between 1 and 12 entries, under distinct labels, each label being one of
    the 12 labels of [weather_codes]. *)
Theorem forecast_data_labels (rt : runtime) (api_key : option str)
    (loc : str) (now : datetime) (get : http) (l : list json)
    (items : list raw_item) :
  delivers get api_key loc now (JArr l) ->
  Forall2 represents l items ->
  l <> [] ->
  exists info,
    snd (get_weather rt api_key loc now get) = Returns (Weather info) /\
    forall f,
      In f (forecasts info) ->
      NoDup (keys (slot_data f)) /\
      incl (keys (slot_data f)) (values weather_codes) /\
      (1 <= List.length (slot_data f) <= 12)%nat.
Proof.
  intros Hdel Hrep Hne.
  set (bd := fst (select_batch now)).
  exists (assemble loc bd (snd (select_batch now)) (slots_of now bd items)).
  split.
  { rewrite (get_weather_decodes rt api_key loc now get l items Hdel Hrep).
    destruct l; [congruence | reflexivity]. }
  intros f Hf. unfold assemble in Hf. cbn [forecasts] in Hf.
  apply in_map_iff in Hf. destruct Hf as (s & <- & Hs).
  apply In_first_sorted in Hs. cbn [format_slot slot_data].
  destruct (slots_of_In now bd items s Hs) as (_ & Hnd & Ho).
  destruct (slots_of_from now bd items s Hs) as (Hne' & _).
  assert (Hincl : incl (keys (slot_data s)) (values weather_codes)).
  { intros label Hl. unfold keys in Hl. apply in_map_iff in Hl.
    destruct Hl as ([label' v] & <- & Hin).
    destruct (Ho label' v Hin) as (it & _ & _ & _ & Hcode & _).
    apply dict_get_In in Hcode.
    apply (in_map snd) in Hcode. exact Hcode. }
  split; [exact Hnd|]. split; [exact Hincl|]. split.
  - destruct (slot_data s); [congruence | simpl; lia].
  - pose proof (NoDup_incl_length Hnd Hincl) as Hlen.
    unfold keys in Hlen. rewrite length_map in Hlen.
    exact Hlen.
Qed.

Lemma forecast_data_labels_witness :
  let items := [ item "TMP" "20240101" "1400" "3";
                 item "TMP" "20240101" "1400" "4";
                 item "SKY" "20240101" "1400" "1" ] in
  exists info,
    snd (get_weather rt0 (Some (lit "k")) (lit "서울") (mk_datetime 2024 1 1 13 0)
           (fun _ => ret (ok_response (JArr (map item_json items)))))
    = Returns (Weather info) /\
    forall f, In f (forecasts info) -> NoDup (keys (slot_data f)).
Proof.
  intros items.
  destruct (forecast_data_labels rt0 (Some (lit "k")) (lit "서울")
              (mk_datetime 2024 1 1 13 0)
              (fun _ => ret (ok_response (JArr (map item_json items))))
              (map item_json items) items)
    as (info & Hout & H).
  - apply (delivers_ok_response _ _ _ 60 127); [discriminate | reflexivity].
  - apply Forall2_represents_map.
  - discriminate.
  - exists info. split; [exact Hout|].
    intros f Hf. apply (H f Hf).
Defined.

(** X9. The time test, for well-formed items.  The success result is built
    from slots with distinct timestamps, of which the forecasts are the
    earliest 24, reformatted.  Exactly the records at or after the pair of
    the batch date (the ["date"] of the result) and the current [HHMM] are
    stored: every record of a known category whose timestamp is at or after
    that pair has a slot under its timestamp key, and every slot carries the
    timestamp of such a record, so that no slot is before that pair.  From
    02:00 on the batch date is today's, and no slot is before [now]. *)
Theorem forecasts_pass_time_test (rt : runtime) (api_key : option str)
    (loc : str) (now : datetime) (get : http) (l : list json)
    (items : list raw_item) :
  delivers get api_key loc now (JArr l) ->
  Forall2 represents l items ->
  l <> [] ->
  exists info slots shown dropped,
    snd (get_weather rt api_key loc now get) = Returns (Weather info) /\
    date info = fst (select_batch now) /\
    NoDup (map stamp slots) /\
    (forall it,
       In it items ->
       stamp_ge (fcstDate it) (fcstTime it) (date info) (strftime_HM now) = true ->
       dict_has (category it) weather_codes = true ->
       exists s, In s slots /\ key_of_stamp (stamp s) = slot_key it) /\
    (forall s,
       In s slots ->
       exists it,
         In it items /\ stamp s = item_stamp it /\
         stamp_ge (fcstDate it) (fcstTime it) (date info) (strftime_HM now)
         = true /\
         dict_has (category it) weather_codes = true) /\
    (forall s,
       In s slots ->
       stamp_ge (slot_date s) (slot_time s) (date info) (strftime_HM now)
       = true) /\
    Permutation (shown ++ dropped) slots /\
    StronglySorted before (shown ++ dropped) /\
    forecasts info = map format_slot shown /\
    List.length shown = Nat.min 24 (List.length slots) /\
    (2 <= hour now -> date info = strftime_Ymd now).
Proof.
  intros Hdel Hrep Hne.
  set (bd := fst (select_batch now)).
  set (slots := slots_of now bd items).
  pose proof (slots_of_NoDup now bd items) as Hnd. fold slots in Hnd.
  exists (assemble loc bd (snd (select_batch now)) slots), slots,
         (firstn 24 (sorted_slots slots)), (skipn 24 (sorted_slots slots)).
  rewrite firstn_skipn. cbn [date assemble].
  split.
  { rewrite (get_weather_decodes rt api_key loc now get l items Hdel Hrep).
    destruct l; [congruence | reflexivity]. }
  split; [reflexivity|].
  split; [exact Hnd|].
  split.
  { intros it Hin Hge Hknown.
    assert (Hrel : relevant now bd it = true).
    { unfold relevant, kept. rewrite filter_stamp_ge, Hge, Hknown. reflexivity. }
    apply relevant_iff in Hrel. destruct Hrel as (Hk & label & Hl).
    destruct (slots_of_complete now bd items it label Hin Hk Hl)
      as (s & Hs & Hkey & _). eauto. }
  split.
  { intros s Hs.
    destruct (slots_of_from now bd items s Hs) as (_ & it & Hit & Hrel & Hst).
    exists it. unfold relevant, kept in Hrel. rewrite filter_stamp_ge in Hrel.
    apply andb_true_iff in Hrel. tauto. }
  split.
  { intros s Hs.
    destruct (slots_of_In now bd items s Hs) as (Hf & _).
    rewrite filter_stamp_ge in Hf. exact Hf. }
  split; [apply sorted_slots_perm|].
  split.
  { rewrite <- (firstn_all (sorted_slots slots)).
    apply first_sorted_strict, Hnd. }
  split; [reflexivity|].
  split.
  { rewrite length_firstn, (Permutation_length (sorted_slots_perm _)).
    reflexivity. }
  intros Hh. apply (select_batch_today now Hh).
Qed.

(** At 13:00 the record of 12:59 is not stored, the record of 13:00 is. *)
Lemma forecasts_pass_time_test_witness :
  let items := [ item "TMP" "20240101" "1259" "1";
                 item "TMP" "20240101" "1300" "2" ] in
  exists info slots,
    snd (get_weather rt0 (Some (lit "k")) (lit "서울") (mk_datetime 2024 1 1 13 0)
           (fun _ => ret (ok_response (JArr (map item_json items)))))
    = Returns (Weather info) /\
    map slot_time (forecasts info) = [lit "13:00"] /\
    forall s,
      In s slots ->
      stamp_ge (slot_date s) (slot_time s) (lit "20240101") (lit "1300") = true.
Proof.
  intros items.
  destruct (forecasts_pass_time_test rt0 (Some (lit "k")) (lit "서울")
              (mk_datetime 2024 1 1 13 0)
              (fun _ => ret (ok_response (JArr (map item_json items))))
              (map item_json items) items)
    as (info & slots & shown & dropped & Hout & Hdate & _ & _ & _ & Hge & _).
  - apply (delivers_ok_response _ _ _ 60 127); [discriminate | reflexivity].
  - apply Forall2_represents_map.
  - discriminate.
  - exists info, slots.
    assert (H : Returns (Weather info) =
                snd (get_weather rt0 (Some (lit "k")) (lit "서울")
                       (mk_datetime 2024 1 1 13 0)
                       (fun _ => ret (ok_response (JArr (map item_json items))))))
      by (symmetry; exact Hout).
    split; [exact Hout|].
    vm_compute in H. inversion H as [Hinfo]. split; [reflexivity|].
    intros s Hs. pose proof (Hge s Hs) as Hs'.
    rewrite Hdate in Hs'. exact Hs'.
Defined.

(** ** Records that repeat or do not count *)

Lemma fold_keeps_value (now : datetime) (bd : str) (post : list raw_item)
    (key label : str) (v : json) :
  (forall it,
     In it post -> relevant now bd it = true -> slot_key it = key ->
     dict_get (category it) weather_codes <> Some label) ->
  forall cf s,
    dict_get key cf = Some s ->
    dict_get label (raw_data s) = Some v ->
    exists s',
      dict_get key (fold_left (step_item now bd) post cf) = Some s' /\
      dict_get label (raw_data s') = Some v.
Proof.
  induction post as [|it post IH]; intros Hpost cf s Hs Hv; [simpl; eauto|].
  simpl.
  assert (Hpost' : forall it0,
            In it0 post -> relevant now bd it0 = true -> slot_key it0 = key ->
            dict_get (category it0) weather_codes <> Some label)
    by (intros; apply Hpost; auto; right; assumption).
  destruct (relevant now bd it) eqn:Hrel.
  - pose proof Hrel as Hrel'. apply relevant_iff in Hrel'.
    destruct Hrel' as (Hk & label' & Hl).
    assert (Hstep : step_item now bd cf it
                    = store (slot_key it) (JStr (fcstDate it))
                            (JStr (fcstTime it)) label' (JStr (decoded it)) cf)
      by (unfold step_item; rewrite Hk, Hl; reflexivity).
    rewrite Hstep. unfold store.
    destruct (str_eqb (slot_key it) key) eqn:Ekey.
    + apply str_eqb_eq in Ekey. rewrite Ekey, Hs.
      eapply IH; [exact Hpost' | apply dict_get_set_eq |].
      cbn [raw_data]. rewrite dict_get_set_neq; [exact Hv|].
      intros ->. apply (Hpost it (or_introl eq_refl) Hrel Ekey). exact Hl.
    + apply str_eqb_neq in Ekey.
      eapply IH; [exact Hpost' | | exact Hv].
      rewrite dict_get_set_neq; [exact Hs | congruence].
  - rewrite (step_item_relevant _ _ _ _ Hrel). eapply IH; eauto.
Qed.

(** X10. The last write wins.  For well-formed items, when a stored record
    [it] is followed by no stored record of the same timestamp key and the
    same label, the slot of its timestamp holds its decoded value under its
    label, whatever records of that key and label came before it. *)
Theorem last_record_wins (rt : runtime) (api_key : option str) (loc : str)
    (now : datetime) (get : http) (l : list json)
    (pre post : list raw_item) (it : raw_item) (label : str) :
  delivers get api_key loc now (JArr l) ->
  Forall2 represents l (pre ++ it :: post) ->
  let bd := fst (select_batch now) in
  kept now bd it = true ->
  dict_get (category it) weather_codes = Some label ->
  (forall it',
     In it' post -> relevant now bd it' = true ->
     slot_key it' = slot_key it ->
     dict_get (category it') weather_codes <> Some label) ->
  exists slots s,
    snd (get_weather rt api_key loc now get)
    = Returns (Weather (assemble loc bd (snd (select_batch now)) slots)) /\
    In s slots /\
    key_of_stamp (stamp s) = slot_key it /\
    dict_get label (slot_data s) = Some (JStr (decoded it)).
Proof.
  intros Hdel Hrep bd Hk Hl Hpost.
  set (items := pre ++ it :: post).
  set (cf1 := fold_left (step_item now bd) pre []).
  assert (Hfold : fold_left (step_item now bd) items []
                  = fold_left (step_item now bd) post (step_item now bd cf1 it)).
  { unfold items. rewrite fold_left_app. reflexivity. }
  assert (Hstep : step_item now bd cf1 it
                  = store (slot_key it) (JStr (fcstDate it))
                          (JStr (fcstTime it)) label (JStr (decoded it)) cf1)
    by (unfold step_item; rewrite Hk, Hl; reflexivity).
  destruct (fold_keeps_value now bd post (slot_key it) label
              (JStr (decoded it)) Hpost (step_item now bd cf1 it)
              (mk_raw
                 (raw_date match dict_get (slot_key it) cf1 with
                           | Some s => s
                           | None => mk_raw (JStr (fcstDate it))
                                            (JStr (fcstTime it)) []
                           end)
                 (raw_time match dict_get (slot_key it) cf1 with
                           | Some s => s
                           | None => mk_raw (JStr (fcstDate it))
                                            (JStr (fcstTime it)) []
                           end)
                 (dict_set label (JStr (decoded it))
                    (raw_data match dict_get (slot_key it) cf1 with
                              | Some s => s
                              | None => mk_raw (JStr (fcstDate it))
                                               (JStr (fcstTime it)) []
                              end))))
    as (rs & Hrs & Hval).
  { rewrite Hstep. unfold store. apply dict_get_set_eq. }
  { cbn [raw_data]. apply dict_get_set_eq. }
  rewrite <- Hfold in Hrs. apply dict_get_In in Hrs.
  exists (slots_of now bd items), (typed_slot rs). repeat apply conj.
  - rewrite (get_weather_decodes rt api_key loc now get l items Hdel Hrep).
    destruct l; [| reflexivity].
    inversion Hrep as [Hnil |]. destruct pre; discriminate.
  - unfold slots_of, values. rewrite map_map.
    apply in_map_iff. exists (slot_key it, rs). auto.
  - destruct (loop_inv_fold now bd items) as (_ & Hslots & _).
    destruct (Hslots _ _ Hrs) as (d & t & Hd & Ht & Hkey & _).
    unfold typed_slot, key_of_stamp, stamp. rewrite Hd, Ht.
    cbn [slot_date slot_time fst snd]. symmetry; exact Hkey.
  - exact Hval.
Qed.

(** The temperature of 14:00 sent twice. *)
Lemma last_record_wins_witness :
  let pre := [ item "TMP" "20240101" "1400" "3" ] in
  let it := item "TMP" "20240101" "1400" "4" in
  let post := [ item "SKY" "20240101" "1400" "1" ] in
  exists slots s,
    snd (get_weather rt0 (Some (lit "k")) (lit "서울") (mk_datetime 2024 1 1 13 0)
           (fun _ => ret (ok_response (JArr (map item_json (pre ++ it :: post))))))
    = Returns (Weather (assemble (lit "서울") (lit "20240101") (lit "1100") slots)) /\
    In s slots /\
    dict_get (lit "기온") (slot_data s) = Some (JStr (lit "4")).
Proof.
  intros pre it post.
  destruct (last_record_wins rt0 (Some (lit "k")) (lit "서울")
              (mk_datetime 2024 1 1 13 0)
              (fun _ => ret (ok_response (JArr (map item_json (pre ++ it :: post)))))
              (map item_json (pre ++ it :: post)) pre post it (lit "기온"))
    as (slots & s & Hout & Hin & _ & Hv).
  - apply (delivers_ok_response _ _ _ 60 127); [discriminate | reflexivity].
  - apply Forall2_represents_map.
  - reflexivity.
  - reflexivity.
  - intros it' [<- | []] _ _. vm_compute. discriminate.
  - exists slots, s. repeat split; assumption.
Defined.

Lemma fold_step_item_filter (now : datetime) (bd : str) (items : list raw_item) :
  forall cf,
    fold_left (step_item now bd) items cf
    = fold_left (step_item now bd) (filter (relevant now bd) items) cf.
Proof.
  induction items as [|it items IH]; intros cf; simpl; [reflexivity|].
  destruct (relevant now bd it) eqn:Hrel; simpl.
  - apply IH.
  - rewrite (step_item_relevant _ _ _ _ Hrel). apply IH.
Qed.

(** X11. Records that fail the time test or have an unknown category leave
    no trace: for well-formed items, the result is the one obtained when the
    response carries only the records that are stored (provided there is at
    least one; a response with no record at all is the no-data error). *)
Theorem dropped_records_leave_no_trace (rt : runtime) (api_key : option str)
    (loc : str) (now : datetime) (get get' : http) (l l' : list json)
    (items : list raw_item) :
  delivers get api_key loc now (JArr l) ->
  Forall2 represents l items ->
  delivers get' api_key loc now (JArr l') ->
  Forall2 represents l' (filter (relevant now (fst (select_batch now))) items) ->
  l' <> [] ->
  snd (get_weather rt api_key loc now get)
  = snd (get_weather rt api_key loc now get').
Proof.
  intros Hdel Hrep Hdel' Hrep' Hne'.
  rewrite (get_weather_decodes rt api_key loc now get l items Hdel Hrep).
  rewrite (get_weather_decodes rt api_key loc now get' l' _ Hdel' Hrep').
  destruct l' as [|j' l']; [congruence|].
  destruct l as [|j l].
  - inversion Hrep; subst. inversion Hrep'.
  - unfold slots_of. rewrite <- fold_step_item_filter. reflexivity.
Qed.

Lemma dropped_records_leave_no_trace_witness :
  let items := [ item "TMP" "20240101" "1200" "5";
                 item "TMP" "20240101" "1400" "6";
                 item "XYZ" "20240101" "1400" "1" ] in
  let now := mk_datetime 2024 1 1 13 0 in
  snd (get_weather rt0 (Some (lit "k")) (lit "서울") now
         (fun _ => ret (ok_response (JArr (map item_json items)))))
  = snd (get_weather rt0 (Some (lit "k")) (lit "서울") now
           (fun _ => ret (ok_response
              (JArr [item_json (item "TMP" "20240101" "1400" "6")])))).
Proof.
  intros items now.
  apply (dropped_records_leave_no_trace rt0 (Some (lit "k")) (lit "서울") now
           (fun _ => ret (ok_response (JArr (map item_json items))))
           (fun _ => ret (ok_response
              (JArr [item_json (item "TMP" "20240101" "1400" "6")])))
           (map item_json items)
           [item_json (item "TMP" "20240101" "1400" "6")] items).
  - apply (delivers_ok_response _ _ _ 60 127); [discriminate | reflexivity].
  - apply Forall2_represents_map.
  - apply (delivers_ok_response _ _ _ 60 127); [discriminate | reflexivity].
  - apply (Forall2_represents_map [item "TMP" "20240101" "1400" "6"]).
  - discriminate.
Defined.

(** ** Records that arrive in order *)

Lemma not_after_stamp_le (a b : forecast_slot) :
  not_after a b <-> stamp_le (stamp a) (stamp b).
Proof.
  unfold not_after, key_le, key_lt, stamp_le, stamp_ge, stamp, str_lt, str_ge.
  cbn [fst snd].
  destruct (str_compare (slot_date b) (slot_date a)); [| split; auto | split; auto].
  destruct (str_compare (slot_time b) (slot_time a)); simpl; tauto.
Qed.

Lemma insert_slot_last (x : forecast_slot) (l : list forecast_slot) :
  Forall (fun y => not_after y x) l -> insert_slot x l = l ++ [x].
Proof.
  induction 1 as [|y l Hy _ IH]; simpl; [reflexivity|].
  unfold not_after, key_le in Hy. apply negb_true_iff in Hy.
  rewrite Hy, IH. reflexivity.
Qed.

Lemma fold_insert_sorted_id (l : list forecast_slot) :
  forall acc,
    StronglySorted not_after (acc ++ l) ->
    fold_left (fun acc x => insert_slot x acc) l acc = acc ++ l.
Proof.
  induction l as [|x l IH]; intros acc Hs; simpl; [symmetry; apply app_nil_r|].
  rewrite insert_slot_last.
  - rewrite IH; rewrite <- app_assoc; [reflexivity | exact Hs].
  - apply Forall_forall. intros y Hy.
    apply (StronglySorted_app_cross _ _ _ Hs y x Hy). left; reflexivity.
Qed.

Lemma sorted_slots_id (l : list forecast_slot) :
  StronglySorted not_after l -> sorted_slots l = l.
Proof. intros Hs. unfold sorted_slots. apply (fold_insert_sorted_id l []), Hs. Qed.

Lemma StronglySorted_snoc {A} (R : A -> A -> Prop) (l : list A) (x : A) :
  StronglySorted R l -> Forall (fun y => R y x) l ->
  StronglySorted R (l ++ [x]).
Proof.
  induction 1 as [|y l Hl IH Hy]; intros Hx; simpl.
  - repeat constructor.
  - inversion Hx; subst. constructor; [apply IH; assumption|].
    apply Forall_app. split; [exact Hy | repeat constructor; assumption].
Qed.

Lemma StronglySorted_app_l {A} (R : A -> A -> Prop) (l1 l2 : list A) :
  StronglySorted R (l1 ++ l2) -> StronglySorted R l1.
Proof.
  induction l1 as [|x l1 IH]; intros Hs; [constructor|].
  simpl in Hs. inversion Hs; subst. constructor; [apply IH; assumption|].
  apply Forall_app in H2. tauto.
Qed.

Lemma StronglySorted_map_inv {A B} (R : B -> B -> Prop) (f : A -> B)
    (l : list A) :
  StronglySorted R (map f l) -> StronglySorted (fun a b => R (f a) (f b)) l.
Proof.
  induction l as [|x l IH]; intros Hs; [constructor|].
  simpl in Hs. inversion Hs; subst. constructor; [apply IH; assumption|].
  apply Forall_forall. intros y Hy.
  apply (proj1 (Forall_forall _ _) H2). apply in_map, Hy.
Qed.

Lemma map_values_dict_set {V B} (f : V -> B) (k : str) (v : V)
    (d : list (str * V)) :
  (forall v0, dict_get k d = Some v0 -> f v = f v0) ->
  map f (values (dict_set k v d))
  = if dict_has k d then map f (values d) else map f (values d) ++ [f v].
Proof.
  unfold dict_has. induction d as [|[k0 v0] d IH]; simpl; [reflexivity|].
  intros Hsame. destruct (str_eqb k k0) eqn:E; simpl.
  - rewrite (Hsame v0 eq_refl). reflexivity.
  - rewrite IH by exact Hsame. destruct (dict_get k d); reflexivity.
Qed.

Lemma filter_snoc {A} (p : A -> bool) (l : list A) (x : A) :
  filter p (l ++ [x]) = filter p l ++ (if p x then [x] else []).
Proof. rewrite filter_app. reflexivity. Qed.

Lemma arrival_stamps_sorted (now : datetime) (bd : str) (items : list raw_item) :
  StronglySorted stamp_le (map item_stamp (filter (relevant now bd) items)) ->
  StronglySorted stamp_le
    (map (fun s => stamp (typed_slot s))
         (values (fold_left (step_item now bd) items []))).
Proof.
  induction items as [|it items IH] using rev_ind; [constructor|].
  rewrite filter_snoc, fold_left_app. simpl fold_left.
  set (cf := fold_left (step_item now bd) items []) in *.
  destruct (relevant now bd it) eqn:Hrel.
  - rewrite map_app. simpl map. intros Hs.
    pose proof (IH (StronglySorted_app_l _ _ _ Hs)) as Hcf.
    pose proof Hrel as Hrel'. apply relevant_iff in Hrel'.
    destruct Hrel' as (Hk & label & Hl).
    assert (Hstep : step_item now bd cf it
                    = store (slot_key it) (JStr (fcstDate it))
                            (JStr (fcstTime it)) label (JStr (decoded it)) cf)
      by (unfold step_item; rewrite Hk, Hl; reflexivity).
    rewrite Hstep. unfold store. rewrite map_values_dict_set.
    + unfold dict_has.
      destruct (dict_get (slot_key it) cf) as [s0|] eqn:E; [exact Hcf|].
      apply StronglySorted_snoc; [exact Hcf|].
      apply Forall_forall. intros st Hst.
      apply in_map_iff in Hst. destruct Hst as (rs & <- & Hrs).
      unfold values in Hrs. apply in_map_iff in Hrs.
      destruct Hrs as ([key rs'] & Heq & Hin). cbn [snd] in Heq. subst rs'.
      destruct (fold_slot_from now bd items key rs Hin)
        as (_ & it0 & Hit0 & Hrel0 & Hd & Ht).
      unfold typed_slot, stamp. rewrite Hd, Ht.
      cbn [slot_date slot_time raw_date raw_time].
      apply (StronglySorted_app_cross _ _ _ Hs (item_stamp it0) (item_stamp it)).
      * apply in_map, filter_In. auto.
      * left; reflexivity.
    + intros v0 Hv0. rewrite Hv0. reflexivity.
  - rewrite app_nil_r, (step_item_relevant _ _ _ _ Hrel). exact IH.
Qed.

Lemma slots_of_arrival_sorted (now : datetime) (bd : str)
    (items : list raw_item) :
  StronglySorted stamp_le (map item_stamp (filter (relevant now bd) items)) ->
  StronglySorted not_after (slots_of now bd items).
Proof.
  intros Hs. apply arrival_stamps_sorted in Hs.
  unfold slots_of. rewrite <- map_map in Hs.
  apply StronglySorted_map_inv in Hs.
  induction Hs as [|x l Hl IH Hx]; constructor; [exact IH|].
  eapply Forall_impl; [| exact Hx].
  intros y Hy. apply not_after_stamp_le, Hy.
Qed.

(** X12. When the stored records arrive in ascending (not necessarily
    strict) order of timestamp, sorting changes nothing: for well-formed
    items the forecasts are the first 24 slots in the order in which their
    timestamps first arrive. *)
Theorem ordered_records_keep_their_order (rt : runtime)
    (api_key : option str) (loc : str) (now : datetime) (get : http)
    (l : list json) (items : list raw_item) :
  delivers get api_key loc now (JArr l) ->
  Forall2 represents l items ->
  l <> [] ->
  let bd := fst (select_batch now) in
  StronglySorted stamp_le (map item_stamp (filter (relevant now bd) items)) ->
  exists info,
    snd (get_weather rt api_key loc now get) = Returns (Weather info) /\
    forecasts info = map format_slot (firstn 24 (slots_of now bd items)).
Proof.
  intros Hdel Hrep Hne bd Hs.
  exists (assemble loc bd (snd (select_batch now)) (slots_of now bd items)).
  split.
  - rewrite (get_weather_decodes rt api_key loc now get l items Hdel Hrep).
    destruct l; [congruence | reflexivity].
  - unfold assemble. cbn [forecasts].
    rewrite (sorted_slots_id _ (slots_of_arrival_sorted now bd items Hs)).
    reflexivity.
Qed.

Lemma ordered_records_keep_their_order_witness :
  let items := [ item "TMP" "20240101" "1400" "5";
                 item "SKY" "20240101" "1400" "1";
                 item "TMP" "20240101" "1500" "6";
                 item "TMP" "20240102" "0000" "2" ] in
  let now := mk_datetime 2024 1 1 13 0 in
  exists info,
    snd (get_weather rt0 (Some (lit "k")) (lit "서울") now
           (fun _ => ret (ok_response (JArr (map item_json items)))))
    = Returns (Weather info) /\
    forecasts info
    = map format_slot (firstn 24 (slots_of now (lit "20240101") items)).
Proof.
  intros items now.
  apply (ordered_records_keep_their_order rt0 (Some (lit "k")) (lit "서울") now
           (fun _ => ret (ok_response (JArr (map item_json items))))
           (map item_json items) items).
  - apply (delivers_ok_response _ _ _ 60 127); [discriminate | reflexivity].
  - apply Forall2_represents_map.
  - discriminate.
  - vm_compute. repeat constructor.
Defined.

(** ** The printed date and time *)

Lemma reformat_date (d : str) :
  List.length d = 8%nat ->
  let p := slice 4 6 d ++ lit "/" ++ slice_from 6 d in
  List.length p = 5%nat /\ slice 0 2 p ++ slice_from 3 p = slice_from 4 d.
Proof.
  destruct d as [|a [|b [|c [|e [|f [|g [|h [|i [|j d]]]]]]]]];
    try discriminate.
  intros _. split; reflexivity.
Qed.

Lemma reformat_time (t : str) :
  List.length t = 4%nat ->
  let p := slice 0 2 t ++ lit ":" ++ slice_from 2 t in
  List.length p = 5%nat /\ slice 0 2 p ++ slice_from 3 p = t.
Proof.
  destruct t as [|a [|b [|c [|e [|f t]]]]]; try discriminate.
  intros _. split; reflexivity.
Qed.

(** X13. For well-formed items, the date and time of every forecast are
    those of a stored record, reformatted: characters 4-5 of its [fcstDate],
    a slash and the characters from 6 on; the first two characters of its
    [fcstTime], a colon and the rest.  For a date of 8 characters and a time
    of 4, both printed forms have 5 characters, and dropping the separator
    gives back the month and day, and the whole time. *)
Theorem forecast_stamps_are_reformatted (rt : runtime)
    (api_key : option str) (loc : str) (now : datetime) (get : http)
    (l : list json) (items : list raw_item) :
  delivers get api_key loc now (JArr l) ->
  Forall2 represents l items ->
  l <> [] ->
  exists info,
    snd (get_weather rt api_key loc now get) = Returns (Weather info) /\
    forall f,
      In f (forecasts info) ->
      exists it,
        In it items /\
        relevant now (fst (select_batch now)) it = true /\
        slot_date f
        = slice 4 6 (fcstDate it) ++ lit "/" ++ slice_from 6 (fcstDate it) /\
        slot_time f
        = slice 0 2 (fcstTime it) ++ lit ":" ++ slice_from 2 (fcstTime it) /\
        (List.length (fcstDate it) = 8%nat ->
         List.length (slot_date f) = 5%nat /\
         slice 0 2 (slot_date f) ++ slice_from 3 (slot_date f)
         = slice_from 4 (fcstDate it)) /\
        (List.length (fcstTime it) = 4%nat ->
         List.length (slot_time f) = 5%nat /\
         slice 0 2 (slot_time f) ++ slice_from 3 (slot_time f) = fcstTime it).
Proof.
  intros Hdel Hrep Hne.
  set (bd := fst (select_batch now)).
  exists (assemble loc bd (snd (select_batch now)) (slots_of now bd items)).
  split.
  { rewrite (get_weather_decodes rt api_key loc now get l items Hdel Hrep).
    destruct l; [congruence | reflexivity]. }
  intros f Hf. unfold assemble in Hf. cbn [forecasts] in Hf.
  apply in_map_iff in Hf. destruct Hf as (s & <- & Hs).
  apply In_first_sorted in Hs.
  destruct (slots_of_from now bd items s Hs) as (_ & it & Hit & Hrel & Hst).
  unfold stamp, item_stamp in Hst. inversion Hst as [[Hd Ht]].
  exists it. cbn [format_slot slot_date slot_time]. rewrite Hd, Ht.
  repeat apply conj; auto.
  - intros Hlen. apply (reformat_date _ Hlen).
  - intros Hlen. apply (reformat_time _ Hlen).
Qed.

Lemma forecast_stamps_are_reformatted_witness :
  let items := [ item "TMP" "20241231" "2300" "5" ] in
  exists info,
    snd (get_weather rt0 (Some (lit "k")) (lit "서울")
           (mk_datetime 2024 12 31 13 0)
           (fun _ => ret (ok_response (JArr (map item_json items)))))
    = Returns (Weather info) /\
    map slot_date (forecasts info) = [lit "12/31"] /\
    map slot_time (forecasts info) = [lit "23:00"].
Proof.
  intros items.
  destruct (forecast_stamps_are_reformatted rt0 (Some (lit "k")) (lit "서울")
              (mk_datetime 2024 12 31 13 0)
              (fun _ => ret (ok_response (JArr (map item_json items))))
              (map item_json items) items)
    as (info & Hout & _).
  - apply (delivers_ok_response _ _ _ 60 127); [discriminate | reflexivity].
  - apply Forall2_represents_map.
  - discriminate.
  - exists info. split; [exact Hout|].
    assert (H : Returns (Weather info) =
                snd (get_weather rt0 (Some (lit "k")) (lit "서울")
                       (mk_datetime 2024 12 31 13 0)
                       (fun _ => ret (ok_response (JArr (map item_json items))))))
      by (symmetry; exact Hout).
    vm_compute in H. inversion H. split; reflexivity.
Defined.

(** ** Values that are not strings *)

Lemma step_stores_value (rt : runtime) (now : datetime) (bd : str)
    (cf : list (str * raw_slot)) (o : list (str * json)) (c d t label : str)
    (v : json) :
  dict_get (lit "category") o = Some (JStr c) ->
  dict_get (lit "fcstDate") o = Some (JStr d) ->
  dict_get (lit "fcstTime") o = Some (JStr t) ->
  dict_get (lit "fcstValue") o = Some v ->
  kept now bd (mk_item c d t []) = true ->
  dict_get c weather_codes = Some label ->
  (forall s, v <> JStr s) ->
  step rt now bd cf (JObj o)
  = if unhashable v && coded c then raise TypeError
    else ret (store (d ++ lit "_" ++ t) (JStr d) (JStr t) label v cf).
Proof.
  intros Hc Hd Ht Hv Hk Hl Hns. unfold step. py_step.
  rewrite at_or_after_str, bind_ret.
  unfold kept in Hk. cbn [fcstDate fcstTime] in Hk. rewrite Hk.
  unfold py_lookup at 1. rewrite bind_ret, Hl.
  unfold is_str, coded, format_value, decode_code, py_lookup.
  destruct (str_eqb c (lit "PTY")); [| destruct (str_eqb c (lit "SKY"))];
    py_step;
    destruct v as [| b | z | f | s | a | a]; try reflexivity;
    exfalso; apply (Hns s); reflexivity.
Qed.

(** X14. A value that is not a string.  When the last record, after
    well-formed ones, passes the time test, has a known category and a
    [fcstValue] that is not a string: a number, a boolean or [null] is
    stored as it is, also under PTY and SKY, whose tables hold string codes
    only (the number 1 is not decoded to 비); a list or an object is stored
    as it is under the other categories, and under PTY or SKY it cannot be
    hashed for the table lookup, so [TypeError] leaves [get_weather]. *)
Theorem value_that_is_not_a_string (rt : runtime) (api_key : option str)
    (loc : str) (now : datetime) (get : http) (l1 : list json)
    (items1 : list raw_item) (o : list (str * json)) (c d t label : str)
    (v : json) :
  delivers get api_key loc now (JArr (l1 ++ [JObj o])) ->
  Forall2 represents l1 items1 ->
  dict_get (lit "category") o = Some (JStr c) ->
  dict_get (lit "fcstDate") o = Some (JStr d) ->
  dict_get (lit "fcstTime") o = Some (JStr t) ->
  dict_get (lit "fcstValue") o = Some v ->
  (forall s, v <> JStr s) ->
  let bd := fst (select_batch now) in
  kept now bd (mk_item c d t []) = true ->
  dict_get c weather_codes = Some label ->
  let out := snd (get_weather rt api_key loc now get) in
  (unhashable v && coded c = true -> out = Raises TypeError) /\
  (unhashable v && coded c = false ->
   exists slots s,
     out = Returns (Weather (assemble loc bd (snd (select_batch now)) slots)) /\
     In s slots /\
     key_of_stamp (stamp s) = d ++ lit "_" ++ t /\
     dict_get label (slot_data s) = Some v).
Proof.
  intros Hdel Hrep Hc Hd Ht Hv Hns bd Hk Hl out. subst out.
  rewrite (get_weather_loop rt api_key loc now get _ Hdel)
    by (destruct l1; discriminate).
  fold bd. unfold decode, py_iter. rewrite bind_ret, loop_app.
  rewrite (loop_represents rt now bd l1 items1 Hrep), bind_ret.
  simpl loop.
  rewrite (step_stores_value rt now bd _ o c d t label v Hc Hd Ht Hv Hk Hl Hns).
  split; intros Hu; rewrite Hu; [reflexivity|].
  rewrite !bind_ret.
  set (cf1 := fold_left (step_item now bd) items1 []).
  set (cf := store (d ++ lit "_" ++ t) (JStr d) (JStr t) label v cf1).
  assert (Hslots : forall key rs,
            In (key, rs) cf ->
            exists d0 t0,
              raw_date rs = JStr d0 /\ raw_time rs = JStr t0 /\
              key = d0 ++ lit "_" ++ t0).
  { intros key rs Hin. unfold cf, store in Hin. apply In_dict_set in Hin.
    destruct (loop_inv_fold now bd items1) as (_ & Hinv & _). fold cf1 in Hinv.
    destruct Hin as [[-> ->] | Hin].
    - cbn [raw_date raw_time].
      destruct (dict_get (d ++ lit "_" ++ t) cf1) as [s0|] eqn:E.
      + apply dict_get_In in E.
        destruct (Hinv _ _ E) as (d0 & t0 & H1 & H2 & H3 & _). eauto.
      + cbn. eauto.
    - destruct (Hinv _ _ Hin) as (d0 & t0 & H1 & H2 & H3 & _). eauto. }
  rewrite str_slots_typed.
  2:{ intros s Hin. unfold values in Hin. apply in_map_iff in Hin.
      destruct Hin as ([key rs] & <- & Hin).
      destruct (Hslots key rs Hin) as (d0 & t0 & H1 & H2 & _). eauto. }
  assert (Hget : exists rs,
            dict_get (d ++ lit "_" ++ t) cf = Some rs /\
            dict_get label (raw_data rs) = Some v).
  { unfold cf, store. rewrite dict_get_set_eq. eexists. split; [reflexivity|].
    cbn [raw_data]. apply dict_get_set_eq. }
  destruct Hget as (rs & Hrs & Hval). apply dict_get_In in Hrs.
  exists (map typed_slot (values cf)), (typed_slot rs).
  repeat apply conj.
  - reflexivity.
  - apply in_map. unfold values. apply in_map_iff.
    exists (d ++ lit "_" ++ t, rs). auto.
  - destruct (Hslots _ _ Hrs) as (d0 & t0 & H1 & H2 & H3).
    unfold typed_slot, key_of_stamp, stamp. rewrite H1, H2.
    cbn [slot_date slot_time fst snd]. symmetry; exact H3.
  - exact Hval.
Qed.

(** The precipitation type sent as the number 1. *)
Lemma value_that_is_not_a_string_witness :
  exists slots s,
    snd (get_weather rt0 (Some (lit "k")) (lit "서울") (mk_datetime 2024 1 1 13 0)
           (fun _ => ret (ok_response (JArr
              ([] ++ [ JObj [ (lit "category", JStr (lit "PTY"));
                              (lit "fcstDate", JStr (lit "20240101"));
                              (lit "fcstTime", JStr (lit "1400"));
                              (lit "fcstValue", JInt 1) ] ])))))
    = Returns (Weather (assemble (lit "서울") (lit "20240101") (lit "1100") slots)) /\
    In s slots /\
    dict_get (lit "강수형태") (slot_data s) = Some (JInt 1).
Proof.
  destruct (value_that_is_not_a_string rt0 (Some (lit "k")) (lit "서울")
              (mk_datetime 2024 1 1 13 0)
              (fun _ => ret (ok_response (JArr
                 ([] ++ [ JObj [ (lit "category", JStr (lit "PTY"));
                                 (lit "fcstDate", JStr (lit "20240101"));
                                 (lit "fcstTime", JStr (lit "1400"));
                                 (lit "fcstValue", JInt 1) ] ]))))
              [] []
              [ (lit "category", JStr (lit "PTY"));
                (lit "fcstDate", JStr (lit "20240101"));
                (lit "fcstTime", JStr (lit "1400"));
                (lit "fcstValue", JInt 1) ]
              (lit "PTY") (lit "20240101") (lit "1400") (lit "강수형태") (JInt 1))
    as (_ & H).
  - apply (delivers_ok_response _ _ _ 60 127); [discriminate | reflexivity].
  - constructor.
  - reflexivity.
  - reflexivity.
  - reflexivity.
  - reflexivity.
  - discriminate.
  - reflexivity.
  - reflexivity.
  - destruct (H eq_refl) as (slots & s & Hout & Hin & _ & Hv).
    exists slots, s. repeat split; assumption.
Defined.

(** * The chat agent *)

Lemma act_bind_ok {W T U} (m : Act W T) (k : T -> Act W U) (w w' : W) (t : T) :
  m w = (inr t, w') -> act_bind m k w = k t w'.
Proof. intros H. unfold act_bind. rewrite H. reflexivity. Qed.

Lemma act_bind_raised {W T U} (m : Act W T) (k : T -> Act W U) (w w' : W)
    (e : raised) :
  m w = (inl e, w') -> act_bind m k w = (inl e, w').
Proof. intros H. unfold act_bind. rewrite H. reflexivity. Qed.

Lemma pending_status (status : str) :
  pending status = true ->
  str_eqb status (lit "requires_action") = false /\
  str_eqb status (lit "completed") = false /\
  ended status = false.
Proof.
  unfold pending. rewrite !andb_true_iff, !negb_true_iff. tauto.
Qed.

Lemma poll_waits {W} (ops : world W) (env : agent_env) (rt : runtime)
    (api_key : option str) (thread : str) (k : nat) (r r' : run) (w w' : W) :
  waits ops thread k r w r' w' ->
  forall fuel,
    poll W ops env rt api_key (k + fuel) thread r w
    = poll W ops env rt api_key fuel thread r' w'.
Proof.
  induction 1 as [| k r r1 r' w w1 w' Hret Hpend _ IH]; intros fuel;
    [reflexivity|].
  simpl poll. rewrite (act_bind_ok _ _ _ _ _ Hret).
  destruct (pending_status _ Hpend) as (H1 & H2 & H3).
  rewrite H1, H2, H3. unfold act_bind at 1, do_sleep. apply IH.
Qed.

Lemma conversation_started {W} (ops : world W) (env : agent_env) (rt : runtime)
    (api_key : option str) (fuel : nat) (user_input thread : str) (r : run)
    (w w' : W) :
  started ops user_input w thread r w' ->
  conversation W ops env rt api_key fuel user_input w
  = poll W ops env rt api_key fuel thread r w'.
Proof.
  intros (assistant & w1 & w2 & w3 & H1 & H2 & H3 & H4).
  unfold conversation.
  rewrite (act_bind_ok _ _ _ _ _ H1), (act_bind_ok _ _ _ _ _ H2),
          (act_bind_ok _ _ _ _ _ H3), (act_bind_ok _ _ _ _ _ H4).
  reflexivity.
Qed.

Lemma find_all_false {A} (p : A -> bool) (l : list A) :
  (forall x, In x l -> p x = false) -> find p l = None.
Proof.
  induction l as [|x l IH]; intros H; simpl; [reflexivity|].
  rewrite (H x (or_introl eq_refl)). apply IH. intros y Hy. apply H. right; exact Hy.
Qed.

(** ** How the loop ends *)

(** X15. Once the conversation is opened, after [k] polls that found the
    run in a status other than [requires_action], [completed], [failed],
    [cancelled] and [expired] (each followed by a sleep), a poll that finds
    it [failed], [cancelled] or [expired] makes [run_conversation] return
    the message naming that status, without a further sleep or call. *)
Theorem ended_run_is_reported {W} (ops : world W) (env : agent_env)
    (rt : runtime) (api_key : option str) (user_input thread : str)
    (k fuel : nat) (r0 r1 r : run) (w w0 w1 w2 : W) :
  started ops user_input w thread r0 w0 ->
  waits ops thread k r0 w0 r1 w1 ->
  runs_retrieve ops thread (run_id r1) w1 = (inr r, w2) ->
  ended (run_status r) = true ->
  run_conversation W ops env rt api_key (k + S fuel) user_input w
  = (Some (msg_run_ended (run_status r)), w2).
Proof.
  intros Hstart Hwaits Hret Hend. unfold run_conversation.
  rewrite (conversation_started ops env rt api_key _ _ _ _ _ _ Hstart).
  rewrite (poll_waits ops env rt api_key _ _ _ _ _ _ Hwaits).
  simpl poll. rewrite (act_bind_ok _ _ _ _ _ Hret).
  assert (H1 : str_eqb (run_status r) (lit "requires_action") = false).
  { unfold ended in Hend. simpl existsb in Hend.
    apply str_eqb_neq. intros Heq. rewrite Heq in Hend. discriminate. }
  assert (H2 : str_eqb (run_status r) (lit "completed") = false).
  { unfold ended in Hend. simpl existsb in Hend.
    apply str_eqb_neq. intros Heq. rewrite Heq in Hend. discriminate. }
  rewrite H1, H2, Hend. reflexivity.
Qed.

Lemma ended_run_is_reported_witness :
  let script := [ mk_run (lit "run_1") (lit "queued") [];
                  mk_run (lit "run_1") (lit "in_progress") [];
                  mk_run (lit "run_1") (lit "expired") [] ] in
  let ops := script_world script (mk_run (lit "run_1") (lit "in_progress") [])
                          [] (mk_datetime 2024 1 1 13 0)
                          (fun _ => raise (RequestException [])) in
  run_conversation nat ops env0 rt0 None 5 (lit "서울 날씨") 0%nat
  = (Some (msg_run_ended (lit "expired")), 3%nat).
Proof.
  intros script ops.
  apply (ended_run_is_reported ops env0 rt0 None (lit "서울 날씨")
           (lit "thread_1") 2 2
           (mk_run (lit "run_1") (lit "queued") [])
           (mk_run (lit "run_1") (lit "in_progress") [])
           (mk_run (lit "run_1") (lit "expired") [])
           0%nat 0%nat 2%nat 3%nat).
  - exists (lit "asst_1"), 0%nat, 0%nat, 0%nat. repeat split.
  - eapply waits_S; [reflexivity | reflexivity |].
    eapply waits_S; [reflexivity | reflexivity |].
    apply waits_O.
  - reflexivity.
  - reflexivity.
Defined.

(** X16. Once the conversation is opened, after [k] polls that only waited,
    a poll that finds the run [completed] lists the messages and
    [run_conversation] returns the text of the first message whose role is
    [assistant], whatever the messages before it hold; when reading that
    text raises, the agent-failed message with the text of the exception is
    returned instead. *)
Theorem first_assistant_message_is_returned {W} (ops : world W)
    (env : agent_env) (rt : runtime) (api_key : option str)
    (user_input thread : str) (k fuel : nat) (r0 r1 r : run)
    (w w0 w1 w2 w3 : W) (before after : list message) (m : message) :
  started ops user_input w thread r0 w0 ->
  waits ops thread k r0 w0 r1 w1 ->
  runs_retrieve ops thread (run_id r1) w1 = (inr r, w2) ->
  run_status r = lit "completed" ->
  messages_list ops thread w2 = (inr (before ++ m :: after), w3) ->
  (forall m', In m' before -> role m' <> lit "assistant") ->
  role m = lit "assistant" ->
  run_conversation W ops env rt api_key (k + S fuel) user_input w
  = (Some match content_text m with
          | inr text => text
          | inl e => msg_agent_failed (raised_text env e)
          end, w3).
Proof.
  intros Hstart Hwaits Hret Hst Hlist Hbefore Hrole. unfold run_conversation.
  rewrite (conversation_started ops env rt api_key _ _ _ _ _ _ Hstart).
  rewrite (poll_waits ops env rt api_key _ _ _ _ _ _ Hwaits).
  simpl poll. rewrite (act_bind_ok _ _ _ _ _ Hret). rewrite Hst.
  change (str_eqb (lit "completed") (lit "requires_action")) with false.
  rewrite str_eqb_refl. cbv iota.
  rewrite (act_bind_ok _ _ _ _ _ Hlist).
  assert (Hfind : find (fun m0 => str_eqb (role m0) (lit "assistant"))
                       (before ++ m :: after) = Some m).
  { clear - Hbefore Hrole. induction before as [|m0 before IH]; simpl.
    - rewrite Hrole, str_eqb_refl. reflexivity.
    - assert (H0 : str_eqb (role m0) (lit "assistant") = false)
        by (apply str_eqb_neq, Hbefore; left; reflexivity).
      rewrite H0. apply IH. intros m' Hin. apply Hbefore. right; exact Hin. }
  rewrite Hfind. unfold act_bind, act_pure, act_ret.
  destruct (content_text m); reflexivity.
Qed.

Lemma first_assistant_message_is_returned_witness :
  let script := [ mk_run (lit "run_1") (lit "in_progress") [];
                  mk_run (lit "run_1") (lit "completed") [] ] in
  let messages := [ mk_message (lit "user") (inr (lit "서울 날씨"));
                    mk_message (lit "assistant") (inr (lit "맑음"));
                    mk_message (lit "assistant") (inr (lit "흐림")) ] in
  let ops := script_world script (mk_run (lit "run_1") (lit "in_progress") [])
                          messages (mk_datetime 2024 1 1 13 0)
                          (fun _ => raise (RequestException [])) in
  run_conversation nat ops env0 rt0 None 3 (lit "서울 날씨") 0%nat
  = (Some (lit "맑음"), 2%nat).
Proof.
  intros script messages ops.
  apply (first_assistant_message_is_returned ops env0 rt0 None (lit "서울 날씨")
           (lit "thread_1") 1 1
           (mk_run (lit "run_1") (lit "queued") [])
           (mk_run (lit "run_1") (lit "in_progress") [])
           (mk_run (lit "run_1") (lit "completed") [])
           0%nat 0%nat 1%nat 2%nat 2%nat
           [mk_message (lit "user") (inr (lit "서울 날씨"))]
           [mk_message (lit "assistant") (inr (lit "흐림"))]
           (mk_message (lit "assistant") (inr (lit "맑음")))).
  - exists (lit "asst_1"), 0%nat, 0%nat, 0%nat. repeat split.
  - eapply waits_S; [reflexivity | reflexivity | apply waits_O].
  - reflexivity.
  - reflexivity.
  - reflexivity.
  - intros m' [<- | []]. vm_compute. discriminate.
  - reflexivity.
Defined.

(** X17. A completed run without an assistant message is polled for ever.
    When from every world of a set [stuck], whichever run is asked for, the
    poll finds a [completed] run, the list of messages holds no message of
    role [assistant], and the sleep leads to a world of [stuck] again, then
    [run_conversation], opened into [stuck], has not returned after any
    number of turns. *)
Theorem completed_without_answer_never_returns {W} (ops : world W)
    (env : agent_env) (rt : runtime) (api_key : option str)
    (user_input thread : str) (r0 : run) (w w0 : W) (stuck : W -> Prop) :
  (forall w1 id,
     stuck w1 ->
     exists r w2 messages w3,
       runs_retrieve ops thread id w1 = (inr r, w2) /\
       run_status r = lit "completed" /\
       messages_list ops thread w2 = (inr messages, w3) /\
       (forall m, In m messages -> role m <> lit "assistant") /\
       stuck (sleep ops w3)) ->
  started ops user_input w thread r0 w0 ->
  stuck w0 ->
  forall fuel,
    fst (run_conversation W ops env rt api_key fuel user_input w) = None.
Proof.
  intros Hstuck Hstart Hw0 fuel. unfold run_conversation.
  rewrite (conversation_started ops env rt api_key _ _ _ _ _ _ Hstart).
  assert (Hpoll : forall r1 w1,
            stuck w1 ->
            exists w', poll W ops env rt api_key fuel thread r1 w1
                       = (inr None, w')).
  { induction fuel as [|fuel IH]; intros r1 w1 Hw1;
      [eexists; reflexivity|].
    destruct (Hstuck w1 (run_id r1) Hw1)
      as (r & w2 & messages & w3 & Hret & Hst & Hlist & Hnone & Hnext).
    simpl poll. rewrite (act_bind_ok _ _ _ _ _ Hret). rewrite Hst.
    change (str_eqb (lit "completed") (lit "requires_action")) with false.
    rewrite str_eqb_refl. cbv iota.
    rewrite (act_bind_ok _ _ _ _ _ Hlist).
    assert (Hfind : find (fun m0 => str_eqb (role m0) (lit "assistant"))
                         messages = None).
    { apply find_all_false. intros m Hm. apply str_eqb_neq, Hnone, Hm. }
    rewrite Hfind. unfold act_bind at 1, do_sleep. apply IH, Hnext. }
  destruct (Hpoll r0 w0 Hw0) as (w' & ->). reflexivity.
Qed.

Lemma completed_without_answer_never_returns_witness :
  let ops := script_world [] (mk_run (lit "run_1") (lit "completed") [])
                          [mk_message (lit "user") (inr (lit "서울 날씨"))]
                          (mk_datetime 2024 1 1 13 0)
                          (fun _ => raise (RequestException [])) in
  fst (run_conversation nat ops env0 rt0 None 1000 (lit "서울 날씨") 0%nat)
  = None.
Proof.
  intros ops.
  apply (completed_without_answer_never_returns ops env0 rt0 None
           (lit "서울 날씨") (lit "thread_1")
           (mk_run (lit "run_1") (lit "queued") []) 0%nat 0%nat
           (fun _ => True)).
  - intros w1 id _.
    exists (mk_run (lit "run_1") (lit "completed") []), (S w1),
           [mk_message (lit "user") (inr (lit "서울 날씨"))], (S w1).
    repeat split.
    + simpl. destruct w1; reflexivity.
    + intros m [<- | []]. vm_compute. discriminate.
  - exists (lit "asst_1"), 0%nat, 0%nat, 0%nat. repeat split.
  - exact I.
Defined.

(** ** The tool calls *)

Lemma run_tools_outputs {W} (ops : world W) (env : agent_env) (rt : runtime)
    (api_key : option str) (calls : list tool_call) :
  forall acc w outs w',
    run_tools W ops env rt api_key calls acc w = (inr outs, w') ->
    (forall call,
       In call calls ->
       exists function_args,
         loads env (function_arguments call) = inr function_args) /\
    exists results,
      Forall2 (served ops env rt api_key) (filter for_weather calls) results /\
      outs = acc ++ outputs_of env (filter for_weather calls) results.
Proof.
  induction calls as [|call rest IH]; intros acc w outs w' H.
  - simpl in H. inversion H; subst. split; [intros ? []|].
    exists []. split; [constructor | symmetry; apply app_nil_r].
  - simpl in H. unfold act_bind at 1, act_pure in H.
    destruct (loads env (function_arguments call)) as [e | args] eqn:Hloads;
      [discriminate|].
    unfold for_weather at 1 2. simpl filter.
    destruct (str_eqb (function_name call) (lit "get_weather")) eqn:Hname.
    + unfold act_bind at 1, act_py, act_pure in H.
      destruct (py_getitem args (lit "location")) as [e | location] eqn:Hloc;
        [discriminate|].
      unfold act_bind at 1, call_get_weather in H.
      destruct (get_weather_arg rt api_key location (clock ops w) (network ops w))
        as [requests out] eqn:Hcall.
      destruct out as [r | e]; [| discriminate].
      destruct (IH _ _ _ _ H) as (Hparsed & results & Hserved & Houts).
      split.
      * intros c [<- | Hin]; [eauto | apply Hparsed, Hin].
      * exists (r :: results). split.
        -- constructor; [| exact Hserved].
           exists args, location, w. rewrite Hcall. auto.
        -- rewrite Houts, <- app_assoc. reflexivity.
    + destruct (IH _ _ _ _ H) as (Hparsed & results & Hserved & Houts).
      split; [| eauto].
      intros c [<- | Hin]; [eauto | apply Hparsed, Hin].
Qed.

(** X18. When the loop over the tool calls completes, the arguments of
    every call were valid JSON, whatever function the call names, and
    [tool_outputs] holds one entry for each call of [get_weather], in the
    order of the calls and none for any other call: the id of the call with
    the dump of the result that [get_weather] returned for the [location] of
    its arguments. *)
Theorem tool_outputs_follow_calls {W} (ops : world W) (env : agent_env)
    (rt : runtime) (api_key : option str) (calls : list tool_call)
    (w w' : W) (outs : list tool_output) :
  run_tools W ops env rt api_key calls [] w = (inr outs, w') ->
  (forall call,
     In call calls ->
     exists function_args,
       loads env (function_arguments call) = inr function_args) /\
  exists results,
    Forall2 (served ops env rt api_key) (filter for_weather calls) results /\
    outs = outputs_of env (filter for_weather calls) results /\
    map tool_call_id outs = map call_id (filter for_weather calls).
Proof.
  intros H.
  destruct (run_tools_outputs ops env rt api_key calls [] w outs w' H)
    as (Hparsed & results & Hserved & Houts).
  split; [exact Hparsed|]. exists results. simpl in Houts.
  split; [exact Hserved|]. split; [exact Houts|].
  rewrite Houts. clear - Hserved.
  induction Hserved as [|c r cs rs _ _ IH]; simpl; [reflexivity|].
  unfold outputs_of in IH. rewrite IH. reflexivity.
Qed.

Lemma tool_outputs_follow_calls_witness :
  let calls := [ mk_tool_call (lit "call_1") (lit "get_time") (lit "{}");
                 mk_tool_call (lit "call_2") (lit "get_weather") (lit "{}") ] in
  let ops := script_world [] (mk_run (lit "run_1") (lit "in_progress") []) []
                          (mk_datetime 2024 1 1 13 0)
                          (fun _ => raise (RequestException [])) in
  exists outs,
    fst (run_tools nat ops env0 rt0 (Some (lit "k")) calls [] 0%nat) = inr outs /\
    map tool_call_id outs = [lit "call_2"].
Proof.
  intros calls ops.
  destruct (run_tools nat ops env0 rt0 (Some (lit "k")) calls [] 0%nat)
    as [[e | outs] w'] eqn:Hrun.
  - vm_compute in Hrun. discriminate.
  - exists outs. split; [reflexivity|].
    destruct (tool_outputs_follow_calls ops env0 rt0 (Some (lit "k")) calls
                0%nat w' outs Hrun) as (_ & results & _ & _ & Hids).
    exact Hids.
Defined.

Lemma run_tools_skips {W} (ops : world W) (env : agent_env) (rt : runtime)
    (api_key : option str) (pre rest : list tool_call) :
  (forall call,
     In call pre ->
     for_weather call = false /\
     exists function_args,
       loads env (function_arguments call) = inr function_args) ->
  forall acc w,
    run_tools W ops env rt api_key (pre ++ rest) acc w
    = run_tools W ops env rt api_key rest acc w.
Proof.
  induction pre as [|call pre IH]; intros Hpre acc w; [reflexivity|].
  destruct (Hpre call (or_introl eq_refl)) as (Hname & args & Hloads).
  simpl. unfold act_bind at 1, act_pure. rewrite Hloads.
  unfold for_weather in Hname. rewrite Hname.
  apply IH. intros c Hc. apply Hpre. right; exact Hc.
Qed.

(** X19. A tool call that cannot be served ends the conversation.  When a
    poll finds the run in [requires_action] and, after calls of other
    functions with valid arguments, there is a call whose arguments are not
    valid JSON (whatever function it names), or a call of [get_weather] whose
    arguments have no [location] or cannot be subscripted, the exception is
    caught and [run_conversation] returns the agent-failed message with its
    text; nothing is submitted to the run. *)
Theorem bad_tool_call_fails_conversation {W} (ops : world W)
    (env : agent_env) (rt : runtime) (api_key : option str)
    (user_input thread : str) (k fuel : nat) (r0 r1 r : run)
    (w w0 w1 w2 : W) (pre post : list tool_call) (call : tool_call)
    (e : raised) :
  started ops user_input w thread r0 w0 ->
  waits ops thread k r0 w0 r1 w1 ->
  runs_retrieve ops thread (run_id r1) w1 = (inr r, w2) ->
  run_status r = lit "requires_action" ->
  run_tool_calls r = pre ++ call :: post ->
  (forall c,
     In c pre ->
     for_weather c = false /\
     exists function_args,
       loads env (function_arguments c) = inr function_args) ->
  (loads env (function_arguments call) = inl e \/
   exists function_args e',
     for_weather call = true /\
     loads env (function_arguments call) = inr function_args /\
     py_getitem function_args (lit "location") = inl e' /\
     e = Py e') ->
  run_conversation W ops env rt api_key (k + S fuel) user_input w
  = (Some (msg_agent_failed (raised_text env e)), w2).
Proof.
  intros Hstart Hwaits Hret Hst Hcalls Hpre Hbad. unfold run_conversation.
  rewrite (conversation_started ops env rt api_key _ _ _ _ _ _ Hstart).
  rewrite (poll_waits ops env rt api_key _ _ _ _ _ _ Hwaits).
  simpl poll. rewrite (act_bind_ok _ _ _ _ _ Hret). rewrite Hst.
  rewrite str_eqb_refl. cbv iota.
  assert (Htools : run_tools W ops env rt api_key (run_tool_calls r) [] w2
                   = (inl e, w2)).
  { rewrite Hcalls, (run_tools_skips ops env rt api_key pre _ Hpre).
    simpl. unfold act_bind at 1, act_pure.
    destruct Hbad as [Hloads | (args & e' & Hname & Hloads & Hloc & ->)].
    - rewrite Hloads. reflexivity.
    - rewrite Hloads. unfold for_weather in Hname. rewrite Hname.
      unfold act_bind at 1, act_py, act_pure. rewrite Hloc. reflexivity. }
  rewrite (act_bind_raised _ _ _ _ _ Htools). reflexivity.
Qed.

(** The arguments hold no [location]. *)
Lemma bad_tool_call_fails_conversation_witness :
  let call := mk_tool_call (lit "call_1") (lit "get_weather") (lit "{}") in
  let script := [ mk_run (lit "run_1") (lit "requires_action") [call] ] in
  let ops := script_world script (mk_run (lit "run_1") (lit "in_progress") [])
                          [] (mk_datetime 2024 1 1 13 0)
                          (fun _ => raise (RequestException [])) in
  let env := mk_agent_env (fun _ => inr (JObj [])) (fun _ => []) [] in
  run_conversation nat ops env rt0 (Some (lit "k")) 1 (lit "날씨") 0%nat
  = (Some (msg_agent_failed (lit "'location'")), 1%nat).
Proof.
  intros call script ops env.
  apply (bad_tool_call_fails_conversation ops env rt0 (Some (lit "k"))
           (lit "날씨") (lit "thread_1") 0 0
           (mk_run (lit "run_1") (lit "queued") [])
           (mk_run (lit "run_1") (lit "queued") [])
           (mk_run (lit "run_1") (lit "requires_action") [call])
           0%nat 0%nat 0%nat 1%nat [] [] call
           (Py (KeyError (lit "location")))).
  - exists (lit "asst_1"), 0%nat, 0%nat, 0%nat. repeat split.
  - apply waits_O.
  - reflexivity.
  - reflexivity.
  - reflexivity.
  - intros c [].
  - right. exists (JObj []), (KeyError (lit "location")). repeat split.
Defined.

Lemma get_weather_arg_str (rt : runtime) (api_key : option str) (loc : str)
    (now : datetime) (get : http) :
  get_weather_arg rt api_key (JStr loc) now get
  = get_weather rt api_key loc now get.
Proof.
  unfold get_weather_arg, get_weather.
  destruct (no_key api_key); reflexivity.
Qed.

(** X20. One round of the tool.  When a poll finds the run in
    [requires_action] with a single call of [get_weather] whose arguments hold
    the string [loc] as [location], [get_weather] is called with [loc] at the
    time and on the network of that moment; if it returns a result (an error
    result included), the dump of the result is submitted under the id of
    the call, for the run just retrieved, and the loop sleeps and polls that
    run again. *)
Theorem weather_round {W} (ops : world W) (env : agent_env) (rt : runtime)
    (api_key : option str) (thread : str) (fuel : nat) (current r : run)
    (w1 w2 w3 : W) (call : tool_call) (function_args : json) (loc : str)
    (requests : list request) (res : result) :
  runs_retrieve ops thread (run_id current) w1 = (inr r, w2) ->
  run_status r = lit "requires_action" ->
  run_tool_calls r = [call] ->
  for_weather call = true ->
  loads env (function_arguments call) = inr function_args ->
  py_getitem function_args (lit "location") = inr (JStr loc) ->
  get_weather rt api_key loc (clock ops w2) (network ops w2)
  = (requests, Returns res) ->
  runs_submit_tool_outputs ops thread (run_id r)
    [mk_tool_output (call_id call) (dumps env res)] (sent ops requests w2)
  = (inr tt, w3) ->
  poll W ops env rt api_key (S fuel) thread current w1
  = poll W ops env rt api_key fuel thread r (sleep ops w3).
Proof.
  intros Hret Hst Hcalls Hname Hloads Hloc Hcall Hsubmit.
  simpl poll. rewrite (act_bind_ok _ _ _ _ _ Hret). rewrite Hst.
  rewrite str_eqb_refl. cbv iota.
  assert (Htools : run_tools W ops env rt api_key (run_tool_calls r) [] w2
                   = (inr [mk_tool_output (call_id call) (dumps env res)],
                      sent ops requests w2)).
  { rewrite Hcalls. simpl. unfold act_bind at 1, act_pure. rewrite Hloads.
    unfold for_weather in Hname. rewrite Hname.
    unfold act_bind at 1, act_py, act_pure. rewrite Hloc.
    unfold act_bind at 1, call_get_weather.
    rewrite get_weather_arg_str, Hcall. reflexivity. }
  rewrite (act_bind_ok _ _ _ _ _ Htools).
  rewrite (act_bind_ok _ _ _ _ _ Hsubmit).
  reflexivity.
Qed.

(** The key is not set: the configuration error is what is submitted. *)
Lemma weather_round_witness :
  let call := mk_tool_call (lit "call_1") (lit "get_weather") (lit "{}") in
  let script := [ mk_run (lit "run_1") (lit "requires_action") [call] ] in
  let ops := script_world script (mk_run (lit "run_1") (lit "in_progress") [])
                          [] (mk_datetime 2024 1 1 13 0)
                          (fun _ => raise (RequestException [])) in
  poll nat ops env0 rt0 None 1 (lit "thread_1")
       (mk_run (lit "run_1") (lit "queued") []) 0%nat
  = poll nat ops env0 rt0 None 0 (lit "thread_1")
         (mk_run (lit "run_1") (lit "requires_action") [call]) 1%nat.
Proof.
  intros call script ops.
  apply (weather_round ops env0 rt0 None (lit "thread_1") 0
           (mk_run (lit "run_1") (lit "queued") [])
           (mk_run (lit "run_1") (lit "requires_action") [call])
           0%nat 1%nat 1%nat call
           (JObj [(lit "location", JStr (lit "서울"))]) (lit "서울")
           [] (Error msg_no_api_key));
    reflexivity.
Defined.

(** X21. A [location] that is a list or an object.  With the API key set,
    [get_weather] hashes the location for the table lookup before its [try]
    block, so [TypeError] leaves it; in the agent, when a poll finds the run
    in [requires_action] and, after calls of other functions with valid
    arguments, a call of [get_weather] has such a [location], the exception
    is caught, [run_conversation] returns the agent-failed message with the
    text of the [TypeError], no request has been sent and nothing is
    submitted to the run. *)
Theorem unhashable_location_fails_conversation {W} (ops : world W)
    (env : agent_env) (rt : runtime) (api_key : option str)
    (user_input thread : str) (k fuel : nat) (r0 r1 r : run)
    (w w0 w1 w2 : W) (pre post : list tool_call) (call : tool_call)
    (function_args location : json) :
  started ops user_input w thread r0 w0 ->
  waits ops thread k r0 w0 r1 w1 ->
  runs_retrieve ops thread (run_id r1) w1 = (inr r, w2) ->
  run_status r = lit "requires_action" ->
  run_tool_calls r = pre ++ call :: post ->
  (forall c,
     In c pre ->
     for_weather c = false /\
     exists args, loads env (function_arguments c) = inr args) ->
  for_weather call = true ->
  loads env (function_arguments call) = inr function_args ->
  py_getitem function_args (lit "location") = inr location ->
  unhashable location = true ->
  no_key api_key = false ->
  get_weather_arg rt api_key location (clock ops w2) (network ops w2)
  = ([], Raises TypeError) /\
  run_conversation W ops env rt api_key (k + S fuel) user_input w
  = (Some (msg_agent_failed (type_error_text env)), sent ops [] w2).
Proof.
  intros Hstart Hwaits Hret Hst Hcalls Hpre Hname Hloads Hloc Hun Hkey.
  assert (Hcall : get_weather_arg rt api_key location (clock ops w2)
                                  (network ops w2) = ([], Raises TypeError)).
  { unfold get_weather_arg. rewrite Hkey.
    destruct location; try discriminate; reflexivity. }
  split; [exact Hcall|].
  unfold run_conversation.
  rewrite (conversation_started ops env rt api_key _ _ _ _ _ _ Hstart).
  rewrite (poll_waits ops env rt api_key _ _ _ _ _ _ Hwaits).
  simpl poll. rewrite (act_bind_ok _ _ _ _ _ Hret). rewrite Hst.
  rewrite str_eqb_refl. cbv iota.
  assert (Htools : run_tools W ops env rt api_key (run_tool_calls r) [] w2
                   = (inl (Py TypeError), sent ops [] w2)).
  { rewrite Hcalls, (run_tools_skips ops env rt api_key pre _ Hpre).
    simpl. unfold act_bind at 1, act_pure. rewrite Hloads.
    unfold for_weather in Hname. rewrite Hname.
    unfold act_bind at 1, act_py, act_pure. rewrite Hloc.
    unfold act_bind at 1, call_get_weather. rewrite Hcall. reflexivity. }
  rewrite (act_bind_raised _ _ _ _ _ Htools). reflexivity.
Qed.

(** Two cities sent as a list. *)
Lemma unhashable_location_fails_conversation_witness :
  let call := mk_tool_call (lit "call_1") (lit "get_weather") (lit "{}") in
  let script := [ mk_run (lit "run_1") (lit "requires_action") [call] ] in
  let ops := script_world script (mk_run (lit "run_1") (lit "in_progress") [])
                          [] (mk_datetime 2024 1 1 13 0)
                          (fun _ => raise (RequestException [])) in
  let args := JObj [ (lit "location",
                      JArr [JStr (lit "서울"); JStr (lit "부산")]) ] in
  let env := mk_agent_env (fun _ => inr args) (fun _ => [])
                          (lit "unhashable type: 'list'") in
  run_conversation nat ops env rt0 (Some (lit "k")) 1 (lit "날씨") 0%nat
  = (Some (msg_agent_failed (lit "unhashable type: 'list'")), 1%nat).
Proof.
  intros call script ops args env.
  apply (unhashable_location_fails_conversation ops env rt0 (Some (lit "k"))
           (lit "날씨") (lit "thread_1") 0 0
           (mk_run (lit "run_1") (lit "queued") [])
           (mk_run (lit "run_1") (lit "queued") [])
           (mk_run (lit "run_1") (lit "requires_action") [call])
           0%nat 0%nat 0%nat 1%nat [] [] call args
           (JArr [JStr (lit "서울"); JStr (lit "부산")])).
  - exists (lit "asst_1"), 0%nat, 0%nat, 0%nat. repeat split.
  - apply waits_O.
  - reflexivity.
  - reflexivity.
  - reflexivity.
  - intros c [].
  - reflexivity.
  - reflexivity.
  - reflexivity.
  - reflexivity.
  - reflexivity.
Defined.

(** ** The current snapshot *)

Lemma sorted_head_is_earliest (slots rest : list forecast_slot)
    (first : forecast_slot) (n : nat) :
  NoDup (map stamp slots) ->
  firstn n (sorted_slots slots) = first :: rest ->
  forall s, In s slots -> s = first \/ before first s.
Proof.
  intros Hnd Hfirst s Hs.
  assert (Hsorted : StronglySorted before (sorted_slots slots)).
  { rewrite <- (firstn_all (sorted_slots slots)).
    apply first_sorted_strict, Hnd. }
  assert (Hin : In s (sorted_slots slots))
    by (eapply Permutation_in; [symmetry; apply sorted_slots_perm | exact Hs]).
  rewrite <- (firstn_skipn n (sorted_slots slots)), Hfirst in Hsorted, Hin.
  simpl in Hsorted, Hin. inversion Hsorted as [|? ? _ Hall]; subst.
  destruct Hin as [<- | Hin]; [left; reflexivity | right].
  apply (proj1 (Forall_forall _ _) Hall s Hin).
Qed.

(** C4. For well-formed items the result is a success structure built from
    the slots of the stored records: the slots have distinct timestamps,
    every slot carries the timestamp of a stored record and every stored
    record has its label in the slot of its timestamp key, every entry of a
    slot being the decoded value of a stored record under the label of its
    category; the slots arranged in strictly ascending order of timestamp
    split into the slots shown, whose reformatting is the forecasts, and the
    slots dropped, [min 24 n] being shown of [n].  When there is no slot
    there is no forecast and no snapshot.  When there is one, the snapshot is
    read from the data of the first slot shown, which is the earliest of all
    the slots: each of its six fields is the value under its label when the
    label is there, and 정보 없음 when it is not. *)
Theorem current_snapshot_of_first_slot (rt : runtime) (api_key : option str)
    (loc : str) (now : datetime) (get : http) (l : list json)
    (items : list raw_item) :
  delivers get api_key loc now (JArr l) ->
  Forall2 represents l items ->
  l <> [] ->
  let bd := fst (select_batch now) in
  exists info slots shown dropped,
    snd (get_weather rt api_key loc now get) = Returns (Weather info) /\
    NoDup (map stamp slots) /\
    (forall s,
       In s slots ->
       exists it,
         In it items /\ relevant now bd it = true /\ stamp s = item_stamp it) /\
    (forall s label v,
       In s slots -> In (label, v) (slot_data s) ->
       exists it,
         In it items /\ kept now bd it = true /\
         slot_key it = key_of_stamp (stamp s) /\
         dict_get (category it) weather_codes = Some label /\
         v = JStr (decoded it)) /\
    (forall it label,
       In it items -> kept now bd it = true ->
       dict_get (category it) weather_codes = Some label ->
       exists s,
         In s slots /\ key_of_stamp (stamp s) = slot_key it /\
         dict_has label (slot_data s) = true) /\
    Permutation (shown ++ dropped) slots /\
    StronglySorted before (shown ++ dropped) /\
    forecasts info = map format_slot shown /\
    List.length shown = Nat.min 24 (List.length slots) /\
    match shown with
    | [] => slots = [] /\ forecasts info = [] /\ current info = None
    | first :: _ =>
        (forall s, In s slots -> s = first \/ before first s) /\
        let field := fun label =>
          match dict_get label (slot_data first) with
          | Some v => v
          | None => JStr (lit "정보 없음")
          end in
        exists c,
          current info = Some c /\
          temperature c = field (lit "기온") /\
          sky c = field (lit "하늘상태") /\
          precipitation_type c = field (lit "강수형태") /\
          precipitation_probability c = field (lit "강수확률") /\
          humidity c = field (lit "습도") /\
          wind_speed c = field (lit "풍속")
    end.
Proof.
  intros Hdel Hrep Hne bd.
  set (slots := slots_of now bd items).
  pose proof (slots_of_NoDup now bd items) as Hnd. fold slots in Hnd.
  assert (Hsorted : StronglySorted before (sorted_slots slots)).
  { rewrite <- (firstn_all (sorted_slots slots)).
    apply first_sorted_strict, Hnd. }
  assert (Hlen : List.length (firstn 24 (sorted_slots slots))
                 = Nat.min 24 (List.length slots)).
  { rewrite length_firstn, (Permutation_length (sorted_slots_perm _)).
    reflexivity. }
  exists (assemble loc bd (snd (select_batch now)) slots), slots,
         (firstn 24 (sorted_slots slots)), (skipn 24 (sorted_slots slots)).
  rewrite firstn_skipn.
  split.
  { rewrite (get_weather_decodes rt api_key loc now get l items Hdel Hrep).
    destruct l; [congruence | reflexivity]. }
  split; [exact Hnd|].
  split; [intros s Hs; apply (slots_of_from now bd items s Hs)|].
  split.
  { intros s label v Hs Hin.
    destruct (slots_of_In now bd items s Hs) as (_ & _ & Ho).
    exact (Ho label v Hin). }
  split.
  { intros it label Hin Hk Hl.
    exact (slots_of_complete now bd items it label Hin Hk Hl). }
  split; [apply sorted_slots_perm|].
  split; [exact Hsorted|].
  split; [reflexivity|].
  split; [exact Hlen|].
  unfold assemble. cbn [forecasts current].
  destruct (firstn 24 (sorted_slots slots)) as [|first rest] eqn:Hshown.
  - repeat split; try reflexivity.
    simpl in Hlen. destruct slots as [|s slots']; [reflexivity|].
    simpl in Hlen. discriminate.
  - split; [exact (sorted_head_is_earliest slots rest first 24 Hnd Hshown)|].
    cbn. eexists. split; [reflexivity|]. repeat split; reflexivity.
Qed.

(** The slot of 14:00, which lacks the wind speed, is the earliest, although
    the records of 15:00 are sent first: the field is the sentinel, the
    others are read from that slot. *)
Lemma current_snapshot_of_first_slot_witness :
  let items :=
    [ item "TMP" "20240101" "1500" "6"; item "WSD" "20240101" "1500" "2.3";
      item "TMP" "20240101" "1400" "5"; item "SKY" "20240101" "1400" "4";
      item "PTY" "20240101" "1400" "3"; item "POP" "20240101" "1400" "60";
      item "REH" "20240101" "1400" "80" ] in
  exists info,
    snd (get_weather rt0 (Some (lit "k")) (lit "서울") (mk_datetime 2024 1 1 13 0)
           (fun _ => ret (ok_response (JArr (map item_json items)))))
    = Returns (Weather info) /\
    map slot_time (forecasts info) = [lit "14:00"; lit "15:00"] /\
    current info
    = Some (mk_current (JStr (lit "5")) (JStr (lit "흐림")) (JStr (lit "눈"))
                       (JStr (lit "60")) (JStr (lit "80"))
                       (JStr (lit "정보 없음"))).
Proof.
  intros items.
  destruct (current_snapshot_of_first_slot rt0 (Some (lit "k")) (lit "서울")
              (mk_datetime 2024 1 1 13 0)
              (fun _ => ret (ok_response (JArr (map item_json items))))
              (map item_json items) items)
    as (info & slots & shown & dropped & Hout & _).
  - apply (delivers_ok_response _ _ _ 60 127); [discriminate | reflexivity].
  - apply Forall2_represents_map.
  - discriminate.
  - exists info. split; [exact Hout|].
    assert (H : Returns (Weather info) =
                snd (get_weather rt0 (Some (lit "k")) (lit "서울")
                       (mk_datetime 2024 1 1 13 0)
                       (fun _ => ret (ok_response (JArr (map item_json items))))))
      by (symmetry; exact Hout).
    vm_compute in H. inversion H. split; reflexivity.
Defined.
